(** * Superstore dashboards: the data-preparation pipeline

    Two scripts, [hello.py] and [superstore_analysis.py], load a table of
    retail transactions, coerce a few columns, derive [Profit Margin] (and,
    in [hello.py], [Absolute Profit]), build grouped views and hand them to
    a charting library.  This development embeds the pandas operations the
    scripts call and the scripts themselves, and proves the properties the
    specification states about them.

    Numbers: a float64 cell is modelled as an extended rational, exact on
    finite values and following IEEE-754 on infinities and NaN (division by
    zero, [inf - inf]).  Rounding and the sign of zero are not modelled,
    so no property below rests on regrouping the terms of a sum.

    pandas: the scripts call [groupby], [sum] and [mean] with their default
    arguments, so groups are sorted by key, a row with a missing key is in
    no group ([dropna=True]) and reductions skip NaN. *)

From Stdlib Require Import List String Ascii ZArith QArith Qcanon Qcabs Bool Lia
  Permutation Sorted.
Import ListNotations.

Local Open Scope string_scope.
Local Open Scope list_scope.

(* ------------------------------------------------------------------ *)
(** ** Numbers *)

Module Num.

Inductive xnum : Type :=
| Fin (q : Qc)
| PInf
| NInf
| NaN.

Definition of_Z (z : Z) : xnum := Fin (Q2Qc (inject_Z z)).

Definition is_nan (x : xnum) : bool :=
  match x with NaN => true | _ => false end.

Definition is_finite (x : xnum) : bool :=
  match x with Fin _ => true | _ => false end.

Definition xnum_eq_dec (x y : xnum) : {x = y} + {x <> y}.
Proof.
  decide equality. apply Qc_eq_dec.
Defined.

(** IEEE addition. *)
Definition xadd (x y : xnum) : xnum :=
  match x, y with
  | NaN, _ | _, NaN => NaN
  | PInf, NInf | NInf, PInf => NaN
  | PInf, _ | _, PInf => PInf
  | NInf, _ | _, NInf => NInf
  | Fin a, Fin b => Fin (a + b)
  end.

(** IEEE division: a non-zero finite number over zero is an infinity of
    the sign of the numerator, [0 / 0] and [inf / inf] are NaN.  Nothing is
    raised: numpy only warns. *)
Definition xdiv (x y : xnum) : xnum :=
  match x, y with
  | NaN, _ | _, NaN => NaN
  | Fin p, Fin s =>
      match Qccompare s 0 with
      | Eq => match Qccompare p 0 with
              | Gt => PInf
              | Lt => NInf
              | Eq => NaN
              end
      | _ => Fin (p / s)
      end
  | Fin _, (PInf | NInf) => Fin 0
  | PInf, Fin s => match Qccompare s 0 with Lt => NInf | _ => PInf end
  | NInf, Fin s => match Qccompare s 0 with Lt => PInf | _ => NInf end
  | (PInf | NInf), (PInf | NInf) => NaN
  end.

(** [np.abs]. *)
Definition xabs (x : xnum) : xnum :=
  match x with
  | Fin q => Fin (Qcabs q)
  | PInf | NInf => PInf
  | NaN => NaN
  end.

(** [x >= 0] as IEEE comparison: false on NaN. *)
Definition nonneg (x : xnum) : bool :=
  match x with
  | Fin q => match Qccompare q 0 with Lt => false | _ => true end
  | PInf => true
  | NInf | NaN => false
  end.

Definition xleb (x y : xnum) : bool :=
  match x, y with
  | NaN, _ => true
  | _, NaN => false
  | NInf, _ => true
  | _, NInf => false
  | _, PInf => true
  | PInf, _ => false
  | Fin a, Fin b => match Qccompare a b with Gt => false | _ => true end
  end.

(** Plain IEEE sum of a list. *)
Definition xsum (l : list xnum) : xnum := fold_right xadd (Fin 0) l.

Definition not_nan (x : xnum) : bool := negb (is_nan x).

(** pandas reductions skip NaN ([skipna=True]; the grouped reductions
    always do).  The sum of no value is 0, the mean of no value is NaN. *)
Definition nansum (l : list xnum) : xnum := xsum (filter not_nan l).

Definition nanmean (l : list xnum) : xnum :=
  match filter not_nan l with
  | [] => NaN
  | v :: vs => xdiv (xsum (v :: vs)) (of_Z (Z.of_nat (List.length (v :: vs))))
  end.

End Num.
Import Num.

(* ------------------------------------------------------------------ *)
(** ** Dates *)

Record date : Type := mkDate { year : Z; month : Z; day : Z }.

Definition date_eq_dec (a b : date) : {a = b} + {a <> b}.
Proof.
  decide equality; apply Z.eq_dec.
Defined.

Definition date_leb (a b : date) : bool :=
  match Z.compare (year a) (year b) with
  | Lt => true
  | Gt => false
  | Eq => match Z.compare (month a) (month b) with
          | Lt => true
          | Gt => false
          | Eq => Z.leb (day a) (day b)
          end
  end.

Definition is_leap (y : Z) : bool :=
  ((y mod 4 =? 0) && (negb (y mod 100 =? 0) || (y mod 400 =? 0)))%Z.

Definition days_in_month (y m : Z) : Z :=
  match m with
  | 2 => if is_leap y then 29 else 28
  | 4 | 6 | 9 | 11 => 30
  | _ => 31
  end%Z.

(** The label [pd.Grouper(freq='M')] gives the bin of a timestamp: the
    last day of its calendar month. *)
Definition month_end (d : date) : date :=
  mkDate (year d) (month d) (days_in_month (year d) (month d)).

Definition same_month (a b : date) : Prop :=
  year a = year b /\ month a = month b.

(* ------------------------------------------------------------------ *)
(** ** Cells, columns and frames *)

(** A cell of a pandas column.  A missing value is the float NaN (also in
    a column of text) or, in a datetime column, NaT. *)
Inductive cell : Type :=
| CStr (s : string)
| CNum (x : xnum)
| CDate (d : date)
| CNaT.

Definition is_na (c : cell) : bool :=
  match c with
  | CNum NaN | CNaT => true
  | _ => false
  end.

Definition cell_eq_dec (a b : cell) : {a = b} + {a <> b}.
Proof.
  decide equality.
  - apply string_dec.
  - apply xnum_eq_dec.
  - apply date_eq_dec.
Defined.

Definition column := list cell.

(** A DataFrame: its columns in order, by name.  All columns of a frame
    have one length, its number of rows. *)
Definition frame := list (string * column).

Fixpoint lookup (name : string) (df : frame) : option column :=
  match df with
  | [] => None
  | (n, c) :: rest => if String.eqb n name then Some c else lookup name rest
  end.

Definition has_column (name : string) (df : frame) : bool :=
  match lookup name df with Some _ => true | None => false end.

Definition frame_rows (n : nat) (df : frame) : Prop :=
  Forall (fun nc => List.length (snd nc) = n) df.

(** [df[name] = vals]: replaces the column in place when it exists,
    appends it otherwise. *)
Fixpoint setitem (df : frame) (name : string) (vals : column) : frame :=
  match df with
  | [] => [(name, vals)]
  | (n, c) :: rest =>
      if String.eqb n name then (n, vals) :: rest
      else (n, c) :: setitem rest name vals
  end.

(* ------------------------------------------------------------------ *)
(** ** Errors *)

Inductive error : Type :=
| KeyError (name : string)
| ValueError
| TypeError.

Inductive result (A : Type) : Type :=
| Ok (a : A)
| Err (e : error).
Arguments Ok {A} a.
Arguments Err {A} e.

Definition rbind {A B} (r : result A) (k : A -> result B) : result B :=
  match r with
  | Ok a => k a
  | Err e => Err e
  end.

Notation "x <- r ;; k" := (rbind r (fun x => k))
  (at level 61, r at next level, right associativity).

Fixpoint mapM {A B} (f : A -> result B) (l : list A) : result (list B) :=
  match l with
  | [] => Ok []
  | a :: rest => b <- f a ;; bs <- mapM f rest ;; Ok (b :: bs)
  end.

(** [df[name]]. *)
Definition getitem (df : frame) (name : string) : result column :=
  match lookup name df with
  | Some c => Ok c
  | None => Err (KeyError name)
  end.

(* ------------------------------------------------------------------ *)
(** ** The pandas operations the scripts call *)

(** What the text parsers of the library do is not part of the scripts:
    they are parameters.  [None] is a parse failure; a parsed date may be
    NaT (an empty field), a parsed number may be NaN. *)
Class Parsers : Type := {
  parse_datetime : string -> option (option date);
  parse_numeric : string -> option xnum;
  datetime_of_number : xnum -> option date;
  number_of_datetime : option date -> xnum
}.

Definition date_cell (d : option date) : cell :=
  match d with Some d' => CDate d' | None => CNaT end.

Section Pandas.
Context {P : Parsers}.

(** [pd.to_datetime], on one cell.  A value that cannot be read raises. *)
Definition coerce_datetime (c : cell) : result cell :=
  match c with
  | CStr s => match parse_datetime s with
              | Some d => Ok (date_cell d)
              | None => Err ValueError
              end
  | CNum NaN => Ok CNaT
  | CNum x => match datetime_of_number x with
              | Some d => Ok (CDate d)
              | None => Err ValueError
              end
  | CDate d => Ok (CDate d)
  | CNaT => Ok CNaT
  end.

(** [pd.to_numeric], on one cell. *)
Definition coerce_numeric (c : cell) : result cell :=
  match c with
  | CStr s => match parse_numeric s with
              | Some x => Ok (CNum x)
              | None => Err ValueError
              end
  | CNum x => Ok (CNum x)
  | CDate d => Ok (CNum (number_of_datetime (Some d)))
  | CNaT => Ok (CNum (number_of_datetime None))
  end.

(** [a / b] on cells: defined on numbers only. *)
Definition cell_div (a b : cell) : result cell :=
  match a, b with
  | CNum x, CNum y => Ok (CNum (xdiv x y))
  | _, _ => Err TypeError
  end.

(** [np.abs] on a cell. *)
Definition cell_abs (a : cell) : result cell :=
  match a with
  | CNum x => Ok (CNum (xabs x))
  | _ => Err TypeError
  end.

Definition to_datetime (c : column) : result column := mapM coerce_datetime c.
Definition to_numeric (c : column) : result column := mapM coerce_numeric c.

(** Element-wise division of two columns of one frame (hence of one
    length): one failing cell fails the whole operation. *)
Definition col_div (a b : column) : result column :=
  mapM (fun ab => cell_div (fst ab) (snd ab)) (combine a b).

Definition col_abs (a : column) : result column := mapM cell_abs a.

(** *** The preparation section of a script

    Each statement of the section is an assignment [df[target] = rhs]. *)
Inductive expr : Type :=
| ToDatetime (src : string)       (* pd.to_datetime(df[src]) *)
| ToNumeric (src : string)        (* pd.to_numeric(df[src])  *)
| Div (num den : string)          (* df[num] / df[den]       *)
| Abs (src : string).             (* np.abs(df[src])         *)

Record assign : Type := Assign { target : string; rhs : expr }.

Definition eval_expr (e : expr) (df : frame) : result column :=
  match e with
  | ToDatetime src => c <- getitem df src ;; to_datetime c
  | ToNumeric src => c <- getitem df src ;; to_numeric c
  | Div num den => a <- getitem df num ;; b <- getitem df den ;; col_div a b
  | Abs src => c <- getitem df src ;; col_abs c
  end.

Definition exec_assign (a : assign) (df : frame) : result frame :=
  vals <- eval_expr (rhs a) df ;; Ok (setitem df (target a) vals).

Fixpoint run_prep (steps : list assign) (df : frame) : result frame :=
  match steps with
  | [] => Ok df
  | a :: rest => df' <- exec_assign a df ;; run_prep rest df'
  end.

(** hello.py, lines 31-37. *)
Definition hello_prep : list assign :=
  [ Assign "Order Date" (ToDatetime "Order Date");
    Assign "Sales" (ToNumeric "Sales");
    Assign "Profit" (ToNumeric "Profit");
    Assign "Profit Margin" (Div "Profit" "Sales");
    Assign "Absolute Profit" (Abs "Profit") ].

(** superstore_analysis.py, lines 17-18. *)
Definition analysis_prep : list assign :=
  [ Assign "Order Date" (ToDatetime "Order Date");
    Assign "Profit Margin" (Div "Profit" "Sales") ].

Inductive variant : Type := Hello | Analysis.

Definition prep_of (v : variant) : list assign :=
  match v with
  | Hello => hello_prep
  | Analysis => analysis_prep
  end.

Definition prepare (v : variant) (df : frame) : result frame :=
  run_prep (prep_of v) df.

End Pandas.

Definition is_coercion (e : expr) : bool :=
  match e with ToDatetime _ | ToNumeric _ => true | _ => false end.

Definition is_derivation (e : expr) : bool := negb (is_coercion e).

Definition expr_eq_dec (a b : expr) : {a = b} + {a <> b}.
Proof.
  decide equality; apply string_dec.
Defined.

Definition assign_eq_dec (a b : assign) : {a = b} + {a <> b}.
Proof.
  decide equality; [apply expr_eq_dec | apply string_dec].
Defined.

(** The statements of a section that run before its first derivation. *)
Fixpoint before_derive (steps : list assign) : list assign :=
  match steps with
  | [] => []
  | a :: rest => if is_derivation (rhs a) then [] else a :: before_derive rest
  end.

(** [coerced_first steps a]: the coercion [a] is a statement of the
    section and runs before any derived column is computed. *)
Definition coerced_first (steps : list assign) (a : assign) : bool :=
  if in_dec assign_eq_dec a (before_derive steps) then true else false.

(* ------------------------------------------------------------------ *)
(** ** Grouping *)

(** The key of a row: one cell per grouping column. *)
Definition key := list cell.

Definition key_eq_dec : forall a b : key, {a = b} + {a <> b} :=
  list_eq_dec cell_eq_dec.

Definition key_eqb (a b : key) : bool :=
  if key_eq_dec a b then true else false.

(** A row with a missing value in a grouping column belongs to no group
    ([dropna=True], the default of [groupby]). *)
Definition key_na (k : key) : bool := existsb is_na k.

(** The order in which [groupby] (with [sort=True], the default) lists
    its groups: numbers before text, each in its own order. *)
Definition cell_rank (c : cell) : nat :=
  match c with
  | CNum _ => 0
  | CStr _ => 1
  | CDate _ => 2
  | CNaT => 3
  end.

Definition cell_leb (a b : cell) : bool :=
  match a, b with
  | CNum x, CNum y => xleb x y
  | CStr s, CStr t => String.leb s t
  | CDate d, CDate e => date_leb d e
  | _, _ => Nat.leb (cell_rank a) (cell_rank b)
  end.

Fixpoint key_leb (a b : key) : bool :=
  match a, b with
  | [], _ => true
  | _ :: _, [] => false
  | x :: a', y :: b' =>
      if cell_eq_dec x y then key_leb a' b' else cell_leb x y
  end.

Fixpoint insert_sorted (k : key) (l : list key) : list key :=
  match l with
  | [] => [k]
  | h :: t => if key_leb k h then k :: h :: t else h :: insert_sorted k t
  end.

Definition sort_keys (l : list key) : list key :=
  fold_right insert_sorted [] l.

(** The keys of the rows, column by column. *)
Fixpoint row_keys (cols : list column) : list key :=
  match cols with
  | [] => []
  | [c] => map (fun x => [x]) c
  | c :: rest => map (fun xk => fst xk :: snd xk) (combine c (row_keys rest))
  end.

(** The groups: the distinct keys without missing value, sorted. *)
Definition group_keys (rk : list key) : list key :=
  sort_keys (nodup key_eq_dec (filter (fun k => negb (key_na k)) rk)).

(** The values of the rows of group [k], in row order. *)
Definition select {A} (k : key) (rk : list key) (vals : list A) : list A :=
  map snd (filter (fun kv => key_eqb (fst kv) k) (combine rk vals)).

(** The positions of the rows of group [k]. *)
Definition group_rows (k : key) (rk : list key) : list nat :=
  select k rk (seq 0 (List.length rk)).

Inductive keyspec : Type :=
| ByColumn (name : string)      (* "name" *)
| ByMonth (name : string).      (* pd.Grouper(key=name, freq='M') *)

Definition keyspec_name (s : keyspec) : string :=
  match s with ByColumn n | ByMonth n => n end.

(** The monthly bin of a cell of a datetime column. *)
Definition month_bucket (c : cell) : result cell :=
  match c with
  | CDate d => Ok (CDate (month_end d))
  | CNaT => Ok CNaT
  | _ => Err TypeError
  end.

Definition key_column (df : frame) (s : keyspec) : result column :=
  match s with
  | ByColumn n => getitem df n
  | ByMonth n => c <- getitem df n ;; mapM month_bucket c
  end.

Inductive aggfn : Type := Sum | Mean.

Definition apply_agg (f : aggfn) (vals : list xnum) : xnum :=
  match f with
  | Sum => nansum vals
  | Mean => nanmean vals
  end.

(** The aggregated columns hold numbers (they do once the preparation
    has succeeded); a reduction over other cells is not modelled and
    reported as a type error. *)
Definition as_num (c : cell) : result xnum :=
  match c with
  | CNum x => Ok x
  | _ => Err TypeError
  end.

Definition agg_column (df : frame) (rk gk : list key) (na : string * aggfn)
  : result (string * column) :=
  c <- getitem df (fst na) ;;
  nums <- mapM as_num c ;;
  Ok (fst na, map (fun k => CNum (apply_agg (snd na) (select k rk nums))) gk).

(** [reset_index]: the keys of the groups become ordinary columns again,
    under the names of the grouping columns. *)
Fixpoint key_frame (names : list string) (gk : list key) : frame :=
  match names with
  | [] => []
  | n :: rest => (n, map (hd CNaT) gk) :: key_frame rest (map (@tl cell) gk)
  end.

(** [df.groupby(keys).agg(aggs).reset_index()]. *)
Definition groupby_agg (df : frame) (keys : list keyspec)
  (aggs : list (string * aggfn)) : result frame :=
  kcols <- mapM (key_column df) keys ;;
  let rk := row_keys kcols in
  let gk := group_keys rk in
  acols <- mapM (agg_column df rk gk) aggs ;;
  Ok (key_frame (map keyspec_name keys) gk ++ acols).

(** [df.groupby(keys).size().reset_index()]: the counts are in a column
    named 0. *)
Definition groupby_size (df : frame) (keys : list keyspec) : result frame :=
  kcols <- mapM (key_column df) keys ;;
  let rk := row_keys kcols in
  let gk := group_keys rk in
  Ok (key_frame (map keyspec_name keys) gk ++
      [("0", map (fun k => CNum (of_Z (Z.of_nat (List.length (group_rows k rk))))) gk)]).

(** *** The views of the two scripts *)

(** hello.py lines 153-158, superstore_analysis.py lines 126-130. *)
Definition category_aggs (v : variant) : list (string * aggfn) :=
  match v with
  | Hello => [("Sales", Sum); ("Profit", Sum); ("Profit Margin", Mean);
              ("Absolute Profit", Mean)]
  | Analysis => [("Sales", Sum); ("Profit", Sum); ("Profit Margin", Mean)]
  end.

Definition category_metrics (v : variant) (df : frame) : result frame :=
  groupby_agg df [ByColumn "Category"] (category_aggs v).

(** hello.py line 188, superstore_analysis.py lines 158-160. *)
Definition temporal_keys (v : variant) : list keyspec :=
  match v with
  | Hello => [ByMonth "Order Date"; ByColumn "Category"]
  | Analysis => [ByColumn "Order Date"; ByColumn "Category"]
  end.

Definition temporal_data (v : variant) (df : frame) : result frame :=
  groupby_agg df (temporal_keys v) [("Sales", Sum)].

(** hello.py line 95, superstore_analysis.py line 74. *)
Definition category_counts (df : frame) : result frame :=
  groupby_size df [ByColumn "Category"].

(* ------------------------------------------------------------------ *)
(** ** The scripts *)

(** What a script has handed to the dashboard so far: [sidebar], [text],
    [plotly] and [table] each add one item.  A block of text is kept by
    its first line; [connect()] shows nothing. *)
Inductive event : Type :=
| Sidebar (s : string)
| Text (s : string)
| Chart (title : string) (data : frame)
| Table (data : frame).

Definition is_chart (e : event) : bool :=
  match e with Chart _ _ => true | _ => false end.

(** A script runs top to bottom, appends to the output and stops at the
    first error, which nothing catches. *)
Definition script (A : Type) : Type := list event -> list event * result A.

Definition sret {A} (a : A) : script A := fun out => (out, Ok a).

Definition sbind {A B} (m : script A) (k : A -> script B) : script B :=
  fun out =>
    match m out with
    | (out', Ok a) => k a out'
    | (out', Err e) => (out', Err e)
    end.

Definition lift {A} (r : result A) : script A := fun out => (out, r).

Definition emit (e : event) : script unit := fun out => (out ++ [e], Ok tt).

Notation "x <~ m ;; k" := (sbind m (fun x => k))
  (at level 61, m at next level, right associativity).
Notation "m >> k" := (sbind m (fun _ => k))
  (at level 61, right associativity).

Definition sidebar (s : string) : script unit := emit (Sidebar s).
Definition text (s : string) : script unit := emit (Text s).
Definition table (df : frame) : script unit := emit (Table df).

(** A plotly express figure over [data], handed to [plotly].  The figure
    names columns of [data]; a name that is no column raises.  What else
    the charting library checks (the sign of marker sizes, for instance) is
    outside the pipeline. *)
Definition plot (title : string) (cols : list string) (data : frame)
  : script unit :=
  fun out =>
    if forallb (fun c => has_column c data) cols
    then (out ++ [Chart title data], Ok tt)
    else (out, Err ValueError).

(** The two scripts share their layout; where they differ the
    definitions below branch on the variant.  [src] is the table the loader
    returned: [get_df('superstore')] in hello.py,
    [pd.read_csv("data/my_sample_superstore.csv")] in
    superstore_analysis.py. *)
Section Scripts.
Context {P : Parsers}.

Definition header : script unit :=
  sidebar "# Superstore Saga" >>
  sidebar "A Data Visualization Documentary" >>
  sidebar "---" >>
  sidebar "Explore the dramatic story of sales and profits through interactive visualizations.".

Definition onboarding : script unit :=
  text "# Welcome to the Superstore Saga" >>
  text "## A Data Visualization Documentary" >>
  text "This interactive dashboard takes you on a journey through the Superstore's performance data." >>
  text "### How to Navigate".

Definition univariate (df : frame) : script unit :=
  text "# Act 1: Understanding Our Core Metrics" >>
  text "## The Distribution of Sales" >>
  plot "Distribution of Sales" ["Sales"] df >>
  text "**Key Insights:**" >>
  text "## The Story of Profits" >>
  plot "Distribution of Profits" ["Profit"] df >>
  text "**Key Insights:**" >>
  text "## Product Categories: The Main Characters" >>
  counts <~ lift (category_counts df) ;;
  plot "Product Distribution Across Categories" ["Category"; "0"] counts >>
  text "**Key Insights:**".

Definition bivariate (v : variant) (df : frame) : script unit :=
  text "# Act 2: Exploring Relationships" >>
  text "## The Sales-Profit Dynamic" >>
  plot "Sales vs Profit Relationship"
    (match v with
     | Hello => ["Sales"; "Profit"; "Category"]
     | Analysis => ["Sales"; "Profit"]
     end) df >>
  text "**Key Insights:**" >>
  text "## Regional Performance Analysis" >>
  plot "Profit Margins by Region" ["Region"; "Profit Margin"] df >>
  text "**Key Insights:**" >>
  text "## Category Performance Deep Dive" >>
  metrics <~ lift (category_metrics v df) ;;
  plot "Category Performance Overview"
    (match v with
     | Hello => ["Sales"; "Profit"; "Absolute Profit"; "Category"]
     | Analysis => ["Sales"; "Profit"; "Profit Margin"; "Category"]
     end) metrics >>
  text "**Key Insights:**".

Definition multivariate (v : variant) (df : frame) : script unit :=
  text "# Act 3: The Complex Interplay" >>
  text "## Temporal Performance by Category" >>
  temporal <~ lift (temporal_data v df) ;;
  plot (match v with
        | Hello => "Monthly Sales Trends by Category"
        | Analysis => "Sales Trends by Category"
        end) ["Order Date"; "Sales"; "Category"] temporal >>
  text "**Key Insights:**".

Definition call_to_action (v : variant) (df : frame) : script unit :=
  text "# Final Act: The Path Forward" >>
  text "## Strategic Opportunities Matrix" >>
  plot "Strategic Performance Matrix"
    (match v with
     | Hello => ["Sales"; "Profit Margin"; "Absolute Profit"; "Category";
                 "Region"]
     | Analysis => ["Sales"; "Profit Margin"; "Profit"; "Category"; "Region"]
     end) df >>
  text "### Key Strategic Insights" >>
  text "## Your Next Steps".

(** What follows the preparation.  [df] is the one table every statement
    reads; only [hello.py] ends by showing it. *)
Definition body (v : variant) (df : frame) : script unit :=
  onboarding >>
  univariate df >>
  bivariate v df >>
  multivariate v df >>
  call_to_action v df >>
  match v with
  | Hello => table df
  | Analysis => sret tt
  end.

(** The whole script, on the table the loader returned. *)
Definition dashboard (v : variant) (src : frame) : script unit :=
  header >>
  df <~ lift (prepare v src) ;;
  body v df.

Definition run (v : variant) (src : frame) : list event * result unit :=
  dashboard v src [].

End Scripts.



(** Every event a script appends satisfies [Q]. *)
Definition emits {A} (Q : event -> Prop) (m : script A) : Prop :=
  forall out out' r, m out = (out', r) ->
  exists more, out' = out ++ more /\ Forall Q more.

Definition header_output : list event :=
  [ Sidebar "# Superstore Saga";
    Sidebar "A Data Visualization Documentary";
    Sidebar "---";
    Sidebar "Explore the dramatic story of sales and profits through interactive visualizations." ].

(** The columns the loader is expected to deliver. *)
Definition expected_columns : list string :=
  ["Order Date"; "Sales"; "Profit"; "Category"; "Region"; "Discount"].

(* ------------------------------------------------------------------ *)
(** ** A small reader, for the examples

    ISO dates [YYYY-MM-DD] (the empty field is NaT) and unsigned integer
    numerals; everything else is rejected.  The examples convert no number
    into a date and no date into a number. *)

Definition digit (a : ascii) : option Z :=
  let n := Z.of_nat (nat_of_ascii a) in
  if ((48 <=? n) && (n <=? 57))%Z then Some (n - 48)%Z else None.

Fixpoint digits (acc : Z) (s : string) : option Z :=
  match s with
  | EmptyString => Some acc
  | String a rest =>
      match digit a with
      | Some d => digits (10 * acc + d)%Z rest
      | None => None
      end
  end.

Definition numeral (s : string) : option Z :=
  match s with
  | EmptyString => None
  | _ => digits 0 s
  end.

Definition iso_date (s : string) : option (option date) :=
  match s with
  | EmptyString => Some None
  | _ =>
      if (String.length s =? 10)%nat
         && String.eqb (substring 4 1 s) "-"
         && String.eqb (substring 7 1 s) "-"
      then
        match numeral (substring 0 4 s), numeral (substring 5 2 s),
              numeral (substring 8 2 s) with
        | Some y, Some m, Some d =>
            if ((1 <=? m) && (m <=? 12) && (1 <=? d)
                && (d <=? days_in_month y m))%Z
            then Some (Some (mkDate y m d))
            else None
        | _, _, _ => None
        end
      else None
  end.

#[local] Instance reader : Parsers := {
  parse_datetime := iso_date;
  parse_numeric := fun s => option_map of_Z (numeral s);
  datetime_of_number := fun _ => None;
  number_of_datetime := fun _ => NaN
}.

(* ------------------------------------------------------------------ *)
(** ** Reading the views *)

(** The numbers of a column. *)
Definition numbers (df : frame) (name : string) : result (list xnum) :=
  c <- getitem df name ;; mapM as_num c.


(** The keys of the rows of [df] under a grouping. *)
Definition row_keys_of (df : frame) (keys : list keyspec) : result (list key) :=
  kcols <- mapM (key_column df) keys ;; Ok (row_keys kcols).

(** The values of the rows whose Category cell is [c], in row order. *)
Definition values_of {A} (c : cell) (cat : column) (vals : list A) : list A :=
  map snd (filter (fun kv => if cell_eq_dec (fst kv) c then true else false)
                  (combine cat vals)).


(** Sum and mean as plain arithmetic, NaN included. *)
Definition plain_sum (l : list xnum) : xnum := xsum l.

Definition plain_mean (l : list xnum) : xnum :=
  xdiv (xsum l) (of_Z (Z.of_nat (List.length l))).

Section Views.
Context {P : Parsers}.

(** The views as the scripts build them from the loaded table. *)
Definition temporal_view (v : variant) (src : frame) : result frame :=
  df <- prepare v src ;; temporal_data v df.

End Views.

(* ------------------------------------------------------------------ *)
(** ** Tables used in the examples *)

Definition num (z : Z) : cell := CNum (of_Z z).

(** The three transactions of the end-to-end scenario, with a Region. *)
Definition scenario : frame :=
  [ ("Order Date", [CStr "2023-01-05"; CStr "2023-01-20"; CStr "2023-02-01"]);
    ("Sales", [num 100; num 50; num 200]);
    ("Profit", [num 20; num (-10); num 40]);
    ("Category", [CStr "Tech"; CStr "Tech"; CStr "Office"]);
    ("Region", [CStr "West"; CStr "East"; CStr "West"]) ].

(** The scenario as a loader that reads dates itself delivers it. *)
Definition scenario_dated : frame :=
  [ ("Order Date", [CDate (mkDate 2023 1 5); CDate (mkDate 2023 1 20);
                    CDate (mkDate 2023 2 1)]);
    ("Sales", [num 100; num 50; num 200]);
    ("Profit", [num 20; num (-10); num 40]);
    ("Category", [CStr "Tech"; CStr "Tech"; CStr "Office"]);
    ("Region", [CStr "West"; CStr "East"; CStr "West"]) ].

(** The scenario without its Category column. *)
Definition scenario_no_category : frame :=
  [ ("Order Date", [CStr "2023-01-05"; CStr "2023-01-20"; CStr "2023-02-01"]);
    ("Sales", [num 100; num 50; num 200]);
    ("Profit", [num 20; num (-10); num 40]);
    ("Region", [CStr "West"; CStr "East"; CStr "West"]) ].

(** A category whose only row has no sales. *)
Definition free_sample : frame :=
  [ ("Order Date", [CStr "2023-01-05"; CStr "2023-01-20"]);
    ("Sales", [num 0; num 200]);
    ("Profit", [num (-5); num 40]);
    ("Category", [CStr "Tech"; CStr "Office"]);
    ("Region", [CStr "West"; CStr "West"]) ].

(** A category with a row of no sales and no profit, and another row. *)
Definition void_row : frame :=
  [ ("Order Date", [CStr "2023-01-05"; CStr "2023-01-20"]);
    ("Sales", [num 0; num 20]);
    ("Profit", [num 0; num 10]);
    ("Category", [CStr "Tech"; CStr "Tech"]);
    ("Region", [CStr "West"; CStr "West"]) ].

(** A row whose Category field is empty. *)
Definition blank_category : frame :=
  [ ("Order Date", [CStr "2023-01-05"; CStr "2023-01-20"]);
    ("Sales", [num 100; num 50]);
    ("Profit", [num 20; num 10]);
    ("Category", [CStr "Tech"; CNum NaN]);
    ("Region", [CStr "West"; CStr "East"]) ].

(** A row whose Profit field is empty. *)
Definition blank_profit : frame :=
  [ ("Order Date", [CStr "2023-01-05"]);
    ("Sales", [num 100]);
    ("Profit", [CNum NaN]);
    ("Category", [CStr "Tech"]);
    ("Region", [CStr "West"]) ].

(** Sales and Profit delivered as text. *)
Definition text_amounts : frame :=
  [ ("Order Date", [CStr "2023-01-05"]);
    ("Sales", [CStr "100"]);
    ("Profit", [CStr "20"]);
    ("Category", [CStr "Tech"]);
    ("Region", [CStr "West"]) ].

(** An Order Date that is no date. *)
Definition bad_date : frame :=
  [ ("Order Date", [CStr "2023-01-05"; CStr "yesterday"]);
    ("Sales", [num 100; num 50]);
    ("Profit", [num 20; num 10]);
    ("Category", [CStr "Tech"; CStr "Tech"]);
    ("Region", [CStr "West"; CStr "East"]);
    ("Discount", [num 0; num 0]) ].

Definition unwrap (r : result frame) : frame :=
  match r with Ok df => df | Err _ => [] end.

Definition prepared (v : variant) (src : frame) : frame :=
  unwrap (prepare (P := reader) v src).

Definition metrics (v : variant) (src : frame) : frame :=
  unwrap (category_metrics v (prepared v src)).

Definition temporal (v : variant) (src : frame) : frame :=
  unwrap (temporal_data v (prepared v src)).

(* ------------------------------------------------------------------ *)
(** ** The statements of the specification *)

(** Row by row, Profit Margin is the quotient of Profit by Sales: an
    infinity or NaN where Sales is zero, the exact quotient of two finite
    amounts where it is not. *)
Definition margin_rows (df : frame) (n : nat) : Prop :=
  exists profit sales margin,
    lookup "Profit" df = Some profit /\
    lookup "Sales" df = Some sales /\
    lookup "Profit Margin" df = Some margin /\
    forall i, (i < n)%nat ->
      exists p s,
        nth_error profit i = Some (CNum p) /\
        nth_error sales i = Some (CNum s) /\
        nth_error margin i = Some (CNum (xdiv p s)) /\
        (s = Fin 0 -> is_finite (xdiv p s) = false) /\
        (forall a b, p = Fin a -> s = Fin b -> b <> 0%Qc ->
                     xdiv p s = Fin (a / b)).

(** Row by row, Absolute Profit is the absolute value of Profit, and is
    not negative on the rows [on]. *)
Definition absolute_rows (on : xnum -> Prop) (df : frame) (n : nat) : Prop :=
  exists profit absolute,
    lookup "Profit" df = Some profit /\
    lookup "Absolute Profit" df = Some absolute /\
    forall i, (i < n)%nat ->
      exists p,
        nth_error profit i = Some (CNum p) /\
        nth_error absolute i = Some (CNum (xabs p)) /\
        (on p -> nonneg (xabs p) = true).

(** The category aggregate [agg] of [df]: one row per Category value of
    [df], holding the [sum] of the Sales and of the Profit of the rows of
    that category and the [mean] of their Profit Margin. *)
Definition category_rows (sum mean : list xnum -> xnum) (df agg : frame)
  : Prop :=
  exists cat sales profit margin cats,
    lookup "Category" df = Some cat /\
    numbers df "Sales" = Ok sales /\
    numbers df "Profit" = Ok profit /\
    numbers df "Profit Margin" = Ok margin /\
    lookup "Category" agg = Some cats /\
    NoDup cats /\
    (forall c, In c cats <-> In c cat /\ is_na c = false) /\
    lookup "Sales" agg
      = Some (map (fun c => CNum (sum (values_of c cat sales))) cats) /\
    lookup "Profit" agg
      = Some (map (fun c => CNum (sum (values_of c cat profit))) cats) /\
    lookup "Profit Margin" agg
      = Some (map (fun c => CNum (mean (values_of c cat margin))) cats).


(** Row [i] of [df], of category [c], has a margin [m] that is an
    infinity or NaN; the category aggregate is built and its row for [c]
    holds [m] as mean margin. *)
Definition margin_propagates (v : variant) (df : frame) (i : nat) (c : cell)
  : Prop :=
  exists m agg margin cats means j,
    lookup "Profit Margin" df = Some margin /\
    nth_error margin i = Some (CNum m) /\
    is_finite m = false /\
    category_metrics v df = Ok agg /\
    lookup "Category" agg = Some cats /\
    lookup "Profit Margin" agg = Some means /\
    nth_error cats j = Some c /\
    nth_error means j = Some (CNum m).

(** The bin of an Order Date cell in the temporal view of a script. *)
Definition bucket_of (v : variant) (c : cell) : cell :=
  match v, c with
  | Hello, CDate d => CDate (month_end d)
  | _, _ => c
  end.

(** Row [i] is counted in the sum of exactly one group of [gk]. *)
Definition in_one_group (rk gk : list key) (i : nat) : Prop :=
  exists k, In k gk /\ In i (group_rows k rk) /\
            forall k', In k' gk -> In i (group_rows k' rk) -> k' = k.

(** The temporal view [agg] of [df]: its rows are the groups [gk] of the
    row keys [rk]; a group holds the sum of the Sales of its rows. *)
Definition temporal_rows (v : variant) (df agg : frame) (rk gk : list key)
  : Prop :=
  exists dates cat sales,
    lookup "Order Date" df = Some dates /\
    lookup "Category" df = Some cat /\
    numbers df "Sales" = Ok sales /\
    row_keys_of df (temporal_keys v) = Ok rk /\
    (forall i d c, nth_error dates i = Some d -> nth_error cat i = Some c ->
                   nth_error rk i = Some [bucket_of v d; c]) /\
    lookup "Order Date" agg = Some (map (fun k => nth 0 k CNaT) gk) /\
    lookup "Category" agg = Some (map (fun k => nth 1 k CNaT) gk) /\
    lookup "Sales" agg
      = Some (map (fun k => CNum (nansum (map (fun i => nth i sales NaN)
                                              (group_rows k rk)))) gk) /\
    NoDup gk /\
    (forall k, In k gk -> exists i, nth_error rk i = Some k).

(** The groups of the temporal view partition the rows [on]: each such
    row is counted in exactly one group, and a group counts only rows of
    its own key, which has no missing value. *)
Definition temporal_partition (on : key -> Prop) (v : variant)
  (df agg : frame) (n : nat) : Prop :=
  exists rk gk,
    temporal_rows v df agg rk gk /\
    List.length rk = n /\
    (forall i k, nth_error rk i = Some k -> on k -> in_one_group rk gk i) /\
    (forall k i, In k gk -> In i (group_rows k rk) ->
                 nth_error rk i = Some k /\ key_na k = false).

(** The keys of a temporal view: its (Order Date, Category) pairs, row
    by row. *)
Definition view_keys (agg : frame) : list (cell * cell) :=
  match lookup "Order Date" agg, lookup "Category" agg with
  | Some dates, Some cat => combine dates cat
  | _, _ => []
  end.

Definition key_pair (k : key) : cell * cell := (nth 0 k CNaT, nth 1 k CNaT).

(** The monthly key of a (date, category) key. *)
Definition monthly (k : key) : key :=
  [bucket_of Hello (nth 0 k CNaT); nth 1 k CNaT].

(** [x] is the last day of the calendar month of [d]. *)
Definition month_end_of (d x : date) : Prop :=
  year x = year d /\ month x = month d /\
  day x = days_in_month (year d) (month d).

(** [x] is the date [d] itself. *)
Definition same_date (d x : date) : Prop := x = d.

(** The dated keys of the view [agg] are the pairs ([x], [c]) with [x]
    related by [R] to the date of a row of category [c]: no other, and
    one for every dated row that has a Category. *)
Definition bucketed_by (R : date -> date -> Prop) (dates cat : column)
  (agg : frame) : Prop :=
  forall x c,
    In (CDate x, c) (view_keys agg) <->
    exists i d, nth_error dates i = Some (CDate d) /\
                nth_error cat i = Some c /\ is_na c = false /\ R d x.

(** The temporal views of the two scripts, built from the tables [dfh]
    and [dfa] they prepared: the tables have the same dates and
    categories; hello.py keys its view by the last day of the month of a
    row, superstore_analysis.py by the date of the row; neither repeats a
    key or has a key without a date, and the monthly view never has more
    rows.  Two rows of one
    category with distinct dates of one month give the monthly view fewer
    rows than the other, and other Order Date keys. *)
Definition bucketing_differs (dfh dfa hello_view analysis_view : frame)
  : Prop :=
  exists dates cat,
    lookup "Order Date" dfh = Some dates /\
    lookup "Order Date" dfa = Some dates /\
    lookup "Category" dfh = Some cat /\
    lookup "Category" dfa = Some cat /\
    bucketed_by month_end_of dates cat hello_view /\
    bucketed_by same_date dates cat analysis_view /\
    NoDup (view_keys hello_view) /\ NoDup (view_keys analysis_view) /\
    (forall k c, In (k, c) (view_keys hello_view) -> exists x, k = CDate x) /\
    (forall k c, In (k, c) (view_keys analysis_view) ->
                 exists x, k = CDate x) /\
    (List.length (view_keys hello_view)
     <= List.length (view_keys analysis_view))%nat /\
    (forall i j d e c,
        nth_error dates i = Some (CDate d) -> nth_error cat i = Some c ->
        nth_error dates j = Some (CDate e) -> nth_error cat j = Some c ->
        is_na c = false -> d <> e -> same_month d e ->
        (List.length (view_keys hello_view)
         < List.length (view_keys analysis_view))%nat /\
        lookup "Order Date" hello_view <> lookup "Order Date" analysis_view /\
        hello_view <> analysis_view).

(** The temporal views of [scenario_dated]: of hello.py, then of
    superstore_analysis.py. *)
Definition dated_views : frame * frame :=
  ([ ("Order Date", [CDate (mkDate 2023 1 31); CDate (mkDate 2023 2 28)]);
     ("Category", [CStr "Tech"; CStr "Office"]);
     ("Sales", [num 150; num 200]) ],
   [ ("Order Date", [CDate (mkDate 2023 1 5); CDate (mkDate 2023 1 20);
                     CDate (mkDate 2023 2 1)]);
     ("Category", [CStr "Tech"; CStr "Tech"; CStr "Office"]);
     ("Sales", [num 100; num 50; num 200]) ]).

(** The statements of the preparation section the specification names. *)
Definition date_coercion : assign :=
  Assign "Order Date" (ToDatetime "Order Date").
Definition sales_coercion : assign := Assign "Sales" (ToNumeric "Sales").
Definition profit_coercion : assign := Assign "Profit" (ToNumeric "Profit").

Definition coerces_all_first (steps : list assign) : bool :=
  coerced_first steps date_coercion
  && coerced_first steps sales_coercion
  && coerced_first steps profit_coercion.

Definition has_to_numeric (steps : list assign) : bool :=
  existsb (fun a => match rhs a with ToNumeric _ => true | _ => false end) steps.

(** The coercions of a preparation section, and what follows them. *)
Definition coerce_steps (v : variant) : list assign :=
  before_derive (prep_of v).

Definition derive_steps (v : variant) : list assign :=
  skipn (List.length (coerce_steps v)) (prep_of v).


(** What the preparation of script [v] did to the loaded table [src]:
    Order Date is read as dates in both scripts; Sales and Profit are read
    as numbers in hello.py and left as loaded in superstore_analysis.py;
    the margin is the quotient of the Profit and Sales columns the
    coercions left. *)
Definition coercion_effect {P : Parsers} (v : variant) (src df : frame)
  : Prop :=
  (exists dates dates',
      lookup "Order Date" src = Some dates /\
      to_datetime dates = Ok dates' /\
      lookup "Order Date" df = Some dates') /\
  (v = Hello ->
   exists sales sales' profit profit',
     lookup "Sales" src = Some sales /\ to_numeric sales = Ok sales' /\
     lookup "Sales" df = Some sales' /\
     lookup "Profit" src = Some profit /\ to_numeric profit = Ok profit' /\
     lookup "Profit" df = Some profit') /\
  (v = Analysis ->
   lookup "Sales" df = lookup "Sales" src /\
   lookup "Profit" df = lookup "Profit" src) /\
  (exists profit sales margin,
      lookup "Profit" df = Some profit /\ lookup "Sales" df = Some sales /\
      lookup "Profit Margin" df = Some margin /\
      col_div profit sales = Ok margin).

(** The order of the statements of the preparation of script [v]. *)
Definition coercion_order (v : variant) : Prop :=
  prep_of v = coerce_steps v ++ derive_steps v /\
  forallb (fun a => is_coercion (rhs a)) (coerce_steps v) = true /\
  forallb (fun a => is_derivation (rhs a)) (derive_steps v) = true /\
  coerced_first (prep_of v) date_coercion = true /\
  (v = Hello -> coerced_first (prep_of v) sales_coercion = true /\
                coerced_first (prep_of v) profit_coercion = true) /\
  (v = Analysis -> has_to_numeric (prep_of v) = false).


(** A loaded table on which the specification expects the run to abort:
    a column of [cols] is missing, a cell of Sales or Profit is no number,
    or a cell of Order Date is no date. *)
Definition fatal_input {P : Parsers} (cols : list string) (src : frame)
  : Prop :=
  (exists c, In c cols /\ lookup c src = None) \/
  (exists name col c e,
      In name ["Sales"; "Profit"] /\ lookup name src = Some col /\
      In c col /\ coerce_numeric c = Err e) \/
  (exists col c e,
      lookup "Order Date" src = Some col /\ In c col /\
      coerce_datetime c = Err e).

Definition aborts_before_charts {P : Parsers} (v : variant) (src : frame)
  : Prop :=
  exists out e, run v src = (out, Err e) /\ filter is_chart out = [].

(** The columns the preparation section reads. *)
Definition prepared_columns : list string := ["Order Date"; "Sales"; "Profit"].

(* ------------------------------------------------------------------ *)
(** ** Further statements *)

(** The order of the groups, as relations. *)
Definition key_le (a b : key) : Prop := key_leb a b = true.

Definition cell_le (a b : cell) : Prop := cell_leb a b = true.

Definition cell_lt (a b : cell) : Prop := cell_leb a b = true /\ a <> b.

(** A value a marker size can be computed from: NaN (no size) or a
    number that is not negative. *)
Definition sizable (x : xnum) : Prop := x = NaN \/ nonneg x = true.

(** The causes of a failed preparation, with the error each raises: a
    KeyError for a missing Order Date, Sales or Profit column, a ValueError
    for a cell that cannot be read (of Order Date in both scripts, of Sales
    or Profit in hello.py only), a TypeError for an amount that is no number
    (in superstore_analysis.py only: the division of hello.py comes after
    [pd.to_numeric] and cannot fail). *)
Definition failure_cause {P : Parsers} (v : variant) (src : frame) (e : error) : Prop :=
  (exists name, In name prepared_columns /\ lookup name src = None /\
                e = KeyError name) \/
  (e = ValueError /\
   exists col c e', lookup "Order Date" src = Some col /\ In c col /\
                    coerce_datetime c = Err e') \/
  (e = ValueError /\ v = Hello /\
   exists name col c e', In name ["Sales"; "Profit"] /\
                         lookup name src = Some col /\ In c col /\
                         coerce_numeric c = Err e') \/
  (e = TypeError /\ v = Analysis /\
   exists name col c, In name ["Sales"; "Profit"] /\
                      lookup name src = Some col /\ In c col /\
                      as_num c = Err TypeError).

(** The scenario without its Region column. *)
Definition scenario_no_region : frame :=
  [ ("Order Date", [CStr "2023-01-05"; CStr "2023-01-20"; CStr "2023-02-01"]);
    ("Sales", [num 100; num 50; num 200]);
    ("Profit", [num 20; num (-10); num 40]);
    ("Category", [CStr "Tech"; CStr "Tech"; CStr "Office"]) ].

(** What a script has shown when it ends without error, after the
    sidebar: its texts and its eight charts, each over the table or the
    view it was given, and in hello.py the table. *)
Definition body_output (v : variant) (df counts metrics temporal : frame)
  : list event :=
  [ Text "# Welcome to the Superstore Saga";
    Text "## A Data Visualization Documentary";
    Text "This interactive dashboard takes you on a journey through the Superstore's performance data.";
    Text "### How to Navigate";
    Text "# Act 1: Understanding Our Core Metrics";
    Text "## The Distribution of Sales";
    Chart "Distribution of Sales" df;
    Text "**Key Insights:**";
    Text "## The Story of Profits";
    Chart "Distribution of Profits" df;
    Text "**Key Insights:**";
    Text "## Product Categories: The Main Characters";
    Chart "Product Distribution Across Categories" counts;
    Text "**Key Insights:**";
    Text "# Act 2: Exploring Relationships";
    Text "## The Sales-Profit Dynamic";
    Chart "Sales vs Profit Relationship" df;
    Text "**Key Insights:**";
    Text "## Regional Performance Analysis";
    Chart "Profit Margins by Region" df;
    Text "**Key Insights:**";
    Text "## Category Performance Deep Dive";
    Chart "Category Performance Overview" metrics;
    Text "**Key Insights:**";
    Text "# Act 3: The Complex Interplay";
    Text "## Temporal Performance by Category";
    Chart (match v with
           | Hello => "Monthly Sales Trends by Category"
           | Analysis => "Sales Trends by Category"
           end) temporal;
    Text "**Key Insights:**";
    Text "# Final Act: The Path Forward";
    Text "## Strategic Opportunities Matrix";
    Chart "Strategic Performance Matrix" df;
    Text "### Key Strategic Insights";
    Text "## Your Next Steps" ]
  ++ match v with
     | Hello => [Table df]
     | Analysis => []
     end.

(** An item that is not the table. *)
Definition no_table (e : event) : Prop :=
  match e with Table _ => False | _ => True end.

(* ------------------------------------------------------------------ *)
(** * Properties *)

(** ** Errors and element-wise operations *)

Lemma rbind_ok {A B} (r : result A) (k : A -> result B) (b : B) :
  rbind r k = Ok b -> exists a, r = Ok a /\ k a = Ok b.
Proof.
  destruct r as [a | e]; simpl; intros H.
  - exists a. split; [reflexivity | exact H].
  - discriminate H.
Qed.

Ltac invert_bind H :=
  let a := fresh "a" in
  let Ha := fresh "Ha" in
  apply rbind_ok in H; destruct H as [a [Ha H]].

Lemma mapM_Forall2 {A B} (f : A -> result B) (l : list A) (l' : list B) :
  mapM f l = Ok l' <-> Forall2 (fun a b => f a = Ok b) l l'.
Proof.
  revert l'. induction l as [| a l IH]; intros l'; simpl; split; intros H.
  - injection H as <-. constructor.
  - inversion H. reflexivity.
  - invert_bind H. invert_bind H. injection H as <-.
    constructor; [assumption | apply IH; assumption].
  - inversion H as [| ? b ? bs Hab Hrest]; subst.
    rewrite Hab. simpl. apply IH in Hrest. rewrite Hrest. reflexivity.
Qed.

Lemma mapM_length {A B} (f : A -> result B) (l : list A) (l' : list B) :
  mapM f l = Ok l' -> List.length l' = List.length l.
Proof.
  intros H. apply mapM_Forall2 in H.
  symmetry. eapply Forall2_length. exact H.
Qed.

Lemma Forall2_nth_error_l {A B} (R : A -> B -> Prop) l l' i a :
  Forall2 R l l' -> nth_error l i = Some a ->
  exists b, nth_error l' i = Some b /\ R a b.
Proof.
  intros H. revert i. induction H as [| x y l l' Hxy _ IH]; intros i Hi.
  - destruct i; discriminate Hi.
  - destruct i as [| i]; simpl in *.
    + injection Hi as <-. exists y. split; [reflexivity | assumption].
    + apply IH. assumption.
Qed.

Lemma mapM_nth_error {A B} (f : A -> result B) l l' i a :
  mapM f l = Ok l' -> nth_error l i = Some a ->
  exists b, nth_error l' i = Some b /\ f a = Ok b.
Proof.
  intros H. apply mapM_Forall2 in H.
  apply (Forall2_nth_error_l _ _ _ _ _ H).
Qed.

(** One failing element fails the whole column. *)
Lemma mapM_fails {A B} (f : A -> result B) (l : list A) a e :
  In a l -> f a = Err e -> exists e', mapM f l = Err e'.
Proof.
  intros Hin Hf. induction l as [| x l IH]; simpl in *.
  - contradiction.
  - destruct (f x) as [b |] eqn:Hx; simpl.
    + destruct Hin as [-> | Hin].
      * rewrite Hf in Hx. discriminate Hx.
      * destruct (IH Hin) as [e' ->]. simpl. exists e'. reflexivity.
    + eexists. reflexivity.
Qed.

(** ** Frames *)

Lemma lookup_setitem_same (df : frame) name vals :
  lookup name (setitem df name vals) = Some vals.
Proof.
  induction df as [| [n c] rest IH]; simpl.
  - rewrite String.eqb_refl. reflexivity.
  - destruct (String.eqb n name) eqn:E; simpl; rewrite E; auto.
Qed.

Lemma lookup_setitem_other (df : frame) name other vals :
  name <> other -> lookup other (setitem df name vals) = lookup other df.
Proof.
  intros Hne. induction df as [| [n c] rest IH]; simpl.
  - apply String.eqb_neq in Hne. rewrite Hne. reflexivity.
  - destruct (String.eqb n name) eqn:E; simpl.
    + apply String.eqb_eq in E. subst n.
      apply String.eqb_neq in Hne. rewrite Hne. reflexivity.
    + destruct (String.eqb n other); auto.
Qed.

Lemma frame_rows_setitem n (df : frame) name vals :
  frame_rows n df -> List.length vals = n -> frame_rows n (setitem df name vals).
Proof.
  unfold frame_rows. intros Hdf Hv.
  induction df as [| [m c] rest IH]; simpl.
  - constructor; [exact Hv | constructor].
  - inversion Hdf; subst.
    destruct (String.eqb m name); constructor; auto.
Qed.

Lemma frame_rows_lookup n (df : frame) name c :
  frame_rows n df -> lookup name df = Some c -> List.length c = n.
Proof.
  unfold frame_rows. intros Hdf.
  induction df as [| [m c'] rest IH]; simpl; intros H.
  - discriminate H.
  - inversion Hdf; subst.
    destruct (String.eqb m name).
    + injection H as <-. reflexivity.
    + apply IH; assumption.
Qed.

Lemma getitem_ok (df : frame) name c :
  getitem df name = Ok c <-> lookup name df = Some c.
Proof.
  unfold getitem. destruct (lookup name df); split; intros H;
    try discriminate H; injection H as <-; reflexivity.
Qed.

Lemma getitem_missing (df : frame) name :
  lookup name df = None -> getitem df name = Err (KeyError name).
Proof.
  unfold getitem. intros ->. reflexivity.
Qed.

(** ** The preparation section *)

Section Preparation.
Context {P : Parsers}.

Lemma col_div_length a b c :
  col_div a b = Ok c -> List.length c = Nat.min (List.length a) (List.length b).
Proof.
  unfold col_div. intros H. apply mapM_length in H.
  rewrite H. apply length_combine.
Qed.

Lemma eval_expr_length n (df : frame) e c :
  frame_rows n df -> eval_expr e df = Ok c -> List.length c = n.
Proof.
  intros Hdf H. destruct e; simpl in H.
  - invert_bind H. apply getitem_ok in Ha.
    apply mapM_length in H. rewrite H. eapply frame_rows_lookup; eauto.
  - invert_bind H. apply getitem_ok in Ha.
    apply mapM_length in H. rewrite H. eapply frame_rows_lookup; eauto.
  - invert_bind H. invert_bind H. apply getitem_ok in Ha, Ha0.
    apply col_div_length in H. rewrite H.
    rewrite (frame_rows_lookup _ _ _ _ Hdf Ha), (frame_rows_lookup _ _ _ _ Hdf Ha0).
    apply Nat.min_id.
  - invert_bind H. apply getitem_ok in Ha.
    apply mapM_length in H. rewrite H. eapply frame_rows_lookup; eauto.
Qed.

Lemma exec_assign_inv a (df df' : frame) :
  exec_assign a df = Ok df' ->
  exists vals, eval_expr (rhs a) df = Ok vals /\ df' = setitem df (target a) vals.
Proof.
  unfold exec_assign. intros H. invert_bind H.
  injection H as <-. eauto.
Qed.

(** A preparation keeps the number of rows. *)
Lemma run_prep_rows n steps (df df' : frame) :
  frame_rows n df -> run_prep steps df = Ok df' -> frame_rows n df'.
Proof.
  revert df. induction steps as [| a steps IH]; simpl; intros df Hdf H.
  - injection H as <-. exact Hdf.
  - invert_bind H. apply exec_assign_inv in Ha. destruct Ha as [vals [Hv ->]].
    apply (IH _ (frame_rows_setitem _ _ _ _ Hdf (eval_expr_length _ _ _ _ Hdf Hv)) H).
Qed.

(** A preparation leaves every column it does not assign as it was. *)
Lemma run_prep_untouched steps (df df' : frame) name :
  run_prep steps df = Ok df' -> ~ In name (map target steps) ->
  lookup name df' = lookup name df.
Proof.
  revert df. induction steps as [| a steps IH]; simpl; intros df H Hn.
  - injection H as <-. reflexivity.
  - invert_bind H. apply exec_assign_inv in Ha. destruct Ha as [vals [Hv ->]].
    rewrite (IH _ H) by tauto.
    apply lookup_setitem_other. tauto.
Qed.


(** What a successful preparation has computed, in either script: the
    margin is the quotient of the Profit and Sales columns of the prepared
    table, and Order Date has been read as dates. *)
Lemma prepare_inv v (src df : frame) :
  prepare v src = Ok df ->
  exists od od' pr sa pm,
    lookup "Order Date" src = Some od /\ to_datetime od = Ok od' /\
    lookup "Order Date" df = Some od' /\
    lookup "Profit" df = Some pr /\ lookup "Sales" df = Some sa /\
    lookup "Profit Margin" df = Some pm /\ col_div pr sa = Ok pm.
Proof.
  unfold prepare. intros H.
  destruct v; simpl in H;
    repeat (let a := fresh "d" in let Ha := fresh "Hd" in
            apply rbind_ok in H; destruct H as [a [Ha H]];
            apply exec_assign_inv in Ha; destruct Ha as [? [Ha ->]];
            simpl in Ha);
    injection H as <-;
    repeat match goal with
           | E : rbind _ _ = Ok _ |- _ => invert_bind E
           | E : getitem _ _ = Ok _ |- _ => apply getitem_ok in E
           end;
    repeat match goal with
           | E : lookup _ (setitem _ _ _) = Some _ |- _ =>
               first [ rewrite lookup_setitem_same in E; injection E as E; subst
                     | rewrite lookup_setitem_other in E by discriminate ]
           end;
    do 5 eexists;
    repeat match goal with
           | |- _ /\ _ => split
           end;
    try eassumption;
    repeat first [ rewrite lookup_setitem_same; reflexivity
                 | rewrite lookup_setitem_other by discriminate ];
    try eassumption.
Qed.

End Preparation.

(** ** Numbers *)

Lemma Qccompare_refl (q : Qc) : Qccompare q q = Eq.
Proof.
  apply Qceq_alt. reflexivity.
Qed.

Lemma xdiv_by_zero (p : xnum) : is_finite (xdiv p (Fin 0)) = false.
Proof.
  destruct p as [a | | |]; simpl; rewrite ?Qccompare_refl; try reflexivity.
  destruct (Qccompare a 0); reflexivity.
Qed.

Lemma xdiv_finite (a b : Qc) : b <> 0%Qc -> xdiv (Fin a) (Fin b) = Fin (a / b).
Proof.
  intros Hb. simpl.
  destruct (Qccompare b 0) eqn:E; try reflexivity.
  apply Qceq_alt in E. contradiction.
Qed.

Lemma nth_error_combine_lt {A B} (a : list A) (b : list B) i :
  (i < List.length a)%nat -> (i < List.length b)%nat ->
  exists x y, nth_error a i = Some x /\ nth_error b i = Some y /\
              nth_error (combine a b) i = Some (x, y).
Proof.
  revert b i. induction a as [| x a IH]; intros b i Ha Hb; simpl in *.
  - lia.
  - destruct b as [| y b]; simpl in *; [lia |].
    destruct i as [| i]; simpl.
    + exists x, y. auto.
    + apply IH; lia.
Qed.

Lemma cell_div_ok a b c :
  cell_div a b = Ok c ->
  exists x y, a = CNum x /\ b = CNum y /\ c = CNum (xdiv x y).
Proof.
  destruct a, b; simpl; intros H; try discriminate H.
  injection H as <-. eauto.
Qed.

Lemma cell_abs_ok a c :
  cell_abs a = Ok c -> exists x, a = CNum x /\ c = CNum (xabs x).
Proof.
  destruct a; simpl; intros H; try discriminate H.
  injection H as <-. eauto.
Qed.

(** The cells of a quotient column, row by row. *)
Lemma col_div_rows n (pr sa pm : column) i :
  List.length pr = n -> List.length sa = n -> col_div pr sa = Ok pm ->
  (i < n)%nat ->
  exists p s, nth_error pr i = Some (CNum p) /\ nth_error sa i = Some (CNum s) /\
              nth_error pm i = Some (CNum (xdiv p s)).
Proof.
  intros Hp Hs H Hi. unfold col_div in H.
  destruct (nth_error_combine_lt pr sa i) as [x [y [Hx [Hy Hxy]]]]; try lia.
  destruct (mapM_nth_error _ _ _ _ _ H Hxy) as [c [Hc Hdiv]]. simpl in Hdiv.
  apply cell_div_ok in Hdiv. destruct Hdiv as [p [s [-> [-> ->]]]].
  exists p, s. auto.
Qed.

(** ** The derived columns *)

Lemma prepare_margin_rows {P : Parsers} (v : variant) (src df : frame)
  (n : nat) :
  frame_rows n src -> prepare v src = Ok df -> margin_rows df n.
Proof.
  intros Hrows H.
  pose proof (run_prep_rows _ _ _ _ Hrows H) as Hrows'.
  destruct (prepare_inv _ _ _ H)
    as [od [od' [pr [sa [pm [_ [_ [_ [Hpr [Hsa [Hpm Hdiv]]]]]]]]]]].
  exists pr, sa, pm. repeat split; try assumption.
  intros i Hi.
  destruct (col_div_rows n pr sa pm i) as [p [s [Hp [Hs Hm]]]];
    eauto using frame_rows_lookup.
  exists p, s. repeat split; try assumption.
  - intros ->. apply xdiv_by_zero.
  - intros a b -> -> Hb. apply xdiv_finite. exact Hb.
Qed.

Ltac invert_prepare H :=
  repeat (let d := fresh "d" in
          let Hd := fresh "Hd" in
          apply rbind_ok in H; destruct H as [d [Hd H]];
          apply exec_assign_inv in Hd; destruct Hd as [? [Hd ->]];
          simpl in Hd);
  injection H as <-;
  repeat match goal with
         | E : rbind _ _ = Ok _ |- _ => invert_bind E
         | E : getitem _ _ = Ok _ |- _ => apply getitem_ok in E
         end;
  repeat match goal with
         | E : lookup _ (setitem _ _ _) = Some _ |- _ =>
             first [ rewrite lookup_setitem_same in E; injection E as E; subst
                   | rewrite lookup_setitem_other in E by discriminate ]
         end.

Ltac solve_lookups :=
  repeat match goal with
         | |- _ /\ _ => split
         end;
  try eassumption;
  repeat first [ rewrite lookup_setitem_same; reflexivity
               | rewrite lookup_setitem_other by discriminate ];
  try eassumption.

(** hello.py: the three coercions, then the two derived columns, each
    computed from the coerced columns. *)
Lemma prepare_hello_inv {P : Parsers} (src df : frame) :
  prepare Hello src = Ok df ->
  exists od od' sa sa' pr pr' pm ap,
    lookup "Order Date" src = Some od /\ to_datetime od = Ok od' /\
    lookup "Sales" src = Some sa /\ to_numeric sa = Ok sa' /\
    lookup "Profit" src = Some pr /\ to_numeric pr = Ok pr' /\
    col_div pr' sa' = Ok pm /\ col_abs pr' = Ok ap /\
    lookup "Order Date" df = Some od' /\ lookup "Sales" df = Some sa' /\
    lookup "Profit" df = Some pr' /\ lookup "Profit Margin" df = Some pm /\
    lookup "Absolute Profit" df = Some ap.
Proof.
  unfold prepare. simpl. intros H. invert_prepare H.
  do 8 eexists. solve_lookups.
Qed.

(** superstore_analysis.py: one coercion, then the margin, computed from
    Profit and Sales as loaded. *)
Lemma prepare_analysis_inv {P : Parsers} (src df : frame) :
  prepare Analysis src = Ok df ->
  exists od od' sa pr pm,
    lookup "Order Date" src = Some od /\ to_datetime od = Ok od' /\
    lookup "Sales" src = Some sa /\ lookup "Profit" src = Some pr /\
    col_div pr sa = Ok pm /\
    lookup "Order Date" df = Some od' /\ lookup "Sales" df = Some sa /\
    lookup "Profit" df = Some pr /\ lookup "Profit Margin" df = Some pm.
Proof.
  unfold prepare. simpl. intros H. invert_prepare H.
  do 5 eexists. solve_lookups.
Qed.

Lemma xabs_nonneg (p : xnum) : p <> NaN -> nonneg (xabs p) = true.
Proof.
  destruct p as [q | | |]; simpl; intros Hp; try reflexivity.
  - destruct (Qccompare (Qcabs q) 0) eqn:E; try reflexivity.
    apply Qclt_alt in E. exfalso.
    exact (Qcle_not_lt _ _ (Qcabs_nonneg q) E).
  - contradiction.
Qed.

Lemma col_abs_rows n (pr ap : column) i :
  List.length pr = n -> col_abs pr = Ok ap -> (i < n)%nat ->
  forall c, nth_error pr i = Some c ->
  exists p, c = CNum p /\ nth_error ap i = Some (CNum (xabs p)).
Proof.
  intros Hn H Hi c Hc. unfold col_abs in H.
  destruct (mapM_nth_error _ _ _ _ _ H Hc) as [b [Hb Habs]].
  apply cell_abs_ok in Habs. destruct Habs as [p [-> ->]].
  exists p. auto.
Qed.

Lemma prepare_absolute_rows {P : Parsers} (src df : frame) (n : nat) :
  frame_rows n src -> prepare Hello src = Ok df ->
  absolute_rows (fun p => p <> NaN) df n.
Proof.
  intros Hrows H.
  pose proof (run_prep_rows _ _ _ _ Hrows H) as Hrows'.
  destruct (prepare_hello_inv _ _ H)
    as (od & od' & sa & sa' & pr & pr' & pm & ap & _ & _ & _ & _ & _ & _ & _
        & Habs & _ & _ & Hpr & _ & Hap).
  exists pr', ap. repeat split; try assumption.
  intros i Hi.
  pose proof (frame_rows_lookup _ _ _ _ Hrows' Hpr) as Hlen.
  destruct (nth_error pr' i) as [c |] eqn:Hc.
  - destruct (col_abs_rows n pr' ap i Hlen Habs Hi c Hc) as [p [-> Hp]].
    exists p. repeat split; try assumption. apply xabs_nonneg.
  - apply nth_error_None in Hc. lia.
Qed.

Ltac by_computation := vm_compute; reflexivity.

(** C1.  In both scripts, once the preparation has succeeded, every row
    of the table holds in Profit Margin the quotient of its Profit by its
    Sales.  Where Sales is zero the quotient is an infinity or NaN (nothing
    is raised); where Profit and Sales are finite and Sales is not zero it
    is exactly their quotient. *)
Theorem profit_margin_is_quotient {P : Parsers} (v : variant) (src df : frame)
  (n : nat) :
  frame_rows n src -> prepare v src = Ok df -> margin_rows df n.
Proof.
  apply prepare_margin_rows.
Qed.

Lemma profit_margin_is_quotient_witness :
  frame_rows 3 scenario /\
  prepare (P := reader) Analysis scenario = Ok (prepared Analysis scenario) /\
  margin_rows (prepared Analysis scenario) 3.
Proof.
  assert (H1 : frame_rows 3 scenario) by (repeat constructor).
  assert (H2 : prepare (P := reader) Analysis scenario
               = Ok (prepared Analysis scenario)) by by_computation.
  exact (conj H1 (conj H2
           (profit_margin_is_quotient (P := reader) Analysis _ _ 3 H1 H2))).
Defined.

(** C9, as the code has it.  In hello.py, once the preparation has
    succeeded, every row holds in Absolute Profit the absolute value of its
    Profit; the value is not negative whenever the Profit is not NaN (a
    missing Profit gives a NaN, which is not [>= 0]). *)
Theorem absolute_profit_is_abs {P : Parsers} (src df : frame) (n : nat) :
  frame_rows n src -> prepare Hello src = Ok df ->
  absolute_rows (fun p => p <> NaN) df n.
Proof.
  apply prepare_absolute_rows.
Qed.

Lemma absolute_profit_is_abs_witness :
  frame_rows 3 scenario /\
  prepare (P := reader) Hello scenario = Ok (prepared Hello scenario) /\
  absolute_rows (fun p => p <> NaN) (prepared Hello scenario) 3.
Proof.
  assert (H1 : frame_rows 3 scenario) by (repeat constructor).
  assert (H2 : prepare (P := reader) Hello scenario
               = Ok (prepared Hello scenario)) by by_computation.
  exact (conj H1 (conj H2
           (absolute_profit_is_abs (P := reader) _ _ 3 H1 H2))).
Defined.

(** C9 as worded fails: with an empty Profit field the Absolute Profit of
    the row is NaN, which is not non-negative. *)
Lemma absolute_profit_not_always_nonneg :
  ~ (forall (P : Parsers) (src df : frame) (n : nat),
        frame_rows n src -> prepare Hello src = Ok df ->
        absolute_rows (fun _ => True) df n).
Proof.
  intros H.
  assert (H1 : frame_rows 1 blank_profit) by (repeat constructor).
  assert (H2 : prepare (P := reader) Hello blank_profit
               = Ok (prepared Hello blank_profit)) by by_computation.
  destruct (H reader _ _ 1%nat H1 H2) as (profit & absolute & Hp & _ & Hrows).
  vm_compute in Hp. injection Hp as <-.
  destruct (Hrows 0%nat (Nat.lt_0_1)) as (p & Hp0 & _ & Hnn).
  simpl in Hp0. injection Hp0 as <-.
  specialize (Hnn I). discriminate Hnn.
Qed.

(** ** Grouping *)

Lemma insert_sorted_perm k l : Permutation (insert_sorted k l) (k :: l).
Proof.
  induction l as [| h t IH]; simpl.
  - apply Permutation_refl.
  - destruct (key_leb k h).
    + apply Permutation_refl.
    + apply perm_trans with (h :: k :: t).
      * apply perm_skip. exact IH.
      * apply perm_swap.
Qed.

Lemma sort_keys_perm l : Permutation (sort_keys l) l.
Proof.
  induction l as [| k l IH]; simpl.
  - apply perm_nil.
  - apply perm_trans with (k :: sort_keys l).
    + apply insert_sorted_perm.
    + apply perm_skip. exact IH.
Qed.

(** There is one group per distinct key. *)
Lemma group_keys_NoDup rk : NoDup (group_keys rk).
Proof.
  unfold group_keys.
  eapply Permutation_NoDup.
  - apply Permutation_sym. apply sort_keys_perm.
  - apply NoDup_nodup.
Qed.

(** The groups are the keys of the rows, those with a missing value left
    out. *)
Lemma group_keys_In rk k :
  In k (group_keys rk) <-> In k rk /\ key_na k = false.
Proof.
  unfold group_keys. split.
  - intros H.
    apply (Permutation_in _ (sort_keys_perm _)) in H.
    apply nodup_In in H. apply filter_In in H.
    destruct H as [H1 H2]. split; [exact H1 |].
    destruct (key_na k); [discriminate H2 | reflexivity].
  - intros [H1 H2].
    apply (Permutation_in _ (Permutation_sym (sort_keys_perm _))).
    apply nodup_In. apply filter_In. rewrite H2. auto.
Qed.

Lemma key_eqb_true a b : key_eqb a b = true <-> a = b.
Proof.
  unfold key_eqb. destruct (key_eq_dec a b); split; intros H;
    try reflexivity; try assumption; try discriminate H; contradiction.
Qed.

Lemma In_combine_nth {A B} (a : list A) (b : list B) x y :
  In (x, y) (combine a b) <->
  exists i, nth_error a i = Some x /\ nth_error b i = Some y.
Proof.
  revert b. induction a as [| x0 a IH]; intros b; simpl.
  - split; [contradiction |]. intros [i [H _]]. destruct i; discriminate H.
  - destruct b as [| y0 b]; simpl.
    + split; [contradiction |]. intros [i [_ H]]. destruct i; discriminate H.
    + split.
      * intros [H | H].
        -- injection H as <- <-. exists 0%nat. auto.
        -- apply IH in H. destruct H as [i Hi]. exists (S i). exact Hi.
      * intros [[| i] [H1 H2]]; simpl in *.
        -- injection H1 as <-. injection H2 as <-. auto.
        -- right. apply IH. eauto.
Qed.

(** The values selected for a group are those of the rows with its key. *)
Lemma In_select {A} k rk (vals : list A) x :
  In x (select k rk vals) <->
  exists i, nth_error rk i = Some k /\ nth_error vals i = Some x.
Proof.
  unfold select. rewrite in_map_iff. split.
  - intros [[k' x'] [Hx H]]. simpl in Hx. subst x'.
    apply filter_In in H. destruct H as [H Hk]. simpl in Hk.
    apply key_eqb_true in Hk. subst k'. apply In_combine_nth. exact H.
  - intros H. exists (k, x). split; [reflexivity |].
    apply filter_In. split.
    + apply In_combine_nth. exact H.
    + simpl. apply key_eqb_true. reflexivity.
Qed.

Lemma nth_error_seq_0 n i x :
  nth_error (seq 0 n) i = Some x <-> x = i /\ (i < n)%nat.
Proof.
  split.
  - intros H.
    assert (Hi : (i < n)%nat).
    { rewrite <- (length_seq n 0). apply nth_error_Some. congruence. }
    split; [| exact Hi].
    rewrite (nth_error_nth' _ 0%nat) in H by (rewrite length_seq; exact Hi).
    rewrite seq_nth in H by exact Hi. simpl in H. congruence.
  - intros [-> Hi].
    rewrite (nth_error_nth' _ 0%nat) by (rewrite length_seq; exact Hi).
    rewrite seq_nth by exact Hi. reflexivity.
Qed.

(** The rows of a group are the rows with its key. *)
Lemma group_rows_In k rk i :
  In i (group_rows k rk) <-> nth_error rk i = Some k.
Proof.
  unfold group_rows. rewrite In_select. split.
  - intros [j [Hk Hj]]. apply nth_error_seq_0 in Hj.
    destruct Hj as [-> _]. exact Hk.
  - intros H. exists i. split; [exact H |].
    apply nth_error_seq_0. split; [reflexivity |].
    apply nth_error_Some. congruence.
Qed.

Lemma select_cons {A} k k' rk (v : A) vals :
  select k (k' :: rk) (v :: vals)
  = if key_eqb k' k then v :: select k rk vals else select k rk vals.
Proof.
  unfold select. simpl. destruct (key_eqb k' k); reflexivity.
Qed.

Lemma select_map {A B} (f : A -> B) k rk (vals : list A) :
  select k rk (map f vals) = map f (select k rk vals).
Proof.
  revert vals. induction rk as [| k' rk IH]; intros vals.
  - reflexivity.
  - destruct vals as [| v vals]; [reflexivity |].
    simpl map. rewrite !select_cons.
    destruct (key_eqb k' k); simpl; rewrite IH; reflexivity.
Qed.

Lemma map_nth_seq {A} (d : A) (vals : list A) :
  map (fun i => nth i vals d) (seq 0 (List.length vals)) = vals.
Proof.
  induction vals as [| v vals IH]; simpl.
  - reflexivity.
  - f_equal. rewrite <- seq_shift, map_map. exact IH.
Qed.

(** The values of a group, read through the positions of its rows. *)
Lemma select_by_rows {A} (d : A) k rk (vals : list A) :
  List.length vals = List.length rk ->
  select k rk vals = map (fun i => nth i vals d) (group_rows k rk).
Proof.
  intros Hlen. unfold group_rows.
  rewrite <- select_map. f_equal.
  rewrite <- Hlen. symmetry. apply map_nth_seq.
Qed.

(** ** The category aggregate *)

Lemma select_singleton {A} c cat (vals : list A) :
  select [c] (map (fun x => [x]) cat) vals = values_of c cat vals.
Proof.
  unfold select, values_of.
  revert vals. induction cat as [| x cat IH]; intros vals.
  - reflexivity.
  - destruct vals as [| v vals]; [reflexivity |]. simpl.
    unfold key_eqb at 1.
    destruct (key_eq_dec [x] [c]) as [E | E], (cell_eq_dec x c) as [E' | E'];
      simpl; rewrite IH; try reflexivity; exfalso.
    + injection E as E. contradiction.
    + subst x. contradiction.
Qed.

(** The groups of a one-column grouping, read back as cells. *)
Lemma singleton_groups cat :
  group_keys (map (fun x => [x]) cat)
  = map (fun c => [c]) (map (hd CNaT) (group_keys (map (fun x => [x]) cat))).
Proof.
  rewrite map_map.
  rewrite <- (map_id (group_keys _)) at 1.
  apply map_ext_in. intros k Hk.
  apply group_keys_In in Hk. destruct Hk as [Hk _].
  apply in_map_iff in Hk. destruct Hk as [c [<- _]]. reflexivity.
Qed.

Lemma category_cells cat c :
  In c (map (hd CNaT) (group_keys (map (fun x => [x]) cat)))
  <-> In c cat /\ is_na c = false.
Proof.
  rewrite in_map_iff. split.
  - intros [k [<- Hk]]. apply group_keys_In in Hk. destruct Hk as [Hk Hna].
    apply in_map_iff in Hk. destruct Hk as [x [<- Hx]]. simpl in *.
    rewrite orb_false_r in Hna. auto.
  - intros [Hc Hna]. exists [c]. split; [reflexivity |].
    apply group_keys_In. split.
    + apply (in_map (fun x => [x])). exact Hc.
    + simpl. rewrite Hna. reflexivity.
Qed.

Lemma category_cells_NoDup cat :
  NoDup (map (hd CNaT) (group_keys (map (fun x => [x]) cat))).
Proof.
  apply (NoDup_map_inv (fun c => [c])).
  rewrite <- singleton_groups. apply group_keys_NoDup.
Qed.

Lemma numbers_ok (df : frame) name c nums :
  getitem df name = Ok c -> mapM as_num c = Ok nums ->
  numbers df name = Ok nums.
Proof.
  unfold numbers. intros -> H. exact H.
Qed.

Ltac invert_all :=
  repeat match goal with
         | H : rbind _ _ = Ok _ |- _ =>
             apply rbind_ok in H; destruct H as [? [? H]]
         | H : Ok _ = Ok _ |- _ => inversion H; subst; clear H
         end.

(** The shape of the category aggregate, in either script. *)
Lemma category_metrics_inv (v : variant) (df agg : frame) :
  category_metrics v df = Ok agg ->
  exists cat sales profit margin rest,
    lookup "Category" df = Some cat /\
    numbers df "Sales" = Ok sales /\
    numbers df "Profit" = Ok profit /\
    numbers df "Profit Margin" = Ok margin /\
    let rk := map (fun x => [x]) cat in
    let gk := group_keys rk in
    agg = ("Category", map (hd CNaT) gk)
          :: ("Sales", map (fun k => CNum (nansum (select k rk sales))) gk)
          :: ("Profit", map (fun k => CNum (nansum (select k rk profit))) gk)
          :: ("Profit Margin",
              map (fun k => CNum (nanmean (select k rk margin))) gk)
          :: rest.
Proof.
  unfold category_metrics, groupby_agg. intros H.
  invert_bind H. simpl in Ha.
  invert_bind Ha. injection Ha as <-.
  apply getitem_ok in Ha0. rename a0 into cat.
  cbv zeta in H. simpl row_keys in H.
  invert_bind H. injection H as <-.
  destruct v; simpl in Ha; unfold agg_column in Ha; simpl in Ha; invert_all;
    exists cat; do 4 eexists;
    (split; [eassumption |]);
    (split; [eapply numbers_ok; eassumption |]);
    (split; [eapply numbers_ok; eassumption |]);
    (split; [eapply numbers_ok; eassumption |]);
    reflexivity.
Qed.

Lemma agg_by_category (f : list xnum -> xnum) cat vals :
  map (fun k => CNum (f (select k (map (fun x => [x]) cat) vals)))
      (group_keys (map (fun x => [x]) cat))
  = map (fun c => CNum (f (values_of c cat vals)))
        (map (hd CNaT) (group_keys (map (fun x => [x]) cat))).
Proof.
  rewrite map_map. apply map_ext_in. intros k Hk.
  apply group_keys_In in Hk. destruct Hk as [Hk _].
  apply in_map_iff in Hk. destruct Hk as [c [<- _]]. simpl hd.
  rewrite select_singleton. reflexivity.
Qed.

Lemma filter_all {A} (p : A -> bool) (l : list A) :
  forallb p l = true -> filter p l = l.
Proof.
  induction l as [| x l IH]; simpl; intros H.
  - reflexivity.
  - apply andb_true_iff in H. destruct H as [Hx Hl].
    rewrite Hx, (IH Hl). reflexivity.
Qed.

(** Where no value is NaN the reductions of pandas are the plain sum and
    the plain mean. *)
Lemma nan_free_reductions (l : list xnum) :
  forallb not_nan l = true ->
  nansum l = plain_sum l /\ nanmean l = plain_mean l.
Proof.
  intros H. unfold nansum, nanmean, plain_sum, plain_mean.
  rewrite (filter_all _ _ H). split; [reflexivity |].
  destruct l; reflexivity.
Qed.

Lemma category_metrics_rows (v : variant) (df agg : frame) :
  category_metrics v df = Ok agg -> category_rows nansum nanmean df agg.
Proof.
  intros H.
  destruct (category_metrics_inv _ _ _ H)
    as (cat & sales & profit & margin & rest & Hcat & Hs & Hp & Hm & Hagg).
  cbv zeta in Hagg. subst agg.
  exists cat, sales, profit, margin.
  exists (map (hd CNaT) (group_keys (map (fun x => [x]) cat))).
  do 4 (split; [assumption |]).
  split; [reflexivity |].
  split; [apply category_cells_NoDup |].
  split; [apply category_cells |].
  simpl. rewrite !(agg_by_category nansum), (agg_by_category nanmean).
  repeat split; reflexivity.
Qed.

(** C2, as the code has it.  The category aggregate has exactly one row
    per distinct Category value of the table (a missing Category is no
    value); the row holds the sum of the Sales and of the Profit of the
    rows of that category and the mean of their Profit Margin, NaN values
    skipped by both reductions (the mean of no value is NaN).  Where no
    value is NaN these are the arithmetic sum and mean. *)
Theorem category_aggregate_rows (v : variant) (df agg : frame) :
  category_metrics v df = Ok agg ->
  category_rows nansum nanmean df agg /\
  (forall l, forallb not_nan l = true ->
             nansum l = plain_sum l /\ nanmean l = plain_mean l).
Proof.
  intros H. split.
  - apply (category_metrics_rows v). exact H.
  - apply nan_free_reductions.
Qed.

Lemma category_aggregate_rows_witness :
  category_metrics Hello (prepared Hello scenario) = Ok (metrics Hello scenario) /\
  category_rows nansum nanmean (prepared Hello scenario) (metrics Hello scenario).
Proof.
  assert (H : category_metrics Hello (prepared Hello scenario)
              = Ok (metrics Hello scenario)) by by_computation.
  exact (conj H (proj1 (category_aggregate_rows Hello _ _ H))).
Defined.

(** C2 as worded fails: a row without sales and without profit has a NaN
    margin, and the mean of its category is the mean of the other rows,
    not the arithmetic mean of all the per-row values (which is NaN). *)
Lemma category_mean_skips_nan :
  ~ (forall (v : variant) (df agg : frame),
        category_metrics v df = Ok agg ->
        category_rows plain_sum plain_mean df agg).
Proof.
  intros H.
  assert (H1 : category_metrics Hello (prepared Hello void_row)
               = Ok (metrics Hello void_row)) by by_computation.
  destruct (H _ _ _ H1)
    as (cat & sales & profit & margin & cats & Hcat & _ & _ & Hm & Hcats
        & _ & _ & _ & _ & Hmean).
  vm_compute in Hcat. injection Hcat as <-.
  vm_compute in Hm. injection Hm as <-.
  vm_compute in Hcats. injection Hcats as <-.
  vm_compute in Hmean. discriminate Hmean.
Qed.

Lemma mapM_as_num_CNum (l : list xnum) : mapM as_num (map CNum l) = Ok l.
Proof.
  induction l as [| x l IH]; simpl.
  - reflexivity.
  - rewrite IH. reflexivity.
Qed.

Lemma mapM_as_num_inv (c : column) (nums : list xnum) :
  mapM as_num c = Ok nums -> c = map CNum nums.
Proof.
  revert nums. induction c as [| x c IH]; simpl; intros nums H.
  - injection H as <-. reflexivity.
  - invert_bind H. invert_bind H. injection H as <-.
    destruct x; simpl in Ha; try discriminate Ha. injection Ha as <-.
    simpl. rewrite (IH _ Ha0). reflexivity.
Qed.

Lemma numbers_inv (df : frame) name nums :
  numbers df name = Ok nums -> lookup name df = Some (map CNum nums).
Proof.
  unfold numbers. intros H. invert_bind H.
  apply getitem_ok in Ha. apply mapM_as_num_inv in H. subst. exact Ha.
Qed.









(** ** The aggregation is total on a prepared table *)

Lemma col_div_numbers (pr sa pm : column) :
  List.length pr = List.length sa -> col_div pr sa = Ok pm ->
  exists ps ss ms,
    mapM as_num pr = Ok ps /\ mapM as_num sa = Ok ss /\ mapM as_num pm = Ok ms.
Proof.
  unfold col_div. revert sa pm.
  induction pr as [| p pr IH]; intros sa pm Hlen H.
  - destruct sa; [| discriminate Hlen]. simpl in H. injection H as <-.
    exists [], [], []. auto.
  - destruct sa as [| s sa]; [discriminate Hlen |].
    simpl in H. invert_bind H. invert_bind H. injection H as <-.
    apply cell_div_ok in Ha. destruct Ha as (x & y & -> & -> & ->).
    injection Hlen as Hlen.
    destruct (IH _ _ Hlen Ha0) as (ps & ss & ms & Hps & Hss & Hms).
    exists (x :: ps), (y :: ss), (xdiv x y :: ms).
    simpl. rewrite Hps, Hss, Hms. auto.
Qed.

Lemma col_abs_numbers (pr ap : column) :
  col_abs pr = Ok ap -> exists xs, mapM as_num ap = Ok xs.
Proof.
  unfold col_abs. revert ap.
  induction pr as [| p pr IH]; intros ap H; simpl in H.
  - injection H as <-. exists []. reflexivity.
  - invert_bind H. invert_bind H. injection H as <-.
    apply cell_abs_ok in Ha. destruct Ha as (x & -> & ->).
    destruct (IH _ Ha0) as [xs Hxs].
    exists (xabs x :: xs). simpl. rewrite Hxs. reflexivity.
Qed.

(** On a prepared table that has a Category column the category
    aggregate is built: no value of Sales, Profit or Profit Margin, finite
    or not, makes it fail. *)
Lemma category_metrics_total {P : Parsers} (v : variant) (src df : frame)
  (n : nat) (cat : column) :
  frame_rows n src -> prepare v src = Ok df ->
  lookup "Category" df = Some cat ->
  exists agg, category_metrics v df = Ok agg.
Proof.
  intros Hrows H Hcat.
  pose proof (run_prep_rows _ _ _ _ Hrows H) as Hrows'.
  unfold category_metrics, groupby_agg. simpl mapM at 1.
  unfold getitem at 1. rewrite Hcat. simpl rbind at 1. cbv zeta.
  destruct v.
  - destruct (prepare_hello_inv _ _ H)
      as (od & od' & sa & sa' & pr & pr' & pm & ap & _ & _ & _ & _ & _ & _
          & Hdiv & Habs & _ & Hsa & Hpr & Hpm & Hap).
    destruct (col_div_numbers pr' sa' pm) as (ps & ss & ms & Hps & Hss & Hms);
      [ rewrite (frame_rows_lookup _ _ _ _ Hrows' Hpr),
                (frame_rows_lookup _ _ _ _ Hrows' Hsa); reflexivity
      | exact Hdiv |].
    destruct (col_abs_numbers _ _ Habs) as [xs Hxs].
    simpl. unfold agg_column, getitem. simpl.
    rewrite Hsa, Hpr, Hpm, Hap. simpl.
    rewrite Hss, Hps, Hms, Hxs. simpl. eexists. reflexivity.
  - destruct (prepare_analysis_inv _ _ H)
      as (od & od' & sa & pr & pm & _ & _ & _ & _ & Hdiv & _ & Hsa & Hpr & Hpm).
    destruct (col_div_numbers pr sa pm) as (ps & ss & ms & Hps & Hss & Hms);
      [ rewrite (frame_rows_lookup _ _ _ _ Hrows' Hpr),
                (frame_rows_lookup _ _ _ _ Hrows' Hsa); reflexivity
      | exact Hdiv |].
    simpl. unfold agg_column, getitem. simpl.
    rewrite Hsa, Hpr, Hpm. simpl.
    rewrite Hss, Hps, Hms. simpl. eexists. reflexivity.
Qed.

Lemma values_of_none {A} c cat (vals : list A) :
  (forall j, nth_error cat j <> Some c) -> values_of c cat vals = [].
Proof.
  unfold values_of.
  revert vals. induction cat as [| c0 cat IH]; intros vals Hnone.
  - reflexivity.
  - destruct vals as [| v vals]; [reflexivity |]. simpl.
    destruct (cell_eq_dec c0 c) as [E | E].
    + exfalso. apply (Hnone 0%nat). simpl. congruence.
    + apply IH. intros j Hj. apply (Hnone (S j)). exact Hj.
Qed.

Lemma values_of_lone {A} c cat (vals : list A) i x :
  nth_error cat i = Some c -> nth_error vals i = Some x ->
  (forall j, nth_error cat j = Some c -> j = i) ->
  values_of c cat vals = [x].
Proof.
  revert vals i. induction cat as [| c0 cat IH]; intros vals i Hc Hx Huniq.
  - destruct i; discriminate Hc.
  - destruct vals as [| v vals]; [destruct i; discriminate Hx |].
    destruct i as [| i]; simpl in Hc, Hx.
    + injection Hc as ->. injection Hx as ->.
      unfold values_of. simpl.
      destruct (cell_eq_dec c c) as [_ | E]; [| contradiction]. simpl. f_equal.
      apply (values_of_none c cat vals).
      intros j Hj. specialize (Huniq (S j) Hj). discriminate Huniq.
    + unfold values_of. simpl.
      destruct (cell_eq_dec c0 c) as [E | E].
      * subst c0. specialize (Huniq 0%nat eq_refl). discriminate Huniq.
      * apply (IH vals i Hc Hx).
        intros j Hj. specialize (Huniq (S j) Hj). congruence.
Qed.

Lemma nanmean_lone (m : xnum) : is_finite m = false -> nanmean [m] = m.
Proof.
  destruct m; simpl; intros H; try discriminate H; reflexivity.
Qed.

Lemma prepare_margin_propagates {P : Parsers} (v : variant) (src df : frame)
  (n : nat) (cat sales : column) (i : nat) (c : cell) :
  frame_rows n src -> prepare v src = Ok df ->
  lookup "Category" df = Some cat -> lookup "Sales" df = Some sales ->
  nth_error cat i = Some c -> is_na c = false ->
  nth_error sales i = Some (CNum (Fin 0)) ->
  (forall j, nth_error cat j = Some c -> j = i) ->
  margin_propagates v df i c.
Proof.
  intros Hrows Hprep Hcat Hsales Hc Hna Hzero Hlone.
  pose proof (run_prep_rows _ _ _ _ Hrows Hprep) as Hrows'.
  assert (Hi : (i < n)%nat).
  { rewrite <- (frame_rows_lookup _ _ _ _ Hrows' Hcat).
    apply nth_error_Some. congruence. }
  destruct (prepare_margin_rows v src df n Hrows Hprep)
    as (profit & sales' & margin & _ & Hsales' & Hmargin & Hrow).
  rewrite Hsales in Hsales'. injection Hsales' as <-.
  destruct (Hrow i Hi) as (p & s & _ & Hs & Hm & Hinf & _).
  rewrite Hzero in Hs. injection Hs as <-.
  specialize (Hinf eq_refl).
  destruct (category_metrics_total v src df n cat Hrows Hprep Hcat) as [agg Hagg].
  destruct (category_metrics_rows v df agg Hagg)
    as (cat' & _ & _ & nums & cats & Hcat' & _ & _ & Hnums & Hcats & _
        & Hmem & _ & _ & Hmeans).
  rewrite Hcat in Hcat'. injection Hcat' as <-.
  apply numbers_inv in Hnums. rewrite Hmargin in Hnums.
  injection Hnums as ->.
  rewrite nth_error_map in Hm.
  destruct (nth_error nums i) as [m |] eqn:Hmi; [| discriminate Hm].
  simpl in Hm. injection Hm as Hm. subst m.
  destruct (In_nth_error cats c (proj2 (Hmem c) (conj (nth_error_In _ _ Hc) Hna)))
    as [j Hj].
  exists (xdiv p (Fin 0)), agg, (map CNum nums), cats.
  exists (map (fun c => CNum (nanmean (values_of c cat nums))) cats), j.
  repeat split; try assumption.
  - rewrite nth_error_map, Hmi. reflexivity.
  - rewrite nth_error_map, Hj. simpl.
    rewrite (values_of_lone c cat nums i _ Hc Hmi Hlone).
    rewrite (nanmean_lone _ Hinf). reflexivity.
Qed.

(** C8.  When the only row of a category has Sales zero, its Profit
    Margin is an infinity or NaN, the category aggregate is still built,
    and the mean margin of that category is that very value. *)
Theorem zero_sales_margin_reaches_mean {P : Parsers} (v : variant)
  (src df : frame) (n : nat) (cat sales : column) (i : nat) (c : cell) :
  frame_rows n src -> prepare v src = Ok df ->
  lookup "Category" df = Some cat -> lookup "Sales" df = Some sales ->
  nth_error cat i = Some c -> is_na c = false ->
  nth_error sales i = Some (CNum (Fin 0)) ->
  (forall j, nth_error cat j = Some c -> j = i) ->
  margin_propagates v df i c.
Proof.
  apply prepare_margin_propagates.
Qed.

Lemma zero_sales_margin_reaches_mean_witness :
  frame_rows 2 free_sample /\
  prepare (P := reader) Hello free_sample = Ok (prepared Hello free_sample) /\
  margin_propagates Hello (prepared Hello free_sample) 0 (CStr "Tech").
Proof.
  assert (H1 : frame_rows 2 free_sample) by (repeat constructor).
  assert (H2 : prepare (P := reader) Hello free_sample
               = Ok (prepared Hello free_sample)) by by_computation.
  refine (conj H1 (conj H2
            (zero_sales_margin_reaches_mean (P := reader) Hello _ _ 2
               [CStr "Tech"; CStr "Office"] [num 0; num 200] 0 (CStr "Tech")
               H1 H2 _ _ _ _ _ _))).
  - vm_compute. reflexivity.
  - vm_compute. reflexivity.
  - reflexivity.
  - reflexivity.
  - reflexivity.
  - intros [| [| j]] Hj; simpl in Hj; try reflexivity; try discriminate Hj.
    destruct j; discriminate Hj.
Defined.

(** ** The temporal view *)

Lemma month_buckets (dates buckets : column) :
  mapM month_bucket dates = Ok buckets -> buckets = map (bucket_of Hello) dates.
Proof.
  revert buckets. induction dates as [| d dates IH]; simpl; intros buckets H.
  - injection H as <-. reflexivity.
  - invert_bind H. invert_bind H. injection H as <-.
    rewrite (IH _ Ha0). f_equal.
    destruct d; simpl in Ha; try discriminate Ha; injection Ha as <-;
      reflexivity.
Qed.

Lemma row_keys_pair (a b : column) :
  row_keys [a; b] = map (fun xy => [fst xy; snd xy]) (combine a b).
Proof.
  simpl. revert b. induction a as [| x a IH]; intros b.
  - reflexivity.
  - destruct b as [| y b]; [reflexivity |]. simpl. f_equal. apply IH.
Qed.

Lemma row_keys_pair_nth (a b : column) i x y :
  nth_error a i = Some x -> nth_error b i = Some y ->
  nth_error (row_keys [a; b]) i = Some [x; y].
Proof.
  intros Hx Hy. rewrite row_keys_pair, nth_error_map.
  assert (H : nth_error (combine a b) i = Some (x, y)).
  { revert b i Hx Hy. induction a as [| x0 a IH]; intros b i Hx Hy.
    - destruct i; discriminate Hx.
    - destruct b as [| y0 b]; [destruct i; discriminate Hy |].
      destruct i as [| i]; simpl in *.
      + congruence.
      + apply IH; assumption. }
  rewrite H. reflexivity.
Qed.

Lemma row_keys_pair_length (a b : column) :
  List.length (row_keys [a; b]) = Nat.min (List.length a) (List.length b).
Proof.
  rewrite row_keys_pair, length_map. apply length_combine.
Qed.

Lemma groupby_agg_keys (df : frame) keys aggs :
  groupby_agg df keys aggs
  = (rk <- row_keys_of df keys ;;
     acols <- mapM (agg_column df rk (group_keys rk)) aggs ;;
     Ok (key_frame (map keyspec_name keys) (group_keys rk) ++ acols)).
Proof.
  unfold groupby_agg, row_keys_of.
  destruct (mapM (key_column df) keys); reflexivity.
Qed.

Lemma map_id_bucket (dates : column) : map (bucket_of Analysis) dates = dates.
Proof.
  induction dates as [| d dates IH]; simpl.
  - reflexivity.
  - rewrite IH. reflexivity.
Qed.

Lemma temporal_keys_inv (v : variant) (df : frame) (rk : list key) :
  row_keys_of df (temporal_keys v) = Ok rk ->
  exists dates cat,
    lookup "Order Date" df = Some dates /\
    lookup "Category" df = Some cat /\
    rk = row_keys [map (bucket_of v) dates; cat].
Proof.
  unfold row_keys_of. intros H.
  destruct v; simpl mapM at 1 in H; invert_all;
    repeat match goal with
           | E : getitem _ _ = Ok _ |- _ => apply getitem_ok in E
           | E : mapM month_bucket _ = Ok _ |- _ => apply month_buckets in E
           end; subst.
  - do 2 eexists. repeat split; eassumption.
  - do 2 eexists. rewrite map_id_bucket. repeat split; eassumption.
Qed.

(** The shape of the temporal view, in either script. *)
Lemma temporal_data_inv (v : variant) (df agg : frame) :
  temporal_data v df = Ok agg ->
  exists dates cat sales rk,
    lookup "Order Date" df = Some dates /\
    lookup "Category" df = Some cat /\
    numbers df "Sales" = Ok sales /\
    row_keys_of df (temporal_keys v) = Ok rk /\
    rk = row_keys [map (bucket_of v) dates; cat] /\
    agg = [ ("Order Date", map (hd CNaT) (group_keys rk));
            ("Category", map (hd CNaT) (map (@tl cell) (group_keys rk)));
            ("Sales", map (fun k => CNum (nansum (select k rk sales)))
                          (group_keys rk)) ].
Proof.
  unfold temporal_data. rewrite groupby_agg_keys. intros H.
  apply rbind_ok in H. destruct H as [rk [Hrk H]].
  destruct (temporal_keys_inv _ _ _ Hrk) as (dates & cat & Hd & Hc & Hrk').
  simpl mapM in H. unfold agg_column in H. simpl in H. invert_all.
  exists dates, cat. do 2 eexists.
  split; [assumption |]. split; [assumption |].
  split; [eapply numbers_ok; eassumption |].
  split; [eassumption |]. split; [reflexivity |].
  destruct v; reflexivity.
Qed.

Lemma hd_tl_nth (gk : list key) :
  map (hd CNaT) gk = map (fun k => nth 0 k CNaT) gk /\
  map (hd CNaT) (map (@tl cell) gk) = map (fun k => nth 1 k CNaT) gk.
Proof.
  split.
  - apply map_ext. intros [| x k]; reflexivity.
  - rewrite map_map. apply map_ext. intros [| x [| y k]]; reflexivity.
Qed.

Lemma temporal_data_partition (n : nat) (v : variant) (df agg : frame) :
  frame_rows n df -> temporal_data v df = Ok agg ->
  temporal_partition (fun k => key_na k = false) v df agg n.
Proof.
  intros Hrows H.
  destruct (temporal_data_inv _ _ _ H)
    as (dates & cat & sales & rk & Hd & Hc & Hs & Hrk & Hrk' & Hagg).
  assert (Hlen : List.length rk = n).
  { rewrite Hrk', row_keys_pair_length, length_map.
    rewrite (frame_rows_lookup _ _ _ _ Hrows Hd),
            (frame_rows_lookup _ _ _ _ Hrows Hc).
    apply Nat.min_id. }
  assert (Hls : List.length sales = List.length rk).
  { pose proof (frame_rows_lookup _ _ _ _ Hrows (numbers_inv _ _ _ Hs)) as E.
    rewrite length_map in E. congruence. }
  exists rk, (group_keys rk). split; [| split; [exact Hlen | split]].
  - exists dates, cat, sales.
    do 4 (split; [assumption |]).
    split.
    { intros i d c Hi Hj. rewrite Hrk'. apply row_keys_pair_nth.
      - rewrite nth_error_map, Hi. reflexivity.
      - exact Hj. }
    destruct (hd_tl_nth (group_keys rk)) as [E0 E1].
    subst agg. simpl lookup. rewrite E0, E1.
    do 2 (split; [reflexivity |]).
    split.
    { f_equal. apply map_ext. intros k.
      rewrite (select_by_rows NaN) by exact Hls. reflexivity. }
    split; [apply group_keys_NoDup |].
    intros k Hk. apply group_keys_In in Hk. destruct Hk as [Hk _].
    apply In_nth_error. exact Hk.
  - intros i k Hi Hna. exists k. split; [| split].
    + apply group_keys_In. split; [| exact Hna].
      eapply nth_error_In. exact Hi.
    + apply group_rows_In. exact Hi.
    + intros k' _ Hi'. apply group_rows_In in Hi'. congruence.
  - intros k i Hk Hi. split.
    + apply group_rows_In. exact Hi.
    + apply group_keys_In in Hk. apply Hk.
Qed.

(** C3, as the code has it.  The temporal view has a row only for a
    (bucket, category) pair that some row of the table has, and every row
    of the table whose Order Date and Category are both present is counted
    in the Sales sum of exactly one row of the view; a row with a missing
    Order Date or Category is counted in none. *)
Theorem temporal_groups_partition {P : Parsers} (v : variant)
  (src df agg : frame) (n : nat) :
  frame_rows n src -> prepare v src = Ok df -> temporal_data v df = Ok agg ->
  temporal_partition (fun k => key_na k = false) v df agg n.
Proof.
  intros Hrows Hprep H.
  apply temporal_data_partition; [| exact H].
  apply (run_prep_rows _ _ _ _ Hrows Hprep).
Qed.

Lemma temporal_groups_partition_witness :
  frame_rows 3 scenario /\
  prepare (P := reader) Hello scenario = Ok (prepared Hello scenario) /\
  temporal_data Hello (prepared Hello scenario) = Ok (temporal Hello scenario) /\
  temporal_partition (fun k => key_na k = false) Hello
    (prepared Hello scenario) (temporal Hello scenario) 3.
Proof.
  assert (H1 : frame_rows 3 scenario) by (repeat constructor).
  assert (H2 : prepare (P := reader) Hello scenario
               = Ok (prepared Hello scenario)) by by_computation.
  assert (H3 : temporal_data Hello (prepared Hello scenario)
               = Ok (temporal Hello scenario)) by by_computation.
  exact (conj H1 (conj H2 (conj H3
           (temporal_groups_partition (P := reader) Hello _ _ _ 3 H1 H2 H3)))).
Defined.

(** C3 as worded fails: a row whose Category field is empty is counted
    in no sum of the temporal view. *)
Lemma temporal_groups_miss_blank_category :
  ~ (forall (P : Parsers) (v : variant) (src df agg : frame) (n : nat),
        frame_rows n src -> prepare v src = Ok df ->
        temporal_data v df = Ok agg ->
        temporal_partition (fun _ => True) v df agg n).
Proof.
  intros H.
  assert (H1 : frame_rows 2 blank_category) by (repeat constructor).
  assert (H2 : prepare (P := reader) Hello blank_category
               = Ok (prepared Hello blank_category)) by by_computation.
  assert (H3 : temporal_data Hello (prepared Hello blank_category)
               = Ok (temporal Hello blank_category)) by by_computation.
  destruct (H reader _ _ _ _ _ H1 H2 H3) as (rk & gk & Hrows & _ & Hone & Hin).
  destruct Hrows as (dates & cat & sales & _ & _ & _ & Hrk & _).
  vm_compute in Hrk. injection Hrk as <-.
  destruct (Hone 1%nat _ eq_refl I) as (k & Hk & Hi & _).
  destruct (Hin k 1%nat Hk Hi) as [Hrow Hna].
  simpl in Hrow. injection Hrow as Hrow. subst k. discriminate Hna.
Qed.

Lemma month_end_same_month d e : same_month d e -> month_end d = month_end e.
Proof.
  intros [Hy Hm]. unfold month_end. rewrite Hy, Hm. reflexivity.
Qed.

(** No bucket of hello.py is a date that is not the end of its month. *)
Lemma bucket_is_month_end (c : cell) (x : date) :
  bucket_of Hello c = CDate x -> x = month_end x.
Proof.
  destruct c; simpl; intros H; try discriminate H.
  injection H as <-. reflexivity.
Qed.

(** The dates of the temporal view of hello.py are ends of months; every
    dated row with a Category puts its own date in the view of
    superstore_analysis.py. *)
Lemma temporal_dates (n : nat) (v : variant) (df agg : frame) :
  frame_rows n df -> temporal_data v df = Ok agg ->
  exists dates cat keys,
    lookup "Order Date" df = Some dates /\
    lookup "Category" df = Some cat /\
    lookup "Order Date" agg = Some keys /\
    (forall x, In (CDate x) keys ->
               exists d, In d dates /\ bucket_of v d = CDate x) /\
    (forall i d c, nth_error dates i = Some d -> nth_error cat i = Some c ->
                   is_na (bucket_of v d) = false -> is_na c = false ->
                   In (bucket_of v d) keys).
Proof.
  intros Hrows H.
  destruct (temporal_data_partition n v df agg Hrows H)
    as (rk & gk & Hview & Hlen & Hone & _).
  destruct Hview as (dates & cat & sales & Hd & Hc & _ & _ & Hrk & Hkeys & _
                     & _ & _ & Hsome).
  exists dates, cat, (map (fun k => nth 0 k CNaT) gk).
  do 3 (split; [assumption |]). split.
  - intros x Hx. apply in_map_iff in Hx. destruct Hx as (k & Hk0 & Hk).
    destruct (Hsome k Hk) as [i Hi].
    assert (Hin : (i < n)%nat)
      by (rewrite <- Hlen; apply nth_error_Some; congruence).
    destruct (nth_error dates i) as [d |] eqn:Hdi.
    2:{ apply nth_error_None in Hdi.
        rewrite (frame_rows_lookup _ _ _ _ Hrows Hd) in Hdi. lia. }
    destruct (nth_error cat i) as [c |] eqn:Hci.
    2:{ apply nth_error_None in Hci.
        rewrite (frame_rows_lookup _ _ _ _ Hrows Hc) in Hci. lia. }
    rewrite (Hrk i d c Hdi Hci) in Hi. injection Hi as <-.
    exists d. split; [eapply nth_error_In; exact Hdi | exact Hk0].
  - intros i d c Hdi Hci Hnd Hnc.
    pose proof (Hrk i d c Hdi Hci) as Hi.
    assert (Hna : key_na [bucket_of v d; c] = false)
      by (simpl; rewrite Hnd, Hnc; reflexivity).
    destruct (Hone i _ Hi Hna) as (k & Hk & Hrow & _).
    apply group_rows_In in Hrow. rewrite Hi in Hrow. injection Hrow as <-.
    apply (in_map (fun k => nth 0 k CNaT)) in Hk. exact Hk.
Qed.

(** Whenever two rows of one category have distinct dates of one month,
    the temporal views of the two scripts have different Order Date
    keys. *)
Lemma temporal_views_differ {P : Parsers} (src dfh dfa hv av : frame)
  (n : nat) (dates cat : column) (i j : nat) (d e : date) (c : cell) :
  frame_rows n src ->
  prepare Hello src = Ok dfh -> prepare Analysis src = Ok dfa ->
  temporal_data Hello dfh = Ok hv -> temporal_data Analysis dfa = Ok av ->
  lookup "Order Date" dfa = Some dates -> lookup "Category" dfa = Some cat ->
  nth_error dates i = Some (CDate d) -> nth_error cat i = Some c ->
  nth_error dates j = Some (CDate e) -> nth_error cat j = Some c ->
  is_na c = false -> d <> e -> same_month d e ->
  lookup "Order Date" hv <> lookup "Order Date" av.
Proof.
  intros Hrows Hph Hpa Hh Ha Hd Hc Hdi Hci Hdj Hcj Hna Hde Hsame E.
  pose proof (run_prep_rows _ _ _ _ Hrows Hph) as Hrh.
  pose proof (run_prep_rows _ _ _ _ Hrows Hpa) as Hra.
  destruct (temporal_dates n Hello dfh hv Hrh Hh)
    as (dates_h & cat_h & keys_h & _ & _ & Hkh & Hends & _).
  destruct (temporal_dates n Analysis dfa av Hra Ha)
    as (dates_a & cat_a & keys_a & Hd' & Hc' & Hka & _ & Hown).
  rewrite Hd in Hd'. injection Hd' as <-.
  rewrite Hc in Hc'. injection Hc' as <-.
  rewrite Hkh, Hka in E. injection E as <-.
  assert (Hx : exists x, x <> month_end x /\ In (CDate x) keys_h).
  { destruct (date_eq_dec d (month_end d)) as [Ed | Ed].
    - exists e. split.
      + intros Ee. apply Hde. rewrite Ed, Ee.
        apply month_end_same_month. exact Hsame.
      + apply (Hown j (CDate e) c Hdj Hcj eq_refl Hna).
    - exists d. split; [exact Ed |].
      apply (Hown i (CDate d) c Hdi Hci eq_refl Hna). }
  destruct Hx as (x & Hx & Hin).
  destruct (Hends x Hin) as (d' & _ & Hb).
  apply Hx. apply (bucket_is_month_end _ _ Hb).
Qed.

Lemma temporal_view_keys (n : nat) (v : variant) (df agg : frame) :
  frame_rows n df -> temporal_data v df = Ok agg ->
  exists dates cat gk,
    lookup "Order Date" df = Some dates /\
    lookup "Category" df = Some cat /\
    view_keys agg = map key_pair gk /\
    NoDup gk /\
    (forall k, In k gk <->
       exists i d c, nth_error dates i = Some d /\ nth_error cat i = Some c /\
                     k = [bucket_of v d; c] /\
                     is_na (bucket_of v d) = false /\ is_na c = false).
Proof.
  intros Hrows H.
  destruct (temporal_data_partition n v df agg Hrows H)
    as (rk & gk & Hview & Hlen & Hone & Hgrp).
  destruct Hview as (dates & cat & sales & Hd & Hc & _ & _ & Hrk & Hkd & Hkc
                     & _ & Hnd & Hsome).
  exists dates, cat, gk.
  do 2 (split; [assumption |]).
  split.
  { unfold view_keys. rewrite Hkd, Hkc. unfold key_pair.
    clear. induction gk as [| k gk IH]; [reflexivity |].
    simpl. rewrite IH. reflexivity. }
  split; [exact Hnd |].
  intros k. split.
  - intros Hk. destruct (Hsome k Hk) as [i Hi].
    assert (Hin : (i < n)%nat)
      by (rewrite <- Hlen; apply nth_error_Some; congruence).
    destruct (nth_error dates i) as [d |] eqn:Hdi.
    2:{ apply nth_error_None in Hdi.
        rewrite (frame_rows_lookup _ _ _ _ Hrows Hd) in Hdi. lia. }
    destruct (nth_error cat i) as [c |] eqn:Hci.
    2:{ apply nth_error_None in Hci.
        rewrite (frame_rows_lookup _ _ _ _ Hrows Hc) in Hci. lia. }
    pose proof (Hrk i d c Hdi Hci) as Hi'.
    rewrite Hi in Hi'. injection Hi' as Hk'.
    destruct (Hgrp k i Hk (proj2 (group_rows_In k rk i) Hi)) as [_ Hna].
    exists i, d, c. do 3 (split; [assumption |]).
    subst k. simpl in Hna. rewrite orb_false_r in Hna.
    apply orb_false_iff in Hna. exact Hna.
  - intros (i & d & c & Hdi & Hci & -> & Hnd' & Hnc).
    pose proof (Hrk i d c Hdi Hci) as Hi.
    assert (Hna : key_na [bucket_of v d; c] = false)
      by (simpl; rewrite Hnd', Hnc; reflexivity).
    destruct (Hone i _ Hi Hna) as (k & Hk & Hrow & _).
    apply group_rows_In in Hrow. rewrite Hi in Hrow. injection Hrow as <-.
    exact Hk.
Qed.

Lemma key_pair_NoDup (gk : list key) :
  (forall k, In k gk -> exists a b, k = [a; b]) ->
  NoDup gk -> NoDup (map key_pair gk).
Proof.
  intros Hform Hnd.
  apply Finite.Injective_map_NoDup_in; [| exact Hnd].
  intros x y Hx Hy E.
  destruct (Hform x Hx) as (a & b & ->).
  destruct (Hform y Hy) as (a' & b' & ->).
  unfold key_pair in E. simpl in E. injection E as -> ->. reflexivity.
Qed.

Lemma month_end_of_iff (d x : date) : month_end_of d x <-> x = month_end d.
Proof.
  unfold month_end_of, month_end. split.
  - destruct x as [y m dd]. simpl. intros (-> & -> & ->). reflexivity.
  - intros ->. simpl. auto.
Qed.

Lemma hello_bucketed (n : nat) (df agg : frame) (dates cat : column) :
  frame_rows n df -> temporal_data Hello df = Ok agg ->
  lookup "Order Date" df = Some dates -> lookup "Category" df = Some cat ->
  bucketed_by month_end_of dates cat agg.
Proof.
  intros Hrows H Hd Hc.
  destruct (temporal_view_keys n Hello df agg Hrows H)
    as (dates' & cat' & gk & Hd' & Hc' & Hkeys & _ & Hgk).
  rewrite Hd in Hd'. injection Hd' as <-.
  rewrite Hc in Hc'. injection Hc' as <-.
  intros x c. rewrite Hkeys. split.
  - intros Hin. apply in_map_iff in Hin. destruct Hin as (k & Hk & Hin).
    apply Hgk in Hin.
    destruct Hin as (i & d0 & c0 & Hdi & Hci & -> & _ & Hnc).
    unfold key_pair in Hk. simpl in Hk. injection Hk as Hb ->.
    destruct d0 as [s | y | d |]; simpl in Hb; try discriminate Hb.
    injection Hb as <-.
    exists i, d. do 3 (split; [assumption |]).
    apply month_end_of_iff. reflexivity.
  - intros (i & d & Hdi & Hci & Hnc & Hx).
    apply month_end_of_iff in Hx. subst x.
    apply in_map_iff. exists [CDate (month_end d); c].
    split; [reflexivity |].
    apply Hgk. exists i, (CDate d), c. simpl. auto.
Qed.

Lemma analysis_bucketed (n : nat) (df agg : frame) (dates cat : column) :
  frame_rows n df -> temporal_data Analysis df = Ok agg ->
  lookup "Order Date" df = Some dates -> lookup "Category" df = Some cat ->
  bucketed_by same_date dates cat agg.
Proof.
  intros Hrows H Hd Hc.
  destruct (temporal_view_keys n Analysis df agg Hrows H)
    as (dates' & cat' & gk & Hd' & Hc' & Hkeys & _ & Hgk).
  rewrite Hd in Hd'. injection Hd' as <-.
  rewrite Hc in Hc'. injection Hc' as <-.
  intros x c. rewrite Hkeys. split.
  - intros Hin. apply in_map_iff in Hin. destruct Hin as (k & Hk & Hin).
    apply Hgk in Hin.
    destruct Hin as (i & d0 & c0 & Hdi & Hci & -> & _ & Hnc).
    unfold key_pair in Hk. simpl in Hk. injection Hk as Hb ->.
    subst d0.
    exists i, x. do 3 (split; [assumption |]). reflexivity.
  - intros (i & d & Hdi & Hci & Hnc & Hx).
    unfold same_date in Hx. subst x.
    apply in_map_iff. exists [CDate d; c].
    split; [reflexivity |].
    apply Hgk. exists i, (CDate d), c. simpl. auto.
Qed.

Lemma map_not_injective {A B} (f : A -> B) (l : list A) (a b : A) :
  In a l -> In b l -> a <> b -> f a = f b -> ~ NoDup (map f l).
Proof.
  intros Ha Hb Hab E Hnd.
  induction l as [| x l IH]; [destruct Ha |].
  simpl in Hnd. inversion Hnd as [| ? ? Hx Hl]; subst.
  destruct Ha as [-> | Ha], Hb as [-> | Hb].
  - apply Hab. reflexivity.
  - apply Hx. rewrite E. apply in_map. exact Hb.
  - apply Hx. rewrite <- E. apply in_map. exact Ha.
  - apply (IH Ha Hb Hl).
Qed.

Lemma bucket_of_hello_na (d : cell) :
  is_na (bucket_of Hello d) = is_na d.
Proof. destruct d; reflexivity. Qed.

Lemma prepared_keys_agree {P : Parsers} (src dfh dfa : frame) :
  prepare Hello src = Ok dfh -> prepare Analysis src = Ok dfa ->
  lookup "Order Date" dfh = lookup "Order Date" dfa /\
  lookup "Category" dfh = lookup "Category" dfa.
Proof.
  intros Hh Ha. split.
  - destruct (prepare_hello_inv _ _ Hh)
      as (od & od' & ? & ? & ? & ? & ? & ? & Hod & Hdt & _ & _ & _ & _ & _ & _
          & Hod' & _).
    destruct (prepare_analysis_inv _ _ Ha)
      as (od2 & od2' & ? & ? & ? & Hod2 & Hdt2 & _ & _ & _ & Hod2' & _).
    rewrite Hod in Hod2. injection Hod2 as <-.
    rewrite Hdt in Hdt2. injection Hdt2 as <-.
    rewrite Hod', Hod2'. reflexivity.
  - rewrite (run_prep_untouched _ _ _ "Category" Hh),
            (run_prep_untouched _ _ _ "Category" Ha); [reflexivity | |];
      simpl; intros Hin;
      repeat (destruct Hin as [Hin | Hin]; try discriminate Hin);
      contradiction.
Qed.

Lemma to_datetime_dated {P : Parsers} (od od' : column) :
  to_datetime od = Ok od' ->
  forall c, In c od' -> is_na c = false -> exists x, c = CDate x.
Proof.
  unfold to_datetime. intros H. apply mapM_Forall2 in H.
  induction H as [| a b l l' Hab _ IH]; intros c Hc Hna; [destruct Hc |].
  destruct Hc as [-> | Hc]; [| apply (IH c Hc Hna)].
  destruct a as [s | x | d |]; simpl in Hab.
  - destruct (parse_datetime s) as [[d |] |]; try discriminate Hab;
      injection Hab as <-; simpl in *; [eauto | discriminate Hna].
  - destruct x; try (destruct (datetime_of_number _); try discriminate Hab);
      injection Hab as <-; simpl in *; eauto; discriminate Hna.
  - injection Hab as <-. eauto.
  - injection Hab as <-. discriminate Hna.
Qed.

Lemma view_keys_dated {P : Parsers} (n : nat) (v : variant)
  (src df agg : frame) :
  frame_rows n src -> prepare v src = Ok df -> temporal_data v df = Ok agg ->
  forall k c, In (k, c) (view_keys agg) -> exists x, k = CDate x.
Proof.
  intros Hrows Hprep H k c Hin.
  pose proof (run_prep_rows _ _ _ _ Hrows Hprep) as Hrows'.
  destruct (temporal_view_keys n v df agg Hrows' H)
    as (dates & cat & gk & Hd & _ & Hkeys & _ & Hgk).
  destruct (prepare_inv _ _ _ Hprep)
    as (od & od' & pr & sa & pm & _ & Hdt & Hod & _).
  rewrite Hd in Hod. injection Hod as <-.
  rewrite Hkeys in Hin. apply in_map_iff in Hin.
  destruct Hin as (k0 & Hk0 & Hin). apply Hgk in Hin.
  destruct Hin as (i & d & c0 & Hdi & _ & -> & Hnd & _).
  unfold key_pair in Hk0. simpl in Hk0. injection Hk0 as <- _.
  assert (Hd0 : is_na d = false).
  { destruct v; [rewrite bucket_of_hello_na in Hnd |]; exact Hnd. }
  destruct (to_datetime_dated _ _ Hdt d (nth_error_In _ _ Hdi) Hd0) as [x ->].
  destruct v; simpl; eauto.
Qed.

Lemma prepare_bucketing_differs {P : Parsers} (src dfh dfa hv av : frame)
  (n : nat) :
  frame_rows n src ->
  prepare Hello src = Ok dfh -> prepare Analysis src = Ok dfa ->
  temporal_data Hello dfh = Ok hv -> temporal_data Analysis dfa = Ok av ->
  bucketing_differs dfh dfa hv av.
Proof.
  intros Hrows Hph Hpa Hh Ha.
  pose proof (run_prep_rows _ _ _ _ Hrows Hph) as Hrh.
  pose proof (run_prep_rows _ _ _ _ Hrows Hpa) as Hra.
  destruct (prepared_keys_agree _ _ _ Hph Hpa) as [Ed Ec].
  destruct (temporal_view_keys n Hello dfh hv Hrh Hh)
    as (dates & cat & gh & Hdh & Hch & Hkh & Hndh & Hgh).
  destruct (temporal_view_keys n Analysis dfa av Hra Ha)
    as (dates' & cat' & ga & Hda & Hca & Hka & Hnda & Hga).
  rewrite Hdh in Ed. rewrite Hda in Ed. injection Ed as <-.
  rewrite Hch in Ec. rewrite Hca in Ec. injection Ec as <-.
  assert (Hincl : incl gh (map monthly ga)).
  { intros k Hk. apply Hgh in Hk.
    destruct Hk as (i & d & c & Hdi & Hci & -> & Hnd & Hnc).
    apply in_map_iff. exists [d; c]. split; [reflexivity |].
    apply Hga. exists i, d, c. simpl.
    rewrite bucket_of_hello_na in Hnd. auto. }
  assert (Hlen : (List.length gh <= List.length ga)%nat).
  { rewrite <- (length_map monthly ga).
    apply NoDup_incl_length; assumption. }
  exists dates, cat.
  do 4 (split; [assumption |]).
  split; [apply (hello_bucketed n dfh); assumption |].
  split; [apply (analysis_bucketed n dfa); assumption |].
  split.
  { rewrite Hkh. apply key_pair_NoDup; [| exact Hndh].
    intros k Hk. apply Hgh in Hk.
    destruct Hk as (_ & d & c & _ & _ & -> & _). eauto. }
  split.
  { rewrite Hka. apply key_pair_NoDup; [| exact Hnda].
    intros k Hk. apply Hga in Hk.
    destruct Hk as (_ & d & c & _ & _ & -> & _). eauto. }
  split; [apply (view_keys_dated n Hello src dfh); assumption |].
  split; [apply (view_keys_dated n Analysis src dfa); assumption |].
  split; [rewrite Hkh, Hka, !length_map; exact Hlen |].
  intros i j d e c Hdi Hci Hdj Hcj Hnc Hde Hsame.
  assert (Hlt : (List.length (view_keys hv) < List.length (view_keys av))%nat).
  { rewrite Hkh, Hka, !length_map.
    destruct (Nat.lt_ge_cases (List.length gh) (List.length ga)) as [Hlt | Hge];
      [exact Hlt | exfalso].
    rewrite <- (length_map monthly ga) in Hge.
    pose proof (NoDup_incl_NoDup Hndh Hge Hincl) as Hnd.
    revert Hnd.
    apply (map_not_injective monthly ga [CDate d; c] [CDate e; c]).
    - apply Hga. exists i, (CDate d), c. simpl. auto.
    - apply Hga. exists j, (CDate e), c. simpl. auto.
    - intros E. injection E as E. contradiction.
    - unfold monthly. simpl.
      rewrite (month_end_same_month _ _ Hsame). reflexivity. }
  split; [exact Hlt |].
  assert (Hod : lookup "Order Date" hv <> lookup "Order Date" av)
    by (apply (temporal_views_differ src dfh dfa hv av n dates cat i j d e c);
        assumption).
  split; [exact Hod |].
  intros E. apply Hod. rewrite E. reflexivity.
Qed.

(** C5.  The two scripts bucket the temporal view differently.  For
    every loaded table both scripts prepare: a dated key of the view of
    hello.py is the last day of the calendar month of a row, paired with
    the category of that row, and every dated row that has a Category
    gives such a key; a dated key of the view of superstore_analysis.py is
    the date of a row itself; every key of either view is dated and none is
    repeated; the monthly view never has more rows, and
    has fewer rows and other Order Date keys as soon as two rows of one
    category have distinct dates of one month.  Such a table exists: on the
    scenario, whose two Tech rows are of 2023-01-05 and 2023-01-20,
    hello.py gives the two rows keyed 2023-01-31 and 2023-02-28,
    superstore_analysis.py the three rows keyed by the dates as loaded. *)
Theorem temporal_bucketing_differs {P : Parsers} :
  (forall (src dfh dfa hello_view analysis_view : frame) (n : nat),
      frame_rows n src ->
      prepare Hello src = Ok dfh -> prepare Analysis src = Ok dfa ->
      temporal_data Hello dfh = Ok hello_view ->
      temporal_data Analysis dfa = Ok analysis_view ->
      bucketing_differs dfh dfa hello_view analysis_view) /\
  (exists (src : frame) (dates cat : column) (i j : nat) (d e : date)
          (c : cell),
      lookup "Order Date" src = Some dates /\
      lookup "Category" src = Some cat /\
      nth_error dates i = Some (CDate d) /\ nth_error cat i = Some c /\
      nth_error dates j = Some (CDate e) /\ nth_error cat j = Some c /\
      d <> e /\ same_month d e /\
      temporal_view Hello src = Ok (fst dated_views) /\
      temporal_view Analysis src = Ok (snd dated_views) /\
      fst dated_views <> snd dated_views).
Proof.
  split.
  - intros src dfh dfa hv av n. apply prepare_bucketing_differs.
  - exists scenario_dated.
    exists [CDate (mkDate 2023 1 5); CDate (mkDate 2023 1 20);
            CDate (mkDate 2023 2 1)].
    exists [CStr "Tech"; CStr "Tech"; CStr "Office"].
    exists 0%nat, 1%nat, (mkDate 2023 1 5), (mkDate 2023 1 20), (CStr "Tech").
    do 6 (split; [reflexivity |]).
    split; [discriminate |].
    split; [split; reflexivity |].
    split; [vm_compute; reflexivity |].
    split; [vm_compute; reflexivity |].
    intros E. apply (f_equal (lookup "Order Date")) in E.
    vm_compute in E. discriminate E.
Qed.

Lemma temporal_bucketing_differs_witness :
  frame_rows 3 scenario_dated /\
  prepare (P := reader) Hello scenario_dated
    = Ok (prepared Hello scenario_dated) /\
  prepare (P := reader) Analysis scenario_dated
    = Ok (prepared Analysis scenario_dated) /\
  temporal_data Hello (prepared Hello scenario_dated)
    = Ok (fst dated_views) /\
  temporal_data Analysis (prepared Analysis scenario_dated)
    = Ok (snd dated_views) /\
  bucketing_differs (prepared Hello scenario_dated)
    (prepared Analysis scenario_dated) (fst dated_views) (snd dated_views).
Proof.
  assert (H1 : frame_rows 3 scenario_dated) by (repeat constructor).
  assert (H2 : prepare (P := reader) Hello scenario_dated
               = Ok (prepared Hello scenario_dated)) by by_computation.
  assert (H3 : prepare (P := reader) Analysis scenario_dated
               = Ok (prepared Analysis scenario_dated)) by by_computation.
  assert (H4 : temporal_data Hello (prepared Hello scenario_dated)
               = Ok (fst dated_views)) by by_computation.
  assert (H5 : temporal_data Analysis (prepared Analysis scenario_dated)
               = Ok (snd dated_views)) by by_computation.
  exact (conj H1 (conj H2 (conj H3 (conj H4 (conj H5
           (proj1 (temporal_bucketing_differs (P := reader)) _ _ _ _ _ 3%nat
                  H1 H2 H3 H4 H5)))))).
Defined.

(** ** The order of the preparation *)

Lemma prepare_coercion_effect {P : Parsers} (v : variant) (src df : frame) :
  prepare v src = Ok df -> coercion_effect v src df.
Proof.
  intros H. unfold coercion_effect. destruct v.
  - destruct (prepare_hello_inv _ _ H)
      as (od & od' & sa & sa' & pr & pr' & pm & ap & Hod & Hdt & Hsa & Hsn
          & Hpr & Hpn & Hdiv & _ & Hod' & Hsa' & Hpr' & Hpm & _).
    split; [exists od, od'; auto |].
    split; [intros _; exists sa, sa', pr, pr'; repeat split; assumption |].
    split; [discriminate |].
    exists pr', sa', pm. auto.
  - destruct (prepare_analysis_inv _ _ H)
      as (od & od' & sa & pr & pm & Hod & Hdt & Hsa & Hpr & Hdiv & Hod'
          & Hsa' & Hpr' & Hpm).
    split; [exists od, od'; auto |].
    split; [discriminate |].
    split; [intros _; split; congruence |].
    exists pr, sa, pm. auto.
Qed.

(** C4, as the code has it.  In both scripts every coercion of the
    preparation runs before the first derived column is computed, and
    Order Date is read as dates.  Only hello.py reads Sales and Profit as
    numbers; superstore_analysis.py has no such statement and divides the
    Profit and Sales columns as the loader delivered them. *)
Theorem coercion_precedes_derivation {P : Parsers} (v : variant)
  (src df : frame) :
  prepare v src = Ok df -> coercion_order v /\ coercion_effect v src df.
Proof.
  intros H. split.
  - destruct v; repeat split; try reflexivity; discriminate.
  - apply prepare_coercion_effect. exact H.
Qed.

Lemma coercion_precedes_derivation_witness :
  prepare (P := reader) Analysis scenario = Ok (prepared Analysis scenario) /\
  coercion_order Analysis /\
  coercion_effect (P := reader) Analysis scenario (prepared Analysis scenario).
Proof.
  assert (H : prepare (P := reader) Analysis scenario
              = Ok (prepared Analysis scenario)) by by_computation.
  exact (conj H (coercion_precedes_derivation (P := reader) Analysis _ _ H)).
Defined.

(** C4 as worded fails: superstore_analysis.py does not read Sales (nor
    Profit) as numbers before it derives the margin. *)
Lemma analysis_leaves_amounts_as_loaded :
  ~ (forall v : variant, coerces_all_first (prep_of v) = true).
Proof.
  intros H. specialize (H Analysis). vm_compute in H. discriminate H.
Qed.

(** Amounts delivered as text are read by hello.py and make the division
    of superstore_analysis.py raise. *)
Lemma text_amounts_tell_the_scripts_apart :
  (exists df, prepare (P := reader) Hello text_amounts = Ok df /\
              lookup "Profit Margin" df
              = Some [CNum (xdiv (of_Z 20) (of_Z 100))]) /\
  prepare (P := reader) Analysis text_amounts = Err TypeError.
Proof.
  split.
  - exists (prepared Hello text_amounts). split; vm_compute; reflexivity.
  - vm_compute. reflexivity.
Qed.

(** ** The run of a script *)


Lemma emits_ret {A} Q (a : A) : emits Q (sret a).
Proof.
  intros out out' r H. injection H as <- _.
  exists []. split; [symmetry; apply app_nil_r | constructor].
Qed.

Lemma emits_lift {A} Q (r : result A) : emits Q (lift r).
Proof.
  intros out out' r' H. injection H as <- _.
  exists []. split; [symmetry; apply app_nil_r | constructor].
Qed.

Lemma emits_emit Q e : Q e -> emits Q (emit e).
Proof.
  intros He out out' r H. injection H as <- _.
  exists [e]. split; [reflexivity | constructor; [exact He | constructor]].
Qed.

Lemma emits_plot Q title cols data :
  Q (Chart title data) -> emits Q (plot title cols data).
Proof.
  intros He out out' r H. unfold plot in H.
  destruct (forallb _ cols); injection H as <- _.
  - exists [Chart title data]. split; [reflexivity |].
    constructor; [exact He | constructor].
  - exists []. split; [symmetry; apply app_nil_r | constructor].
Qed.

Lemma emits_bind {A B} Q (m : script A) (k : A -> script B) :
  emits Q m -> (forall a, emits Q (k a)) -> emits Q (sbind m k).
Proof.
  intros Hm Hk out out' r H. unfold sbind in H.
  destruct (m out) as [mid [a | e]] eqn:Em.
  - destruct (Hm _ _ _ Em) as (s1 & -> & H1).
    destruct (Hk a _ _ _ H) as (s2 & -> & H2).
    exists (s1 ++ s2). split; [symmetry; apply app_assoc |].
    apply Forall_app. auto.
  - injection H as <- _. apply (Hm _ _ _ Em).
Qed.



Lemma run_unfold {P : Parsers} (v : variant) (src : frame) :
  run v src = match prepare v src with
              | Ok df => body v df header_output
              | Err e => (header_output, Err e)
              end.
Proof.
  cbv [run dashboard header sidebar emit lift sbind].
  destruct (prepare v src); reflexivity.
Qed.






(** ** Failures of the preparation *)

Lemma mapM_ok_In {A B} (f : A -> result B) l l' a :
  mapM f l = Ok l' -> In a l -> exists b, f a = Ok b.
Proof.
  intros H Hin. apply In_nth_error in Hin. destruct Hin as [i Hi].
  destruct (mapM_nth_error _ _ _ _ _ H Hi) as [b [_ Hb]]. eauto.
Qed.

Lemma numeric_cell_coerces {P : Parsers} (col : column) nums c e :
  mapM as_num col = Ok nums -> In c col -> coerce_numeric c = Err e -> False.
Proof.
  intros H Hin Herr. destruct (mapM_ok_In _ _ _ _ H Hin) as [x Hx].
  destruct c; simpl in Hx; try discriminate Hx. discriminate Herr.
Qed.

Lemma fatal_input_fails {P : Parsers} (v : variant) (src : frame) (n : nat) :
  frame_rows n src -> fatal_input prepared_columns src ->
  exists e, prepare v src = Err e.
Proof.
  intros Hrows Hfatal.
  destruct (prepare v src) as [df | e] eqn:Hprep; [exfalso | eauto].
  assert (Hsrc : exists od od' sa pr,
             lookup "Order Date" src = Some od /\ to_datetime od = Ok od' /\
             lookup "Sales" src = Some sa /\ lookup "Profit" src = Some pr /\
             (forall c e, In c sa \/ In c pr -> coerce_numeric c = Err e -> False)).
  { destruct v.
    - destruct (prepare_hello_inv _ _ Hprep)
        as (od & od' & sa & sa' & pr & pr' & _ & _ & Hod & Hdt & Hsa & Hsn
            & Hpr & Hpn & _).
      exists od, od', sa, pr. repeat split; try assumption.
      intros c e [Hin | Hin] Herr.
      + destruct (mapM_ok_In _ _ _ _ Hsn Hin) as [b Hb]. congruence.
      + destruct (mapM_ok_In _ _ _ _ Hpn Hin) as [b Hb]. congruence.
    - destruct (prepare_analysis_inv _ _ Hprep)
        as (od & od' & sa & pr & pm & Hod & Hdt & Hsa & Hpr & Hdiv & _).
      exists od, od', sa, pr. repeat split; try assumption.
      destruct (col_div_numbers pr sa pm) as (ps & ss & ms & Hps & Hss & _);
        [ rewrite (frame_rows_lookup _ _ _ _ Hrows Hpr),
                  (frame_rows_lookup _ _ _ _ Hrows Hsa); reflexivity
        | exact Hdiv |].
      intros c e [Hin | Hin] Herr.
      + apply (numeric_cell_coerces _ _ _ _ Hss Hin Herr).
      + apply (numeric_cell_coerces _ _ _ _ Hps Hin Herr). }
  destruct Hsrc as (od & od' & sa & pr & Hod & Hdt & Hsa & Hpr & Hnum).
  destruct Hfatal as [(c & Hc & Hnone) | [(name & col & c & e & Hname & Hcol & Hin & Herr)
                                          | (col & c & e & Hcol & Hin & Herr)]].
  - simpl in Hc. destruct Hc as [<- | [<- | [<- | []]]]; congruence.
  - simpl in Hname. destruct Hname as [<- | [<- | []]].
    + rewrite Hsa in Hcol. injection Hcol as <-. apply (Hnum c e); auto.
    + rewrite Hpr in Hcol. injection Hcol as <-. apply (Hnum c e); auto.
  - rewrite Hod in Hcol. injection Hcol as <-.
    destruct (mapM_ok_In _ _ _ _ Hdt Hin) as [b Hb]. congruence.
Qed.

(** C6, as the code has it.  A missing Order Date, Sales or Profit
    column, a cell of Sales or Profit that is no number, or a cell of Order
    Date that cannot be read as a date makes the preparation raise: the run
    ends with that error, nothing is skipped or retried, and its whole
    output is the sidebar, without any chart.  (The other columns are read
    only by later statements, if at all.) *)
Theorem preparation_failure_aborts {P : Parsers} (v : variant) (src : frame)
  (n : nat) :
  frame_rows n src -> fatal_input prepared_columns src ->
  (exists e, prepare v src = Err e /\ run v src = (header_output, Err e)) /\
  aborts_before_charts v src.
Proof.
  intros Hrows Hfatal.
  destruct (fatal_input_fails v src n Hrows Hfatal) as [e He].
  pose proof (run_unfold v src) as Hrun. rewrite He in Hrun.
  split.
  - exists e. auto.
  - exists header_output, e. split; [exact Hrun | reflexivity].
Qed.

Lemma preparation_failure_aborts_witness :
  frame_rows 2 bad_date /\
  fatal_input (P := reader) prepared_columns bad_date /\
  (exists e, prepare (P := reader) Hello bad_date = Err e /\
             run (P := reader) Hello bad_date = (header_output, Err e)) /\
  aborts_before_charts (P := reader) Hello bad_date.
Proof.
  assert (H1 : frame_rows 2 bad_date) by (repeat constructor).
  assert (H2 : fatal_input (P := reader) prepared_columns bad_date).
  { right. right.
    exists [CStr "2023-01-05"; CStr "yesterday"], (CStr "yesterday"), ValueError.
    split; [reflexivity |]. split; [simpl; auto | reflexivity]. }
  exact (conj H1 (conj H2
           (preparation_failure_aborts (P := reader) Hello _ 2 H1 H2))).
Defined.

(** C6 as worded fails: the scenario has no Discount column, an expected
    column, and hello.py runs to its end, charts included, because no
    statement reads that column. *)
Lemma missing_discount_is_not_fatal :
  ~ (forall (P : Parsers) (v : variant) (src : frame),
        fatal_input expected_columns src -> aborts_before_charts v src).
Proof.
  intros H.
  assert (Hfatal : fatal_input (P := reader) expected_columns scenario).
  { left. exists "Discount". split; [simpl; tauto | reflexivity]. }
  destruct (H reader Hello scenario Hfatal) as (out & e & Hrun & _).
  apply (f_equal snd) in Hrun. vm_compute in Hrun. discriminate Hrun.
Qed.

(** A missing Category column is noticed only when the script groups by
    it, after two charts have been produced. *)
Lemma missing_category_fails_after_charts :
  snd (run (P := reader) Hello scenario_no_category) = Err (KeyError "Category") /\
  List.length (filter is_chart (fst (run (P := reader) Hello scenario_no_category)))
  = 2%nat.
Proof.
  split; vm_compute; reflexivity.
Qed.

(* ------------------------------------------------------------------ *)
(** * Further properties of the scripts *)

(** ** Running the preparation again *)

Lemma setitem_same (df : frame) name vals :
  lookup name df = Some vals -> setitem df name vals = df.
Proof.
  induction df as [| [n c] rest IH]; simpl; intros H.
  - discriminate H.
  - destruct (String.eqb n name) eqn:E.
    + injection H as ->. reflexivity.
    + rewrite (IH H). reflexivity.
Qed.

Lemma mapM_fixed {A} (f : A -> result A) (l l' : list A) :
  (forall a b, f a = Ok b -> f b = Ok b) ->
  mapM f l = Ok l' -> mapM f l' = Ok l'.
Proof.
  intros Hf H. apply mapM_Forall2 in H. apply mapM_Forall2.
  induction H as [| a b l l' Hab _ IH]; constructor; eauto.
Qed.

Section Again.
Context {P : Parsers}.

Lemma coerce_datetime_fixed a b :
  coerce_datetime a = Ok b -> coerce_datetime b = Ok b.
Proof.
  destruct a as [s | x | d |]; simpl; intros H.
  - destruct (parse_datetime s) as [[d |] |]; try discriminate H;
      injection H as <-; reflexivity.
  - destruct x; try (destruct (datetime_of_number _); try discriminate H);
      injection H as <-; reflexivity.
  - injection H as <-. reflexivity.
  - injection H as <-. reflexivity.
Qed.

Lemma coerce_numeric_fixed a b :
  coerce_numeric a = Ok b -> coerce_numeric b = Ok b.
Proof.
  destruct a as [s | x | d |]; simpl; intros H.
  - destruct (parse_numeric s); try discriminate H.
    injection H as <-. reflexivity.
  - injection H as <-. reflexivity.
  - injection H as <-. reflexivity.
  - injection H as <-. reflexivity.
Qed.

Lemma exec_assign_same (a : assign) (df : frame) vals :
  eval_expr (rhs a) df = Ok vals -> lookup (target a) df = Some vals ->
  exec_assign a df = Ok df.
Proof.
  unfold exec_assign. intros -> H. simpl. rewrite (setitem_same _ _ _ H).
  reflexivity.
Qed.

(** X1.  The preparation is idempotent: run on its own result it succeeds and
    changes nothing. *)
Theorem prepare_again (v : variant) (src df : frame) :
  prepare v src = Ok df -> prepare v df = Ok df.
Proof.
  intros H. unfold prepare. destruct v.
  - destruct (prepare_hello_inv _ _ H)
      as (od & od' & sa & sa' & pr & pr' & pm & ap & _ & Hdt & _ & Hsn & _
          & Hpn & Hdiv & Habs & Hod & Hsa & Hpr & Hpm & Hap).
    simpl.
    rewrite (exec_assign_same (Assign "Order Date" (ToDatetime "Order Date")) df od').
    2:{ simpl. unfold getitem. rewrite Hod. simpl.
        apply (mapM_fixed _ _ _ coerce_datetime_fixed Hdt). }
    2:{ exact Hod. }
    simpl.
    rewrite (exec_assign_same (Assign "Sales" (ToNumeric "Sales")) df sa').
    2:{ simpl. unfold getitem. rewrite Hsa. simpl.
        apply (mapM_fixed _ _ _ coerce_numeric_fixed Hsn). }
    2:{ exact Hsa. }
    simpl.
    rewrite (exec_assign_same (Assign "Profit" (ToNumeric "Profit")) df pr').
    2:{ simpl. unfold getitem. rewrite Hpr. simpl.
        apply (mapM_fixed _ _ _ coerce_numeric_fixed Hpn). }
    2:{ exact Hpr. }
    simpl.
    rewrite (exec_assign_same (Assign "Profit Margin" (Div "Profit" "Sales")) df pm).
    2:{ simpl. unfold getitem. rewrite Hpr, Hsa. simpl. exact Hdiv. }
    2:{ exact Hpm. }
    simpl.
    rewrite (exec_assign_same (Assign "Absolute Profit" (Abs "Profit")) df ap).
    2:{ simpl. unfold getitem. rewrite Hpr. simpl. exact Habs. }
    2:{ exact Hap. }
    reflexivity.
  - destruct (prepare_analysis_inv _ _ H)
      as (od & od' & sa & pr & pm & _ & Hdt & _ & _ & Hdiv & Hod & Hsa & Hpr
          & Hpm).
    simpl.
    rewrite (exec_assign_same (Assign "Order Date" (ToDatetime "Order Date")) df od').
    2:{ simpl. unfold getitem. rewrite Hod. simpl.
        apply (mapM_fixed _ _ _ coerce_datetime_fixed Hdt). }
    2:{ exact Hod. }
    simpl.
    rewrite (exec_assign_same (Assign "Profit Margin" (Div "Profit" "Sales")) df pm).
    2:{ simpl. unfold getitem. rewrite Hpr, Hsa. simpl. exact Hdiv. }
    2:{ exact Hpm. }
    reflexivity.
Qed.

End Again.

Lemma prepare_again_witness :
  prepare (P := reader) Hello scenario = Ok (prepared Hello scenario) /\
  prepare (P := reader) Hello (prepared Hello scenario)
  = Ok (prepared Hello scenario).
Proof.
  assert (H : prepare (P := reader) Hello scenario
              = Ok (prepared Hello scenario)) by by_computation.
  exact (conj H (prepare_again (P := reader) Hello _ _ H)).
Defined.

(** ** hello.py against superstore_analysis.py *)

Lemma mapM_id {A} (f : A -> result A) (l : list A) :
  (forall a, In a l -> f a = Ok a) -> mapM f l = Ok l.
Proof.
  induction l as [| a l IH]; simpl; intros H.
  - reflexivity.
  - rewrite (H a) by auto. simpl. rewrite IH by auto. reflexivity.
Qed.

Lemma to_numeric_numbers {P : Parsers} (c : column) (nums : list xnum) :
  mapM as_num c = Ok nums -> to_numeric c = Ok c.
Proof.
  intros H. apply mapM_as_num_inv in H. subst c.
  apply mapM_id. intros a Ha. apply in_map_iff in Ha.
  destruct Ha as [x [<- _]]. reflexivity.
Qed.

Lemma col_abs_of_numbers (c : column) (nums : list xnum) :
  mapM as_num c = Ok nums -> col_abs c = Ok (map CNum (map xabs nums)).
Proof.
  intros H. apply mapM_as_num_inv in H. subst c. unfold col_abs.
  induction nums as [| x nums IH]; simpl.
  - reflexivity.
  - rewrite IH. reflexivity.
Qed.

Lemma hello_prepare_over_analysis {P : Parsers} (src dfa : frame) (n : nat) :
  frame_rows n src -> prepare Analysis src = Ok dfa ->
  exists profit absolute,
    lookup "Profit" dfa = Some profit /\
    col_abs profit = Ok absolute /\
    prepare Hello src = Ok (setitem dfa "Absolute Profit" absolute).
Proof.
  intros Hrows H.
  destruct (prepare_analysis_inv _ _ H)
    as (od & od' & sa & pr & pm & Hod & Hdt & Hsa & Hpr & Hdiv & _ & _ & Hpr'
        & _).
  destruct (col_div_numbers pr sa pm) as (ps & ss & ms & Hps & Hss & _);
    [ rewrite (frame_rows_lookup _ _ _ _ Hrows Hpr),
              (frame_rows_lookup _ _ _ _ Hrows Hsa); reflexivity
    | exact Hdiv |].
  exists pr, (map CNum (map xabs ps)).
  split; [exact Hpr' |]. split; [apply col_abs_of_numbers; exact Hps |].
  unfold prepare in *. simpl in *.
  unfold exec_assign in *. simpl in *. unfold getitem in *.
  rewrite Hod in *. simpl in *. rewrite Hdt in *. simpl in *.
  rewrite !lookup_setitem_other in * by discriminate.
  rewrite Hsa. simpl. rewrite (to_numeric_numbers _ _ Hss). simpl.
  rewrite (setitem_same (setitem src "Order Date" od') "Sales" sa)
    by (rewrite lookup_setitem_other by discriminate; exact Hsa).
  rewrite lookup_setitem_other by discriminate.
  rewrite Hpr in *. simpl in *. rewrite (to_numeric_numbers _ _ Hps). simpl.
  rewrite (setitem_same (setitem src "Order Date" od') "Profit" pr)
    by (rewrite lookup_setitem_other by discriminate; exact Hpr).
  rewrite !lookup_setitem_other by discriminate.
  rewrite Hpr, Hsa in *. simpl in *. rewrite Hdiv in *. simpl in *.
  injection H as <-.
  rewrite !lookup_setitem_other by discriminate. rewrite Hpr. simpl.
  rewrite (col_abs_of_numbers _ _ Hps). reflexivity.
Qed.

(** X2.  Where the preparation of superstore_analysis.py succeeds, that of
    hello.py succeeds too and gives the same table with one more column,
    Absolute Profit: on a table the loader typed, the two [pd.to_numeric]
    of hello.py change nothing. *)
Theorem hello_extends_analysis {P : Parsers} (src dfa : frame) (n : nat) :
  frame_rows n src -> prepare Analysis src = Ok dfa ->
  exists profit absolute,
    lookup "Profit" dfa = Some profit /\
    col_abs profit = Ok absolute /\
    prepare Hello src = Ok (setitem dfa "Absolute Profit" absolute).
Proof.
  apply hello_prepare_over_analysis.
Qed.

Lemma hello_extends_analysis_witness :
  frame_rows 3 scenario /\
  prepare (P := reader) Analysis scenario = Ok (prepared Analysis scenario) /\
  exists profit absolute,
    lookup "Profit" (prepared Analysis scenario) = Some profit /\
    col_abs profit = Ok absolute /\
    prepare (P := reader) Hello scenario
    = Ok (setitem (prepared Analysis scenario) "Absolute Profit" absolute).
Proof.
  assert (H1 : frame_rows 3 scenario) by (repeat constructor).
  assert (H2 : prepare (P := reader) Analysis scenario
               = Ok (prepared Analysis scenario)) by by_computation.
  exact (conj H1 (conj H2 (hello_extends_analysis (P := reader) _ _ 3 H1 H2))).
Defined.

Lemma agg_column_ext (df df' : frame) rk gk (na : string * aggfn) :
  lookup (fst na) df' = lookup (fst na) df ->
  agg_column df' rk gk na = agg_column df rk gk na.
Proof.
  unfold agg_column, getitem. intros ->. reflexivity.
Qed.

(** X3.  The views of hello.py on its table are those of superstore_analysis.py
    on its own: the same category counts, and the same category aggregate
    with one more column, the mean Absolute Profit. *)
Theorem hello_views_extend_analysis {P : Parsers} (src dfa dfh agg : frame)
  (n : nat) :
  frame_rows n src ->
  prepare Analysis src = Ok dfa -> prepare Hello src = Ok dfh ->
  category_metrics Analysis dfa = Ok agg ->
  (forall name, name <> "Absolute Profit" -> lookup name dfh = lookup name dfa) /\
  category_counts dfh = category_counts dfa /\
  exists sizes,
    category_metrics Hello dfh = Ok (agg ++ [("Absolute Profit", sizes)]).
Proof.
  intros Hrows Ha Hh Hagg.
  destruct (hello_prepare_over_analysis src dfa n Hrows Ha)
    as (profit & absolute & Hp & Habs & Hh').
  rewrite Hh in Hh'. injection Hh' as ->.
  assert (Hsame : forall name, name <> "Absolute Profit" ->
            lookup name (setitem dfa "Absolute Profit" absolute)
            = lookup name dfa).
  { intros name Hname. apply lookup_setitem_other. congruence. }
  split; [exact Hsame |]. split.
  { unfold category_counts, groupby_size. simpl. unfold getitem.
    rewrite Hsame by discriminate. reflexivity. }
  destruct (col_abs_numbers _ _ Habs) as [xs Hxs].
  unfold category_metrics, groupby_agg in *. simpl mapM at 1 in Hagg.
  simpl mapM at 1. unfold getitem in *.
  rewrite Hsame by discriminate.
  destruct (lookup "Category" dfa) as [cat |]; [| discriminate Hagg].
  simpl in Hagg |- *.
  rewrite !(agg_column_ext dfa (setitem dfa "Absolute Profit" absolute))
    by (apply Hsame; discriminate).
  destruct (agg_column dfa _ _ ("Sales", Sum)) as [c1 |]; [| discriminate Hagg].
  destruct (agg_column dfa _ _ ("Profit", Sum)) as [c2 |]; [| discriminate Hagg].
  destruct (agg_column dfa _ _ ("Profit Margin", Mean)) as [c3 |];
    [| discriminate Hagg].
  simpl in Hagg |- *. injection Hagg as <-.
  unfold agg_column, getitem. simpl fst. simpl snd.
  rewrite lookup_setitem_same. simpl. rewrite Hxs. simpl.
  eexists. reflexivity.
Qed.

Lemma hello_views_extend_analysis_witness :
  frame_rows 3 scenario /\
  prepare (P := reader) Analysis scenario = Ok (prepared Analysis scenario) /\
  prepare (P := reader) Hello scenario = Ok (prepared Hello scenario) /\
  category_metrics Analysis (prepared Analysis scenario)
  = Ok (metrics Analysis scenario) /\
  exists sizes,
    category_metrics Hello (prepared Hello scenario)
    = Ok (metrics Analysis scenario ++ [("Absolute Profit", sizes)]).
Proof.
  assert (H1 : frame_rows 3 scenario) by (repeat constructor).
  assert (H2 : prepare (P := reader) Analysis scenario
               = Ok (prepared Analysis scenario)) by by_computation.
  assert (H3 : prepare (P := reader) Hello scenario
               = Ok (prepared Hello scenario)) by by_computation.
  assert (H4 : category_metrics Analysis (prepared Analysis scenario)
               = Ok (metrics Analysis scenario)) by by_computation.
  exact (conj H1 (conj H2 (conj H3 (conj H4
           (proj2 (proj2 (hello_views_extend_analysis (P := reader)
                            _ _ _ _ 3 H1 H2 H3 H4))))))).
Defined.

(** ** The category counts *)

Lemma values_of_length {A} c cat (vals : list A) :
  List.length vals = List.length cat ->
  List.length (values_of c cat vals) = count_occ cell_eq_dec cat c.
Proof.
  unfold values_of. rewrite length_map.
  revert vals. induction cat as [| x cat IH]; intros vals Hlen.
  - reflexivity.
  - destruct vals as [| v vals]; [discriminate Hlen |].
    injection Hlen as Hlen. simpl.
    destruct (cell_eq_dec x c); simpl; rewrite (IH _ Hlen); reflexivity.
Qed.

Lemma group_rows_count c cat :
  List.length (group_rows [c] (map (fun x => [x]) cat))
  = count_occ cell_eq_dec cat c.
Proof.
  unfold group_rows. rewrite select_singleton.
  apply values_of_length. rewrite length_seq, length_map. reflexivity.
Qed.

Lemma list_sum_cons a l : list_sum (a :: l) = (a + list_sum l)%nat.
Proof.
  reflexivity.
Qed.

Lemma count_occ_head (x k : cell) (m : list cell) :
  count_occ cell_eq_dec (x :: m) k
  = if cell_eq_dec x k then S (count_occ cell_eq_dec m k)
    else count_occ cell_eq_dec m k.
Proof.
  reflexivity.
Qed.

Lemma count_sum_skip (x : cell) (m : list cell) (K : list cell) :
  ~ In x K ->
  map (count_occ cell_eq_dec (x :: m)) K = map (count_occ cell_eq_dec m) K.
Proof.
  intros Hx. apply map_ext_in. intros k Hk. rewrite count_occ_head.
  destruct (cell_eq_dec x k) as [E | E]; [| reflexivity].
  subst k. contradiction.
Qed.

(** Adding one occurrence of a key of a duplicate-free list adds one to
    the sum of the counts. *)
Lemma count_sum_bump (x : cell) (m : list cell) (K : list cell) :
  NoDup K -> In x K ->
  list_sum (map (count_occ cell_eq_dec (x :: m)) K)
  = S (list_sum (map (count_occ cell_eq_dec m) K)).
Proof.
  induction K as [| h t IH]; intros Hnd Hin.
  - contradiction.
  - inversion Hnd as [| ? ? Hh Ht]; subst.
    rewrite !map_cons, !list_sum_cons, count_occ_head.
    destruct (cell_eq_dec x h) as [E | E].
    + subst h. rewrite (count_sum_skip x m t Hh). reflexivity.
    + destruct Hin as [-> | Hin]; [contradiction |].
      rewrite (IH Ht Hin). lia.
Qed.

Lemma count_sum (m K : list cell) :
  NoDup K -> (forall c, In c K <-> In c m /\ is_na c = false) ->
  list_sum (map (count_occ cell_eq_dec m) K)
  = List.length (filter (fun c => negb (is_na c)) m).
Proof.
  intros Hnd Hmem.
  assert (Hgen : forall m',
            (forall c, In c m' -> is_na c = false -> In c K) ->
            (forall c, In c K -> is_na c = false) ->
            list_sum (map (count_occ cell_eq_dec m') K)
            = List.length (filter (fun c => negb (is_na c)) m')).
  { intros m' Hcov Hpres. induction m' as [| x m' IH].
    - simpl. clear. induction K; simpl; auto.
    - assert (Hcov' : forall c, In c m' -> is_na c = false -> In c K)
        by (intros c Hc; apply Hcov; right; exact Hc).
      specialize (IH Hcov'). simpl filter.
      destruct (is_na x) eqn:Hx; simpl negb; cbv iota.
      + rewrite count_sum_skip; [exact IH |].
        intros Hin. rewrite (Hpres _ Hin) in Hx. discriminate Hx.
      + rewrite count_sum_bump; [simpl; rewrite IH; reflexivity | exact Hnd |].
        apply Hcov; [left; reflexivity | exact Hx]. }
  apply Hgen.
  - intros c Hc Hna. apply Hmem. auto.
  - intros c Hc. apply Hmem in Hc. apply Hc.
Qed.

Lemma category_counts_inv (df counts : frame) :
  category_counts df = Ok counts ->
  exists cat cats,
    lookup "Category" df = Some cat /\
    counts = [ ("Category", cats);
               ("0", map (fun c => CNum (of_Z (Z.of_nat
                                   (count_occ cell_eq_dec cat c)))) cats) ] /\
    NoDup cats /\
    (forall c, In c cats <-> In c cat /\ is_na c = false) /\
    (forall c, In c cats -> (1 <= count_occ cell_eq_dec cat c)%nat) /\
    list_sum (map (count_occ cell_eq_dec cat) cats)
    = List.length (filter (fun c => negb (is_na c)) cat).
Proof.
  unfold category_counts, groupby_size. intros H.
  simpl mapM in H. unfold getitem in H.
  destruct (lookup "Category" df) as [cat |] eqn:Hcat; [| discriminate H].
  simpl in H. injection H as <-.
  exists cat, (map (hd CNaT) (group_keys (map (fun x => [x]) cat))).
  split; [reflexivity |]. split.
  { f_equal. f_equal. f_equal.
    rewrite map_map. apply map_ext_in. intros k Hk.
    apply group_keys_In in Hk. destruct Hk as [Hk _].
    apply in_map_iff in Hk. destruct Hk as [c [<- _]]. simpl hd.
    rewrite group_rows_count. reflexivity. }
  split; [apply category_cells_NoDup |].
  split; [apply category_cells |].
  split.
  { intros c Hc. apply category_cells in Hc. destruct Hc as [Hc _].
    apply (count_occ_In cell_eq_dec) in Hc. lia. }
  apply count_sum; [apply category_cells_NoDup | apply category_cells].
Qed.

(** X4.  The category counts: one row per distinct Category of the table, with
    the number of rows of that category (at least one); the counts add up
    to the number of rows that have a Category. *)
Theorem category_counts_rows (df counts : frame) :
  category_counts df = Ok counts ->
  exists cat cats,
    lookup "Category" df = Some cat /\
    counts = [ ("Category", cats);
               ("0", map (fun c => CNum (of_Z (Z.of_nat
                                   (count_occ cell_eq_dec cat c)))) cats) ] /\
    NoDup cats /\
    (forall c, In c cats <-> In c cat /\ is_na c = false) /\
    (forall c, In c cats -> (1 <= count_occ cell_eq_dec cat c)%nat) /\
    list_sum (map (count_occ cell_eq_dec cat) cats)
    = List.length (filter (fun c => negb (is_na c)) cat).
Proof.
  apply category_counts_inv.
Qed.

Lemma category_counts_rows_witness :
  category_counts (prepared Hello scenario)
  = Ok (unwrap (category_counts (prepared Hello scenario))) /\
  exists cat cats,
    lookup "Category" (prepared Hello scenario) = Some cat /\
    unwrap (category_counts (prepared Hello scenario))
    = [ ("Category", cats);
        ("0", map (fun c => CNum (of_Z (Z.of_nat
                            (count_occ cell_eq_dec cat c)))) cats) ] /\
    NoDup cats /\
    (forall c, In c cats <-> In c cat /\ is_na c = false) /\
    (forall c, In c cats -> (1 <= count_occ cell_eq_dec cat c)%nat) /\
    list_sum (map (count_occ cell_eq_dec cat) cats)
    = List.length (filter (fun c => negb (is_na c)) cat).
Proof.
  assert (H : category_counts (prepared Hello scenario)
              = Ok (unwrap (category_counts (prepared Hello scenario))))
    by by_computation.
  exact (conj H (category_counts_rows _ _ H)).
Defined.

(** ** The order of the groups *)

Lemma Qccompare_Gt_Lt (a b : Qc) : Qccompare a b = Gt -> Qccompare b a = Lt.
Proof.
  unfold Qccompare. intros H. rewrite <- Qcompare_antisym, H. reflexivity.
Qed.

Lemma xleb_total (x y : xnum) : xleb x y = true \/ xleb y x = true.
Proof.
  destruct x as [a | | |], y as [b | | |]; simpl; auto.
  destruct (Qccompare a b) eqn:E; auto.
  right. rewrite (Qccompare_Gt_Lt _ _ E). reflexivity.
Qed.

Lemma date_leb_total (d e : date) : date_leb d e = true \/ date_leb e d = true.
Proof.
  unfold date_leb.
  rewrite (Z.compare_antisym (year d) (year e)).
  destruct (Z.compare (year d) (year e)); simpl; auto.
  rewrite (Z.compare_antisym (month d) (month e)).
  destruct (Z.compare (month d) (month e)); simpl; auto.
  destruct (Z.leb_spec (day d) (day e)); auto.
  right. apply Z.leb_le. lia.
Qed.

Lemma cell_leb_total (a b : cell) : cell_leb a b = true \/ cell_leb b a = true.
Proof.
  destruct a, b; simpl; auto.
  - apply String.leb_total.
  - apply xleb_total.
  - apply date_leb_total.
Qed.

Lemma key_leb_total (a b : key) : key_leb a b = true \/ key_leb b a = true.
Proof.
  revert b. induction a as [| x a IH]; intros b.
  - left. reflexivity.
  - destruct b as [| y b]; [right; reflexivity |]. simpl.
    destruct (cell_eq_dec x y) as [E | E], (cell_eq_dec y x) as [E' | E'];
      try (subst; contradiction).
    + apply IH.
    + apply cell_leb_total.
Qed.

Lemma insert_sorted_hd k l h :
  HdRel key_le h l -> key_le h k -> HdRel key_le h (insert_sorted k l).
Proof.
  intros Hl Hk. destruct l as [| x l]; simpl.
  - constructor. exact Hk.
  - destruct (key_leb k x); constructor; [exact Hk |].
    inversion Hl. assumption.
Qed.

Lemma insert_sorted_Sorted k l :
  Sorted key_le l -> Sorted key_le (insert_sorted k l).
Proof.
  induction l as [| h t IH]; simpl; intros Hs.
  - constructor; constructor.
  - inversion Hs as [| ? ? Ht Hh]; subst.
    destruct (key_leb k h) eqn:E.
    + constructor; [exact Hs | constructor; exact E].
    + constructor; [apply IH; exact Ht |].
      apply insert_sorted_hd; [exact Hh |].
      destruct (key_leb_total k h) as [H | H]; [congruence | exact H].
Qed.

Lemma sort_keys_Sorted l : Sorted key_le (sort_keys l).
Proof.
  induction l as [| k l IH]; simpl.
  - constructor.
  - apply insert_sorted_Sorted. exact IH.
Qed.

(** [groupby] lists its groups in ascending order of their keys. *)
Lemma group_keys_Sorted rk : Sorted key_le (group_keys rk).
Proof.
  apply sort_keys_Sorted.
Qed.

Lemma singleton_keys_Sorted (cats : list cell) :
  Sorted key_le (map (fun c => [c]) cats) -> NoDup cats -> Sorted cell_lt cats.
Proof.
  induction cats as [| a cats IH]; simpl; intros Hs Hnd.
  - constructor.
  - inversion Hs as [| ? ? Ht Hh]; subst.
    inversion Hnd as [| ? ? Ha Hnd']; subst.
    constructor; [apply IH; assumption |].
    destruct cats as [| b cats]; constructor.
    inversion Hh as [| ? ? Hab]; subst.
    unfold key_le in Hab. simpl in Hab.
    assert (Hne : a <> b) by (intros ->; apply Ha; left; reflexivity).
    destruct (cell_eq_dec a b) as [E | _]; [contradiction |].
    split; assumption.
Qed.

(** X5.  The rows of the category aggregate are in ascending order of their
    Category, without repetition ([groupby] sorts its groups). *)
Theorem category_metrics_ascending (v : variant) (df agg : frame) :
  category_metrics v df = Ok agg ->
  exists cats, lookup "Category" agg = Some cats /\ Sorted cell_lt cats.
Proof.
  intros H.
  destruct (category_metrics_inv _ _ _ H)
    as (cat & sales & profit & margin & rest & _ & _ & _ & _ & Hagg).
  cbv zeta in Hagg. subst agg.
  exists (map (hd CNaT) (group_keys (map (fun x => [x]) cat))).
  split; [reflexivity |].
  apply singleton_keys_Sorted.
  - rewrite <- singleton_groups. apply group_keys_Sorted.
  - apply category_cells_NoDup.
Qed.

Lemma category_metrics_ascending_witness :
  category_metrics Hello (prepared Hello scenario) = Ok (metrics Hello scenario) /\
  exists cats, lookup "Category" (metrics Hello scenario) = Some cats /\
               Sorted cell_lt cats.
Proof.
  assert (H : category_metrics Hello (prepared Hello scenario)
              = Ok (metrics Hello scenario)) by by_computation.
  exact (conj H (category_metrics_ascending Hello _ _ H)).
Defined.

Lemma cell_leb_refl (a : cell) : cell_leb a a = true.
Proof.
  destruct (cell_leb_total a a); assumption.
Qed.

Lemma pair_keys_dates (gk : list key) :
  (forall k, In k gk -> exists x y, k = [x; y]) ->
  Sorted key_le gk -> Sorted cell_le (map (fun k => nth 0 k CNaT) gk).
Proof.
  induction gk as [| k gk IH]; simpl; intros Hpair Hs.
  - constructor.
  - inversion Hs as [| ? ? Ht Hh]; subst.
    constructor; [apply IH; auto |].
    destruct gk as [| k' gk]; constructor.
    inversion Hh as [| ? ? Hkk]; subst.
    destruct (Hpair k) as (x & y & ->); [left; reflexivity |].
    destruct (Hpair k') as (x' & y' & ->); [right; left; reflexivity |].
    unfold key_le in Hkk. simpl in Hkk. unfold cell_le. simpl.
    destruct (cell_eq_dec x x') as [-> | _].
    + apply cell_leb_refl.
    + exact Hkk.
Qed.

(** X6.  The rows of the temporal view are in ascending order of (Order Date,
    Category); in particular its Order Date column never decreases, which
    is the order in which the line chart joins its points. *)
Theorem temporal_data_ascending (v : variant) (df agg : frame) :
  temporal_data v df = Ok agg ->
  exists gk,
    lookup "Order Date" agg = Some (map (fun k => nth 0 k CNaT) gk) /\
    lookup "Category" agg = Some (map (fun k => nth 1 k CNaT) gk) /\
    NoDup gk /\ Sorted key_le gk /\
    Sorted cell_le (map (fun k => nth 0 k CNaT) gk).
Proof.
  intros H.
  destruct (temporal_data_inv _ _ _ H)
    as (dates & cat & sales & rk & _ & _ & _ & _ & Hrk & Hagg).
  exists (group_keys rk).
  destruct (hd_tl_nth (group_keys rk)) as [E0 E1].
  subst agg. simpl lookup. rewrite E0, E1.
  do 2 (split; [reflexivity |]).
  split; [apply group_keys_NoDup |].
  split; [apply group_keys_Sorted |].
  apply pair_keys_dates; [| apply group_keys_Sorted].
  intros k Hk. apply group_keys_In in Hk. destruct Hk as [Hk _].
  rewrite Hrk, row_keys_pair in Hk. apply in_map_iff in Hk.
  destruct Hk as [[x y] [<- _]]. eauto.
Qed.

Lemma temporal_data_ascending_witness :
  temporal_data Analysis (prepared Analysis scenario)
  = Ok (temporal Analysis scenario) /\
  exists gk,
    lookup "Order Date" (temporal Analysis scenario)
    = Some (map (fun k => nth 0 k CNaT) gk) /\
    lookup "Category" (temporal Analysis scenario)
    = Some (map (fun k => nth 1 k CNaT) gk) /\
    NoDup gk /\ Sorted key_le gk /\
    Sorted cell_le (map (fun k => nth 0 k CNaT) gk).
Proof.
  assert (H : temporal_data Analysis (prepared Analysis scenario)
              = Ok (temporal Analysis scenario)) by by_computation.
  exact (conj H (temporal_data_ascending Analysis _ _ H)).
Defined.

(** ** The views of a prepared table *)

Lemma key_frame_rows (names : list string) (gk : list key) :
  frame_rows (List.length gk) (key_frame names gk).
Proof.
  revert gk. induction names as [| n names IH]; intros gk; simpl.
  - constructor.
  - constructor.
    + simpl. apply length_map.
    + specialize (IH (map (@tl cell) gk)). rewrite length_map in IH. exact IH.
Qed.

Lemma hello_metrics_sizes (df agg : frame) :
  category_metrics Hello df = Ok agg ->
  exists cat absolute,
    lookup "Category" df = Some cat /\
    numbers df "Absolute Profit" = Ok absolute /\
    lookup "Absolute Profit" agg
    = Some (map (fun c => CNum (nanmean (values_of c cat absolute)))
                (map (hd CNaT) (group_keys (map (fun x => [x]) cat)))).
Proof.
  unfold category_metrics, groupby_agg. intros H.
  simpl mapM at 1 in H. unfold getitem at 1 in H.
  destruct (lookup "Category" df) as [cat |] eqn:Hcat; [| discriminate H].
  simpl in H. unfold agg_column in H. simpl in H. invert_all.
  exists cat. eexists.
  split; [reflexivity |].
  split; [eapply numbers_ok; eassumption |].
  simpl. rewrite (agg_by_category nanmean). reflexivity.
Qed.

Lemma agg_columns_rows (df : frame) rk gk aggs acols :
  mapM (agg_column df rk gk) aggs = Ok acols ->
  frame_rows (List.length gk) acols.
Proof.
  intros H. apply mapM_Forall2 in H. unfold frame_rows.
  induction H as [| na col aggs acols Hcol _ IH]; constructor; [| exact IH].
  unfold agg_column in Hcol. invert_all. simpl. apply length_map.
Qed.

(** A grouped aggregate is a frame: all its columns have one row per
    group. *)
Lemma groupby_agg_rows (df out : frame) keys aggs :
  groupby_agg df keys aggs = Ok out ->
  exists rk, row_keys_of df keys = Ok rk /\
             frame_rows (List.length (group_keys rk)) out.
Proof.
  rewrite groupby_agg_keys. intros H.
  apply rbind_ok in H. destruct H as [rk [Hrk H]].
  apply rbind_ok in H. destruct H as [acols [Hacols H]].
  injection H as <-. exists rk. split; [exact Hrk |].
  apply Forall_app. split.
  - apply key_frame_rows.
  - apply (agg_columns_rows _ _ _ _ _ Hacols).
Qed.

Lemma dates_have_buckets {P : Parsers} (od od' : column) :
  to_datetime od = Ok od' -> exists buckets, mapM month_bucket od' = Ok buckets.
Proof.
  unfold to_datetime. intros H. apply mapM_Forall2 in H.
  induction H as [| a b l l' Hab _ [buckets IH]].
  - exists []. reflexivity.
  - assert (Hb : exists r, month_bucket b = Ok r).
    { destruct a as [s | x | d |]; simpl in Hab.
      - destruct (parse_datetime s) as [[d |] |]; try discriminate Hab;
          injection Hab as <-; simpl; eauto.
      - destruct x; try (destruct (datetime_of_number _); try discriminate Hab);
          injection Hab as <-; simpl; eauto.
      - injection Hab as <-. simpl. eauto.
      - injection Hab as <-. simpl. eauto. }
    destruct Hb as [r Hr]. exists (r :: buckets). simpl. rewrite Hr, IH.
    reflexivity.
Qed.

(** What a successful preparation guarantees to the statements that
    follow: dates in Order Date and numbers in Sales, Profit and Profit
    Margin. *)
Lemma prepared_columns_typed {P : Parsers} (v : variant) (src df : frame)
  (n : nat) :
  frame_rows n src -> prepare v src = Ok df ->
  exists dates buckets sales profit margin,
    lookup "Order Date" df = Some dates /\
    mapM month_bucket dates = Ok buckets /\
    numbers df "Sales" = Ok sales /\
    numbers df "Profit" = Ok profit /\
    numbers df "Profit Margin" = Ok margin.
Proof.
  intros Hrows H.
  pose proof (run_prep_rows _ _ _ _ Hrows H) as Hrows'.
  destruct (prepare_inv _ _ _ H)
    as (od & od' & pr & sa & pm & _ & Hdt & Hod & Hpr & Hsa & Hpm & Hdiv).
  destruct (dates_have_buckets _ _ Hdt) as [buckets Hb].
  destruct (col_div_numbers pr sa pm) as (ps & ss & ms & Hps & Hss & Hms);
    [ rewrite (frame_rows_lookup _ _ _ _ Hrows' Hpr),
              (frame_rows_lookup _ _ _ _ Hrows' Hsa); reflexivity
    | exact Hdiv |].
  exists od', buckets, ss, ps, ms.
  split; [exact Hod |]. split; [exact Hb |].
  unfold numbers, getitem. rewrite Hsa, Hpr, Hpm. simpl. auto.
Qed.

Lemma prepared_views {P : Parsers} (v : variant) (src df : frame)
  (n : nat) (cat : column) :
  frame_rows n src -> prepare v src = Ok df ->
  lookup "Category" df = Some cat ->
  exists counts metrics temporal k k',
    category_counts df = Ok counts /\
    category_metrics v df = Ok metrics /\
    temporal_data v df = Ok temporal /\
    frame_rows k counts /\ frame_rows k metrics /\ frame_rows k' temporal /\
    forallb (fun c => has_column c counts) ["Category"; "0"] = true /\
    forallb (fun c => has_column c metrics)
      ["Category"; "Sales"; "Profit"; "Profit Margin"] = true /\
    (v = Hello -> has_column "Absolute Profit" metrics = true) /\
    forallb (fun c => has_column c temporal)
      ["Order Date"; "Sales"; "Category"] = true.
Proof.
  intros Hrows H Hcat.
  destruct (category_metrics_total v src df n cat Hrows H Hcat) as [metrics Hm].
  destruct (prepared_columns_typed v src df n Hrows H)
    as (dates & buckets & sales & profit & margin & Hd & Hb & Hs & _ & _).
  assert (Hc : exists counts, category_counts df = Ok counts).
  { unfold category_counts, groupby_size. simpl. unfold getitem.
    rewrite Hcat. simpl. eexists. reflexivity. }
  destruct Hc as [counts Hc].
  assert (Ht : exists temporal, temporal_data v df = Ok temporal).
  { unfold temporal_data, groupby_agg, agg_column.
    unfold numbers in Hs. apply rbind_ok in Hs. destruct Hs as (c & Hc' & Hs).
    destruct v; simpl; unfold getitem in *; rewrite Hd, Hcat; simpl;
      rewrite ?Hb; simpl; rewrite Hc'; simpl; rewrite Hs; simpl;
      eexists; reflexivity. }
  destruct Ht as [temporal Ht].
  exists counts, metrics, temporal.
  exists (List.length (group_keys (map (fun x => [x]) cat))).
  destruct (groupby_agg_rows _ _ _ _ Ht) as (rk & _ & Htr).
  exists (List.length (group_keys rk)).
  do 3 (split; [assumption |]).
  split.
  { destruct (category_counts_inv _ _ Hc) as (cat' & cats & Hcat' & -> & _).
    rewrite Hcat in Hcat'. injection Hcat' as <-.
    unfold category_counts, groupby_size in Hc. simpl in Hc.
    unfold getitem in Hc. rewrite Hcat in Hc. simpl in Hc.
    injection Hc as Hc _. rewrite <- Hc.
    repeat constructor; simpl; rewrite !length_map; reflexivity. }
  split.
  { destruct (groupby_agg_rows _ _ _ _ Hm) as (rk' & Hrk' & Hmr).
    unfold row_keys_of in Hrk'. simpl in Hrk'. unfold getitem in Hrk'.
    rewrite Hcat in Hrk'. simpl in Hrk'. injection Hrk' as <-. exact Hmr. }
  split; [exact Htr |].
  split.
  { destruct (category_counts_inv _ _ Hc) as (? & ? & _ & -> & _).
    reflexivity. }
  split.
  { destruct (category_metrics_inv _ _ _ Hm)
      as (? & ? & ? & ? & rest & _ & _ & _ & _ & Hagg).
    cbv zeta in Hagg. subst metrics. reflexivity. }
  split.
  { intros ->.
    destruct (hello_metrics_sizes _ _ Hm) as (? & ? & _ & _ & Hsz).
    unfold has_column. rewrite Hsz. reflexivity. }
  destruct (temporal_data_inv _ _ _ Ht)
    as (? & ? & ? & ? & _ & _ & _ & _ & _ & Hagg).
  subst temporal. reflexivity.
Qed.



(** ** Which rows share a group of the temporal view *)

Lemma bucket_of_dates (v : variant) (d e : date) :
  bucket_of v (CDate d) = bucket_of v (CDate e) <->
  match v with
  | Hello => same_month d e
  | Analysis => d = e
  end.
Proof.
  destruct v; simpl; split.
  - intros H. injection H as Hy Hm _. split; assumption.
  - intros H. rewrite (month_end_same_month _ _ H). reflexivity.
  - intros H. injection H as ->. reflexivity.
  - intros ->. reflexivity.
Qed.

(** X8.  Two dated rows that have a Category are summed in the same row of the
    temporal view exactly when they have the same Category and, in
    hello.py, dates of the same calendar month, in superstore_analysis.py,
    the same date. *)
Theorem temporal_same_group {P : Parsers} (v : variant) (src df agg : frame)
  (n : nat) (dates cat : column) (i j : nat) (d e : date) (c c' : cell) :
  frame_rows n src -> prepare v src = Ok df -> temporal_data v df = Ok agg ->
  lookup "Order Date" df = Some dates -> lookup "Category" df = Some cat ->
  nth_error dates i = Some (CDate d) -> nth_error cat i = Some c ->
  nth_error dates j = Some (CDate e) -> nth_error cat j = Some c' ->
  is_na c = false -> is_na c' = false ->
  exists rk gk,
    temporal_rows v df agg rk gk /\
    ((exists k, In k gk /\ In i (group_rows k rk) /\ In j (group_rows k rk))
     <-> c = c' /\ match v with
                   | Hello => same_month d e
                   | Analysis => d = e
                   end).
Proof.
  intros Hrows Hprep H Hd Hc Hdi Hci Hdj Hcj Hna Hna'.
  destruct (temporal_data_partition n v df agg (run_prep_rows _ _ _ _ Hrows Hprep) H)
    as (rk & gk & Hview & _ & Hone & Hin).
  exists rk, gk. split; [exact Hview |].
  destruct Hview as (dates' & cat' & sales & Hd' & Hc' & _ & _ & Hrk & _).
  rewrite Hd in Hd'. injection Hd' as <-.
  rewrite Hc in Hc'. injection Hc' as <-.
  pose proof (Hrk i _ _ Hdi Hci) as Hi.
  pose proof (Hrk j _ _ Hdj Hcj) as Hj.
  assert (Hbd : forall x, is_na (bucket_of v (CDate x)) = false)
    by (intros x; destruct v; reflexivity).
  split.
  - intros (k & Hk & Hki & Hkj).
    destruct (Hin k i Hk Hki) as [Hi' _].
    destruct (Hin k j Hk Hkj) as [Hj' _].
    rewrite Hi in Hi'. rewrite Hj in Hj'. rewrite <- Hi' in Hj'.
    injection Hj' as Hb ->. split; [reflexivity |].
    apply bucket_of_dates. congruence.
  - intros [<- Hsame]. apply bucket_of_dates in Hsame.
    assert (Hkna : key_na [bucket_of v (CDate d); c] = false)
      by (simpl; rewrite Hbd, Hna; reflexivity).
    destruct (Hone i _ Hi Hkna) as (k & Hk & Hki & _).
    exists k. split; [exact Hk |]. split; [exact Hki |].
    destruct (Hin k i Hk Hki) as [Hi' _].
    apply group_rows_In. rewrite Hj, <- Hsame, <- Hi. exact Hi'.
Qed.

Lemma temporal_same_group_witness :
  frame_rows 3 scenario /\
  prepare (P := reader) Hello scenario = Ok (prepared Hello scenario) /\
  temporal_data Hello (prepared Hello scenario) = Ok (temporal Hello scenario) /\
  exists rk gk,
    temporal_rows Hello (prepared Hello scenario) (temporal Hello scenario)
      rk gk /\
    ((exists k, In k gk /\ In 0%nat (group_rows k rk)
                /\ In 1%nat (group_rows k rk))
     <-> CStr "Tech" = CStr "Tech"
         /\ same_month (mkDate 2023 1 5) (mkDate 2023 1 20)).
Proof.
  assert (H1 : frame_rows 3 scenario) by (repeat constructor).
  assert (H2 : prepare (P := reader) Hello scenario
               = Ok (prepared Hello scenario)) by by_computation.
  assert (H3 : temporal_data Hello (prepared Hello scenario)
               = Ok (temporal Hello scenario)) by by_computation.
  refine (conj H1 (conj H2 (conj H3
            (temporal_same_group (P := reader) Hello _ _ _ 3
               [CDate (mkDate 2023 1 5); CDate (mkDate 2023 1 20);
                CDate (mkDate 2023 2 1)]
               [CStr "Tech"; CStr "Tech"; CStr "Office"]
               0 1 (mkDate 2023 1 5) (mkDate 2023 1 20)
               (CStr "Tech") (CStr "Tech")
               H1 H2 H3 _ _ _ _ _ _ _ _)))); reflexivity.
Defined.

(** ** The size of the bubbles *)

Lemma Qc_nonneg_compare (q : Qc) :
  (0 <= q)%Qc -> match Qccompare q 0 with Lt => false | _ => true end = true.
Proof.
  intros H. destruct (Qccompare q 0) eqn:E; try reflexivity.
  apply Qclt_alt in E. exfalso. exact (Qcle_not_lt _ _ H E).
Qed.

Lemma Qc_compare_nonneg (q : Qc) :
  match Qccompare q 0 with Lt => false | _ => true end = true -> (0 <= q)%Qc.
Proof.
  intros H. destruct (Qccompare q 0) eqn:E.
  - apply Qceq_alt in E. subst q. apply Qcle_refl.
  - discriminate H.
  - apply Qcgt_alt in E. apply Qclt_le_weak. exact E.
Qed.

(** A sum of absolute values is a non-negative number or +inf. *)
Lemma xsum_abs_values (l : list xnum) :
  Forall (fun x => nonneg x = true) l -> nonneg (xsum l) = true.
Proof.
  induction 1 as [| x l Hx _ IH].
  - reflexivity.
  - change (nonneg (xadd x (xsum l)) = true).
    destruct x as [a | | |], (xsum l) as [b | | |]; simpl in *;
      try reflexivity; try discriminate.
    apply Qc_nonneg_compare.
    apply Qc_compare_nonneg in Hx. apply Qc_compare_nonneg in IH.
    rewrite <- (Qcplus_0_l 0). apply Qcplus_le_compat; assumption.
Qed.

Lemma count_positive (m : nat) : (0 < Q2Qc (inject_Z (Z.of_nat (S m))))%Qc.
Proof.
  unfold Qclt, Q2Qc, this. rewrite !Qred_correct.
  unfold Qlt. simpl. lia.
Qed.

Lemma Qcdiv_nonneg (b z : Qc) : (0 <= b)%Qc -> (0 < z)%Qc -> (0 <= b / z)%Qc.
Proof.
  intros Hb Hz.
  assert (Hz0 : z <> 0%Qc).
  { intros ->. exact (Qcle_not_lt _ _ (Qcle_refl 0) Hz). }
  apply (Qcmult_lt_0_le_reg_r _ _ z Hz).
  rewrite Qcmult_0_l, Qcmult_comm, Qcmult_div_r by exact Hz0. exact Hb.
Qed.

Lemma xdiv_positive (s : xnum) (z : Qc) :
  (0 < z)%Qc -> nonneg s = true -> nonneg (xdiv s (Fin z)) = true.
Proof.
  intros Hz Hs.
  assert (Ez : Qccompare z 0 = Gt) by (apply Qcgt_alt; exact Hz).
  destruct s as [b | | |]; simpl in *; rewrite ?Ez; try discriminate Hs.
  - simpl. apply Qc_nonneg_compare. apply Qcdiv_nonneg; [| exact Hz].
    apply Qc_compare_nonneg. exact Hs.
  - reflexivity.
Qed.

(** The mean of absolute values is NaN (no value) or not negative. *)
Lemma nanmean_abs_values (l : list xnum) :
  Forall sizable l -> sizable (nanmean l).
Proof.
  intros Hl. unfold nanmean.
  assert (Hf : Forall (fun x => nonneg x = true) (filter not_nan l)).
  { apply Forall_forall. intros x Hx. apply filter_In in Hx.
    destruct Hx as [Hx Hnn]. rewrite Forall_forall in Hl.
    destruct (Hl x Hx) as [-> | H]; [discriminate Hnn | exact H]. }
  destruct (filter not_nan l) as [| v vs] eqn:E; [left; reflexivity |].
  right. apply xdiv_positive.
  - apply (count_positive (List.length vs)).
  - apply xsum_abs_values. exact Hf.
Qed.

Lemma xabs_sizable (x : xnum) : sizable (xabs x).
Proof.
  destruct x as [q | | |].
  - right. apply xabs_nonneg. discriminate.
  - right. reflexivity.
  - right. reflexivity.
  - left. reflexivity.
Qed.

Lemma values_of_Forall {A} (Q : A -> Prop) c cat (vals : list A) :
  Forall Q vals -> Forall Q (values_of c cat vals).
Proof.
  intros H. rewrite Forall_forall in *. intros x Hx.
  unfold values_of in Hx. apply in_map_iff in Hx.
  destruct Hx as [[k y] [<- Hin]]. apply filter_In in Hin.
  destruct Hin as [Hin _]. apply in_combine_r in Hin. apply H. exact Hin.
Qed.

(** X9.  hello.py sizes the bubbles of its category chart by the mean Absolute
    Profit: for every category that size is NaN (a category whose Profit is
    missing throughout) or a number that is not negative, however negative
    the profits are. *)
Theorem bubble_sizes_not_negative {P : Parsers} (src df agg : frame) :
  prepare Hello src = Ok df -> category_metrics Hello df = Ok agg ->
  exists sizes,
    lookup "Absolute Profit" agg = Some (map CNum sizes) /\
    Forall sizable sizes.
Proof.
  intros Hprep H.
  destruct (hello_metrics_sizes _ _ H) as (cat & absolute & Hcat & Habs & Hsz).
  destruct (prepare_hello_inv _ _ Hprep)
    as (od & od' & sa & sa' & pr & pr' & pm & ap & _ & _ & _ & _ & _ & _ & _
        & Hcabs & _ & _ & _ & _ & Hap).
  apply numbers_inv in Habs. rewrite Hap in Habs. injection Habs as ->.
  assert (Hall : Forall sizable absolute).
  { apply Forall_forall. intros x Hx.
    destruct (In_nth_error _ _ Hx) as [i Hi].
    assert (Hi' : nth_error (map CNum absolute) i = Some (CNum x))
      by (rewrite nth_error_map, Hi; reflexivity).
    unfold col_abs in Hcabs. apply mapM_Forall2 in Hcabs.
    clear - Hcabs Hi'. revert i Hi'.
    induction Hcabs as [| a b l l' Hab _ IH]; intros i Hi'.
    - destruct i; discriminate Hi'.
    - destruct i as [| i]; simpl in Hi'.
      + injection Hi' as ->. apply cell_abs_ok in Hab.
        destruct Hab as (y & _ & E). injection E as ->. apply xabs_sizable.
      + apply (IH i Hi'). }
  exists (map (fun c => nanmean (values_of c cat absolute))
              (map (hd CNaT) (group_keys (map (fun x => [x]) cat)))).
  split.
  - rewrite Hsz.
    rewrite (map_map (fun c => nanmean (values_of c cat absolute)) CNum).
    reflexivity.
  - apply Forall_forall. intros x Hx. apply in_map_iff in Hx.
    destruct Hx as (c & <- & _). apply nanmean_abs_values.
    apply values_of_Forall. exact Hall.
Qed.

Lemma bubble_sizes_not_negative_witness :
  prepare (P := reader) Hello scenario = Ok (prepared Hello scenario) /\
  category_metrics Hello (prepared Hello scenario) = Ok (metrics Hello scenario) /\
  exists sizes,
    lookup "Absolute Profit" (metrics Hello scenario) = Some (map CNum sizes) /\
    Forall sizable sizes.
Proof.
  assert (H1 : prepare (P := reader) Hello scenario
               = Ok (prepared Hello scenario)) by by_computation.
  assert (H2 : category_metrics Hello (prepared Hello scenario)
               = Ok (metrics Hello scenario)) by by_computation.
  exact (conj H1 (conj H2
           (bubble_sizes_not_negative (P := reader) _ _ _ H1 H2))).
Defined.

(** ** Why a preparation fails *)

Lemma mapM_error_source {A B} (f : A -> result B) (l : list A) e :
  mapM f l = Err e -> exists a, In a l /\ f a = Err e.
Proof.
  induction l as [| x l IH]; simpl; intros H.
  - discriminate H.
  - destruct (f x) as [b |] eqn:Hx; simpl in H.
    + destruct (mapM f l) as [bs |] eqn:Hl; simpl in H; [discriminate H |].
      destruct (IH H) as (a & Ha & Hfa). exists a. auto.
    + injection H as <-. exists x. auto.
Qed.

Section Failures.
Context {P : Parsers}.

Lemma coerce_datetime_error c e : coerce_datetime c = Err e -> e = ValueError.
Proof.
  destruct c as [s | x | d |]; simpl; intros H; try discriminate H.
  - destruct (parse_datetime s); [discriminate H | congruence].
  - destruct x; try discriminate H;
      destruct (datetime_of_number _); try discriminate H; congruence.
Qed.

Lemma coerce_numeric_error c e : coerce_numeric c = Err e -> e = ValueError.
Proof.
  destruct c as [s | x | d |]; simpl; intros H; try discriminate H.
  destruct (parse_numeric s); [discriminate H | congruence].
Qed.

Lemma to_numeric_numbers_out (c c' : column) :
  to_numeric c = Ok c' -> exists nums, c' = map CNum nums.
Proof.
  unfold to_numeric. revert c'. induction c as [| x c IH]; simpl; intros c' H.
  - injection H as <-. exists []. reflexivity.
  - invert_bind H. invert_bind H. injection H as <-.
    destruct (IH _ Ha0) as [nums ->].
    destruct x as [s | y | d |]; simpl in Ha.
    + destruct (parse_numeric s) as [y |]; [| discriminate Ha].
      injection Ha as <-. exists (y :: nums). reflexivity.
    + injection Ha as <-. exists (y :: nums). reflexivity.
    + injection Ha as <-. eexists (_ :: nums). reflexivity.
    + injection Ha as <-. eexists (_ :: nums). reflexivity.
Qed.

Lemma col_div_numbers_ok (a b : list xnum) :
  exists c, col_div (map CNum a) (map CNum b) = Ok c.
Proof.
  unfold col_div. revert b. induction a as [| x a IH]; intros b.
  - exists []. reflexivity.
  - destruct b as [| y b]; [exists []; reflexivity |].
    destruct (IH b) as [c Hc]. simpl. rewrite Hc. simpl. eauto.
Qed.

Lemma col_abs_numbers_ok (a : list xnum) :
  exists c, col_abs (map CNum a) = Ok c.
Proof.
  eexists. apply (col_abs_of_numbers _ a). apply mapM_as_num_CNum.
Qed.

Lemma col_div_error (a b : column) e :
  col_div a b = Err e ->
  e = TypeError /\
  ((exists c, In c a /\ as_num c = Err TypeError) \/
   (exists c, In c b /\ as_num c = Err TypeError)).
Proof.
  unfold col_div. intros H.
  destruct (mapM_error_source _ _ _ H) as ([x y] & Hin & Hdiv). simpl in Hdiv.
  pose proof (in_combine_l _ _ _ _ Hin) as Hx.
  pose proof (in_combine_r _ _ _ _ Hin) as Hy.
  destruct x as [s | x | d |]; simpl in Hdiv;
    try (injection Hdiv as <-; split; [reflexivity |]; left; eexists;
         split; [exact Hx | reflexivity]).
  destruct y as [s | y | d |]; simpl in Hdiv; try discriminate Hdiv;
    injection Hdiv as <-; (split; [reflexivity |]); right; eexists;
    (split; [exact Hy | reflexivity]).
Qed.

Lemma getitem_setitem_other (df : frame) name other vals :
  name <> other -> getitem (setitem df name vals) other = getitem df other.
Proof.
  intros H. unfold getitem. rewrite (lookup_setitem_other _ _ _ _ H).
  reflexivity.
Qed.

Lemma getitem_setitem_same (df : frame) name vals :
  getitem (setitem df name vals) name = Ok vals.
Proof.
  unfold getitem. rewrite lookup_setitem_same. reflexivity.
Qed.

(** The preparation of hello.py, statement by statement on the loaded
    table. *)
Lemma prepare_hello_steps (src : frame) :
  prepare Hello src
  = (od <- getitem src "Order Date" ;; od' <- to_datetime od ;;
     sa <- getitem src "Sales" ;; sa' <- to_numeric sa ;;
     pr <- getitem src "Profit" ;; pr' <- to_numeric pr ;;
     pm <- col_div pr' sa' ;; ap <- col_abs pr' ;;
     Ok (setitem (setitem (setitem (setitem (setitem src
           "Order Date" od') "Sales" sa') "Profit" pr')
           "Profit Margin" pm) "Absolute Profit" ap)).
Proof.
  unfold prepare. simpl. unfold exec_assign. simpl.
  destruct (getitem src "Order Date") as [od |]; simpl; [| reflexivity].
  destruct (to_datetime od) as [od' |]; simpl; [| reflexivity].
  rewrite getitem_setitem_other by discriminate.
  destruct (getitem src "Sales") as [sa |]; simpl; [| reflexivity].
  destruct (to_numeric sa) as [sa' |]; simpl; [| reflexivity].
  rewrite !getitem_setitem_other by discriminate.
  destruct (getitem src "Profit") as [pr |]; simpl; [| reflexivity].
  destruct (to_numeric pr) as [pr' |]; simpl; [| reflexivity].
  rewrite getitem_setitem_same. simpl.
  rewrite getitem_setitem_other by discriminate.
  rewrite getitem_setitem_same. simpl.
  destruct (col_div pr' sa') as [pm |]; simpl; [| reflexivity].
  rewrite getitem_setitem_other by discriminate.
  rewrite getitem_setitem_same. simpl.
  destruct (col_abs pr') as [ap |]; reflexivity.
Qed.

(** The preparation of superstore_analysis.py, statement by statement. *)
Lemma prepare_analysis_steps (src : frame) :
  prepare Analysis src
  = (od <- getitem src "Order Date" ;; od' <- to_datetime od ;;
     pr <- getitem src "Profit" ;; sa <- getitem src "Sales" ;;
     pm <- col_div pr sa ;;
     Ok (setitem (setitem src "Order Date" od') "Profit Margin" pm)).
Proof.
  unfold prepare. simpl. unfold exec_assign. simpl.
  destruct (getitem src "Order Date") as [od |]; simpl; [| reflexivity].
  destruct (to_datetime od) as [od' |]; simpl; [| reflexivity].
  rewrite !getitem_setitem_other by discriminate.
  destruct (getitem src "Profit") as [pr |]; simpl; [| reflexivity].
  destruct (getitem src "Sales") as [sa |]; simpl; [| reflexivity].
  destruct (col_div pr sa) as [pm |]; reflexivity.
Qed.

Lemma getitem_error (df : frame) name e :
  getitem df name = Err e -> lookup name df = None /\ e = KeyError name.
Proof.
  unfold getitem. destruct (lookup name df); intros H; [discriminate H |].
  injection H as <-. auto.
Qed.

Ltac missing name H :=
  left; exists name; apply getitem_error in H; destruct H as [H ->];
  split; [simpl; tauto | split; [exact H | reflexivity]].

Lemma bad_date_cause (v : variant) (src : frame) od e :
  getitem src "Order Date" = Ok od -> to_datetime od = Err e ->
  failure_cause v src e.
Proof.
  intros Hod Hdt. right. left. apply getitem_ok in Hod.
  destruct (mapM_error_source _ _ _ Hdt) as (c & Hc & Hce).
  split; [apply (coerce_datetime_error _ _ Hce) |].
  exists od, c, e. auto.
Qed.

Lemma bad_amount_cause (src : frame) name col e :
  In name ["Sales"; "Profit"] ->
  getitem src name = Ok col -> to_numeric col = Err e ->
  failure_cause Hello src e.
Proof.
  intros Hname Hcol Hn. right. right. left. apply getitem_ok in Hcol.
  destruct (mapM_error_source _ _ _ Hn) as (c & Hc & Hce).
  split; [apply (coerce_numeric_error _ _ Hce) |]. split; [reflexivity |].
  exists name, col, c, e. auto.
Qed.

(** X10.  Every failure of the preparation has one of these causes and
    raises the error that goes with it: a KeyError names a missing Order
    Date, Sales or Profit column; a ValueError comes from a cell that cannot
    be read, of Order Date in both scripts and of Sales or Profit in
    hello.py; a TypeError comes from an amount that is no number and only in
    superstore_analysis.py.  hello.py never raises a TypeError: its division
    and its [np.abs] come after [pd.to_numeric]. *)
Theorem prepare_failure_cause (v : variant) (src : frame) (e : error) :
  prepare v src = Err e -> failure_cause v src e.
Proof.
  destruct v.
  - rewrite prepare_hello_steps.
    destruct (getitem src "Order Date") as [od |] eqn:Hod; simpl;
      [| intros H; injection H as <-; missing "Order Date" Hod].
    destruct (to_datetime od) as [od' |] eqn:Hdt; simpl;
      [| intros H; injection H as <-; apply (bad_date_cause _ _ _ _ Hod Hdt)].
    destruct (getitem src "Sales") as [sa |] eqn:Hsa; simpl;
      [| intros H; injection H as <-; missing "Sales" Hsa].
    destruct (to_numeric sa) as [sa' |] eqn:Hsn; simpl;
      [| intros H; injection H as <-;
         apply (bad_amount_cause _ "Sales" _ _ (or_introl eq_refl) Hsa Hsn)].
    destruct (getitem src "Profit") as [pr |] eqn:Hpr; simpl;
      [| intros H; injection H as <-; missing "Profit" Hpr].
    destruct (to_numeric pr) as [pr' |] eqn:Hpn; simpl;
      [| intros H; injection H as <-;
         apply (bad_amount_cause _ "Profit" _ _
                  (or_intror (or_introl eq_refl)) Hpr Hpn)].
    destruct (to_numeric_numbers_out _ _ Hsn) as [ss ->].
    destruct (to_numeric_numbers_out _ _ Hpn) as [ps ->].
    destruct (col_div_numbers_ok ps ss) as [pm ->].
    destruct (col_abs_numbers_ok ps) as [ap ->].
    simpl. discriminate.
  - rewrite prepare_analysis_steps.
    destruct (getitem src "Order Date") as [od |] eqn:Hod; simpl;
      [| intros H; injection H as <-; missing "Order Date" Hod].
    destruct (to_datetime od) as [od' |] eqn:Hdt; simpl;
      [| intros H; injection H as <-; apply (bad_date_cause _ _ _ _ Hod Hdt)].
    destruct (getitem src "Profit") as [pr |] eqn:Hpr; simpl;
      [| intros H; injection H as <-; missing "Profit" Hpr].
    destruct (getitem src "Sales") as [sa |] eqn:Hsa; simpl;
      [| intros H; injection H as <-; missing "Sales" Hsa].
    destruct (col_div pr sa) as [pm |] eqn:Hdiv; simpl; [discriminate |].
    intros H. injection H as <-.
    apply getitem_ok in Hpr, Hsa.
    destruct (col_div_error _ _ _ Hdiv) as [-> [(c & Hc & Hcn) | (c & Hc & Hcn)]];
      right; right; right; (split; [reflexivity |]); (split; [reflexivity |]).
    + exists "Profit", pr, c. simpl. auto.
    + exists "Sales", sa, c. simpl. auto.
Qed.

End Failures.

Lemma prepare_failure_cause_witness :
  prepare (P := reader) Hello bad_date = Err ValueError /\
  failure_cause (P := reader) Hello bad_date ValueError.
Proof.
  assert (H : prepare (P := reader) Hello bad_date = Err ValueError)
    by by_computation.
  exact (conj H (prepare_failure_cause (P := reader) Hello _ _ H)).
Defined.

(** ** Columns that are missed late *)

Ltac unfold_body :=
  cbv [body onboarding univariate bivariate multivariate call_to_action
       text table sidebar emit lift plot sbind sret].

Lemma has_column_lookup (df : frame) name c :
  lookup name df = Some c -> has_column name df = true.
Proof.
  unfold has_column. intros ->. reflexivity.
Qed.

Lemma has_column_missing (df : frame) name :
  lookup name df = None -> has_column name df = false.
Proof.
  unfold has_column. intros ->. reflexivity.
Qed.

(** X11.  Without a Category column the preparation succeeds and the run stops
    at its first [groupby], with a KeyError, after the two histograms. *)
Theorem missing_category_stops_at_groupby {P : Parsers} (v : variant)
  (src df : frame) :
  prepare v src = Ok df -> lookup "Category" src = None ->
  exists out,
    run v src = (out, Err (KeyError "Category")) /\
    map (fun e => match e with Chart title _ => title | _ => "" end)
        (filter is_chart out)
    = ["Distribution of Sales"; "Distribution of Profits"].
Proof.
  intros H Hcat.
  assert (Hcat' : lookup "Category" df = None).
  { rewrite (run_prep_untouched _ _ _ "Category" H); [exact Hcat |].
    destruct v; simpl; intuition discriminate. }
  destruct (prepare_inv _ _ _ H)
    as (od & od' & pr & sa & pm & _ & _ & _ & Hpr & Hsa & _).
  rewrite run_unfold, H. unfold_body.
  cbn [forallb]. rewrite (has_column_lookup _ _ _ Hsa),
    (has_column_lookup _ _ _ Hpr). cbn [andb].
  unfold category_counts, groupby_size. cbn [mapM key_column rbind].
  rewrite (getitem_missing _ _ Hcat'). cbn [rbind].
  eexists. split; [reflexivity |]. reflexivity.
Qed.

Lemma missing_category_stops_at_groupby_witness :
  prepare (P := reader) Hello scenario_no_category
  = Ok (prepared Hello scenario_no_category) /\
  lookup "Category" scenario_no_category = None /\
  exists out,
    run (P := reader) Hello scenario_no_category
    = (out, Err (KeyError "Category")) /\
    map (fun e => match e with Chart title _ => title | _ => "" end)
        (filter is_chart out)
    = ["Distribution of Sales"; "Distribution of Profits"].
Proof.
  assert (H1 : prepare (P := reader) Hello scenario_no_category
               = Ok (prepared Hello scenario_no_category)) by by_computation.
  assert (H2 : lookup "Category" scenario_no_category = None)
    by reflexivity.
  exact (conj H1 (conj H2
           (missing_category_stops_at_groupby (P := reader) Hello _ _ H1 H2))).
Defined.

(** X12.  Without a Region column (and with a Category) the run stops at the
    box plot of the margins by region, the first statement that names
    Region, after four charts. *)
Theorem missing_region_stops_at_box_plot {P : Parsers} (v : variant)
  (src df : frame) (n : nat) (cat : column) :
  frame_rows n src -> prepare v src = Ok df ->
  lookup "Category" src = Some cat -> lookup "Region" src = None ->
  exists out,
    run v src = (out, Err ValueError) /\
    map (fun e => match e with Chart title _ => title | _ => "" end)
        (filter is_chart out)
    = ["Distribution of Sales"; "Distribution of Profits";
       "Product Distribution Across Categories";
       "Sales vs Profit Relationship"].
Proof.
  intros Hrows H Hcat Hreg.
  assert (Hcat' : lookup "Category" df = Some cat).
  { rewrite (run_prep_untouched _ _ _ "Category" H); [exact Hcat |].
    destruct v; simpl; intuition discriminate. }
  assert (Hreg' : lookup "Region" df = None).
  { rewrite (run_prep_untouched _ _ _ "Region" H); [exact Hreg |].
    destruct v; simpl; intuition discriminate. }
  destruct (prepare_inv _ _ _ H)
    as (od & od' & pr & sa & pm & _ & _ & _ & Hpr & Hsa & _).
  destruct (prepared_views v src df n cat Hrows H Hcat')
    as (counts & metrics & temporal & k & k' & Hc & _ & _ & _ & _ & _ & Hcc & _).
  rewrite run_unfold, H. unfold_body.
  rewrite Hc, Hcc.
  cbn [forallb]. rewrite (has_column_lookup _ _ _ Hsa),
    (has_column_lookup _ _ _ Hpr), (has_column_missing _ _ Hreg'). cbn [andb].
  destruct v; cbn [forallb];
    rewrite ?(has_column_lookup _ _ _ Hsa), ?(has_column_lookup _ _ _ Hpr),
      ?(has_column_lookup _ _ _ Hcat'); cbn [andb];
    eexists; split; reflexivity.
Qed.

Lemma missing_region_stops_at_box_plot_witness :
  frame_rows 3 scenario_no_region /\
  prepare (P := reader) Analysis scenario_no_region
  = Ok (prepared Analysis scenario_no_region) /\
  lookup "Category" scenario_no_region
  = Some [CStr "Tech"; CStr "Tech"; CStr "Office"] /\
  lookup "Region" scenario_no_region = None /\
  exists out,
    run (P := reader) Analysis scenario_no_region = (out, Err ValueError) /\
    map (fun e => match e with Chart title _ => title | _ => "" end)
        (filter is_chart out)
    = ["Distribution of Sales"; "Distribution of Profits";
       "Product Distribution Across Categories";
       "Sales vs Profit Relationship"].
Proof.
  assert (H1 : frame_rows 3 scenario_no_region) by (repeat constructor).
  assert (H2 : prepare (P := reader) Analysis scenario_no_region
               = Ok (prepared Analysis scenario_no_region)) by by_computation.
  assert (H3 : lookup "Category" scenario_no_region
               = Some [CStr "Tech"; CStr "Tech"; CStr "Office"])
    by reflexivity.
  assert (H4 : lookup "Region" scenario_no_region = None) by reflexivity.
  exact (conj H1 (conj H2 (conj H3 (conj H4
           (missing_region_stops_at_box_plot (P := reader) Analysis _ _ 3 _
              H1 H2 H3 H4))))).
Defined.

(** ** The output of a run that succeeds *)

(** X13.  A run that ends without error has prepared the table, built the three
    views and shown, after the sidebar, its texts and eight charts in the
    order of the script: the table itself in five charts, the counts, the
    category aggregate and the temporal view in one each; hello.py then
    shows the table. *)
Theorem successful_run_output {P : Parsers} (v : variant) (src : frame)
  (out : list event) :
  run v src = (out, Ok tt) ->
  exists df counts metrics temporal,
    prepare v src = Ok df /\
    category_counts df = Ok counts /\
    category_metrics v df = Ok metrics /\
    temporal_data v df = Ok temporal /\
    out = header_output ++ body_output v df counts metrics temporal.
Proof.
  rewrite run_unfold.
  destruct (prepare v src) as [df | e] eqn:Hprep; [| discriminate].
  unfold_body. intros H.
  repeat match type of H with
         | context [if ?c then _ else _] =>
             destruct c eqn:?; cbn beta iota in H; try discriminate H
         | context [match ?x with Ok _ => _ | Err _ => _ end] =>
             destruct x eqn:?; cbn beta iota in H; try discriminate H
         end.
  all: injection H as <-;
    match goal with
    | Hc : category_counts ?d = Ok ?c, Hm : category_metrics _ ?d = Ok ?m,
      Ht : temporal_data _ ?d = Ok ?t |- _ =>
        exists d, c, m, t; repeat split; try assumption; reflexivity
    end.
Qed.

Lemma successful_run_output_witness :
  run (P := reader) Hello scenario
  = (fst (run (P := reader) Hello scenario), Ok tt) /\
  exists df counts metrics temporal,
    prepare (P := reader) Hello scenario = Ok df /\
    category_counts df = Ok counts /\
    category_metrics Hello df = Ok metrics /\
    temporal_data Hello df = Ok temporal /\
    fst (run (P := reader) Hello scenario)
    = header_output ++ body_output Hello df counts metrics temporal.
Proof.
  assert (H : run (P := reader) Hello scenario
              = (fst (run (P := reader) Hello scenario), Ok tt))
    by by_computation.
  exact (conj H (successful_run_output (P := reader) Hello _ _ H)).
Defined.

(** ** The columns of the prepared table *)

Lemma setitem_names (df : frame) name vals :
  map fst (setitem df name vals)
  = if has_column name df then map fst df else map fst df ++ [name].
Proof.
  unfold has_column. induction df as [| [n c] rest IH]; simpl.
  - reflexivity.
  - destruct (String.eqb n name) eqn:E; simpl.
    + reflexivity.
    + rewrite IH. destruct (lookup name rest); reflexivity.
Qed.

Lemma has_column_setitem_other (df : frame) name other vals :
  name <> other -> has_column other (setitem df name vals) = has_column other df.
Proof.
  intros H. unfold has_column. rewrite (lookup_setitem_other _ _ _ _ H).
  reflexivity.
Qed.

(** X14.  The preparation keeps the columns of the loaded table, in their
    order (Order Date, Sales and Profit are replaced in place), and puts
    the derived columns that the table did not have yet at the end: it
    drops and reorders nothing. *)
Theorem prepare_column_names {P : Parsers} (v : variant) (src df : frame) :
  prepare v src = Ok df ->
  map fst df
  = map fst src
    ++ filter (fun name => negb (has_column name src))
              (match v with
               | Hello => ["Profit Margin"; "Absolute Profit"]
               | Analysis => ["Profit Margin"]
               end).
Proof.
  intros H. destruct v.
  - rewrite prepare_hello_steps in H. invert_all.
    repeat match goal with
           | E : getitem _ _ = Ok _ |- _ => apply getitem_ok in E
           end.
    rewrite !setitem_names.
    rewrite !has_column_setitem_other by discriminate.
    repeat match goal with
           | E : lookup ?n src = Some _ |- _ =>
               rewrite (has_column_lookup _ _ _ E); clear E
           end.
    simpl filter.
    destruct (has_column "Profit Margin" src),
             (has_column "Absolute Profit" src); simpl;
      rewrite ?app_nil_r, <- ?app_assoc; reflexivity.
  - rewrite prepare_analysis_steps in H. invert_all.
    repeat match goal with
           | E : getitem _ _ = Ok _ |- _ => apply getitem_ok in E
           end.
    rewrite !setitem_names.
    rewrite !has_column_setitem_other by discriminate.
    repeat match goal with
           | E : lookup ?n src = Some _ |- _ =>
               rewrite (has_column_lookup _ _ _ E); clear E
           end.
    simpl filter.
    destruct (has_column "Profit Margin" src); simpl;
      rewrite ?app_nil_r; reflexivity.
Qed.

Lemma prepare_column_names_witness :
  prepare (P := reader) Hello scenario = Ok (prepared Hello scenario) /\
  map fst (prepared Hello scenario)
  = map fst scenario
    ++ filter (fun name => negb (has_column name scenario))
              ["Profit Margin"; "Absolute Profit"].
Proof.
  assert (H : prepare (P := reader) Hello scenario
              = Ok (prepared Hello scenario)) by by_computation.
  exact (conj H (prepare_column_names (P := reader) Hello _ _ H)).
Defined.

(** ** What a run shows, whatever its end *)

Lemma sbind_cases {A B} (m : script A) (k : A -> script B) out out' r :
  sbind m k out = (out', r) ->
  (exists a mid, m out = (mid, Ok a) /\ k a mid = (out', r)) \/
  (exists e, m out = (out', Err e) /\ r = Err e).
Proof.
  unfold sbind. destruct (m out) as [mid [a | e]]; intros H.
  - left. exists a, mid. auto.
  - right. injection H as <- <-. exists e. auto.
Qed.

Ltac no_table_step :=
  first [ apply emits_bind; [| intros ? ]
        | apply emits_emit; exact I
        | apply emits_plot; exact I
        | apply emits_lift
        | apply emits_ret ].

Lemma sections_show_no_table (v : variant) (df : frame) :
  emits no_table onboarding /\ emits no_table (univariate df) /\
  emits no_table (bivariate v df) /\ emits no_table (multivariate v df) /\
  emits no_table (call_to_action v df).
Proof.
  unfold onboarding, univariate, bivariate, multivariate, call_to_action, text.
  repeat split; repeat no_table_step.
Qed.

Lemma no_table_In (l : list event) d : Forall no_table l -> ~ In (Table d) l.
Proof.
  intros H Hin. rewrite Forall_forall in H. exact (H _ Hin).
Qed.

(** X15.  Whatever the end of a run, its output begins with the four items of
    the sidebar; the table is shown only by hello.py, only by a run that
    ends without error, and then last. *)
Theorem table_only_after_success {P : Parsers} (v : variant) (src : frame)
  (out : list event) (r : result unit) :
  run v src = (out, r) ->
  (exists more, out = header_output ++ more) /\
  (forall d, In (Table d) out ->
             v = Hello /\ r = Ok tt /\ prepare v src = Ok d /\
             exists before, out = before ++ [Table d]
                            /\ Forall no_table before).
Proof.
  rewrite run_unfold.
  destruct (prepare v src) as [df | e] eqn:Hprep.
  2:{ intros H. injection H as <- <-. split.
      - exists []. symmetry. apply app_nil_r.
      - intros d Hin. simpl in Hin.
        repeat destruct Hin as [Hin | Hin]; try discriminate Hin.
        contradiction. }
  assert (Hhead : Forall no_table header_output) by (repeat constructor).
  destruct (sections_show_no_table v df) as (E1 & E2 & E3 & E4 & E5).
  unfold body. intros H.
  assert (Hfail : forall more e, Forall no_table more ->
            (exists more', header_output ++ more = header_output ++ more') /\
            (forall d, In (Table d) (header_output ++ more) ->
                       v = Hello /\ Err e = Ok tt /\ Ok df = Ok d /\
                       exists before, header_output ++ more = before ++ [Table d]
                                      /\ Forall no_table before)).
  { intros more e Hm. split; [eauto |].
    intros d Hin. exfalso. apply in_app_or in Hin.
    destruct Hin as [Hin | Hin];
      [apply (no_table_In _ d Hhead Hin) | apply (no_table_In _ d Hm Hin)]. }
  apply sbind_cases in H.
  destruct H as [(? & o1 & H1 & H) | (e & H1 & ->)].
  2:{ destruct (E1 _ _ _ H1) as (m1 & -> & F1). apply Hfail. exact F1. }
  destruct (E1 _ _ _ H1) as (m1 & -> & F1).
  apply sbind_cases in H.
  destruct H as [(? & o2 & H2 & H) | (e & H2 & ->)].
  2:{ destruct (E2 _ _ _ H2) as (m2 & -> & F2). rewrite <- app_assoc.
      apply Hfail. apply Forall_app. auto. }
  destruct (E2 _ _ _ H2) as (m2 & -> & F2).
  apply sbind_cases in H.
  destruct H as [(? & o3 & H3 & H) | (e & H3 & ->)].
  2:{ destruct (E3 _ _ _ H3) as (m3 & -> & F3). rewrite <- !app_assoc.
      apply Hfail. repeat (apply Forall_app; split); auto. }
  destruct (E3 _ _ _ H3) as (m3 & -> & F3).
  apply sbind_cases in H.
  destruct H as [(? & o4 & H4 & H) | (e & H4 & ->)].
  2:{ destruct (E4 _ _ _ H4) as (m4 & -> & F4). rewrite <- !app_assoc.
      apply Hfail. repeat (apply Forall_app; split); auto. }
  destruct (E4 _ _ _ H4) as (m4 & -> & F4).
  apply sbind_cases in H.
  destruct H as [(? & o5 & H5 & H) | (e & H5 & ->)].
  2:{ destruct (E5 _ _ _ H5) as (m5 & -> & F5). rewrite <- !app_assoc.
      apply Hfail. repeat (apply Forall_app; split); auto. }
  destruct (E5 _ _ _ H5) as (m5 & -> & F5).
  assert (Fall : Forall no_table
                   (((((header_output ++ m1) ++ m2) ++ m3) ++ m4) ++ m5))
    by (repeat (apply Forall_app; split); auto).
  pose proof (f_equal fst H) as Ho. pose proof (f_equal snd H) as Hr.
  clear H. destruct v;
    cbv beta iota delta [table emit sret fst snd] in Ho, Hr; subst out r.
  - split; [rewrite <- !app_assoc; eauto |].
    intros d Hin. apply in_app_or in Hin. destruct Hin as [Hin | Hin].
    + exfalso. apply (no_table_In _ d Fall Hin).
    + destruct Hin as [Hin | []]. injection Hin as <-.
      repeat split; eauto.
  - split; [rewrite <- !app_assoc; eauto |].
    intros d Hin. exfalso. apply (no_table_In _ d Fall Hin).
Qed.

Lemma table_only_after_success_witness :
  run (P := reader) Hello scenario
  = (fst (run (P := reader) Hello scenario), Ok tt) /\
  exists more, fst (run (P := reader) Hello scenario) = header_output ++ more.
Proof.
  assert (H : run (P := reader) Hello scenario
              = (fst (run (P := reader) Hello scenario), Ok tt))
    by by_computation.
  exact (conj H (proj1 (table_only_after_success (P := reader) Hello _ _ _ H))).
Defined.

(** ** A category whose values are all missing *)

Lemma nansum_all_nan (l : list xnum) :
  forallb is_nan l = true -> nansum l = Fin 0 /\ nanmean l = NaN.
Proof.
  intros H.
  assert (E : filter not_nan l = []).
  { induction l as [| x l IH]; simpl in *; [reflexivity |].
    apply andb_true_iff in H. destruct H as [Hx Hl].
    unfold not_nan at 1. rewrite Hx. simpl. apply IH. exact Hl. }
  unfold nansum, nanmean. rewrite E. split; reflexivity.
Qed.

(** X16.  For a category whose Sales are all missing the aggregate holds the
    sum 0, not NaN; for one whose margins are all NaN it holds the mean
    NaN.  (The sum of no value is 0, the mean of no value is undefined.) *)
Theorem all_missing_category (v : variant) (df agg : frame) :
  category_metrics v df = Ok agg ->
  exists cat sales margin cats sums means,
    lookup "Category" df = Some cat /\
    numbers df "Sales" = Ok sales /\
    numbers df "Profit Margin" = Ok margin /\
    lookup "Category" agg = Some cats /\
    lookup "Sales" agg = Some sums /\
    lookup "Profit Margin" agg = Some means /\
    forall j c, nth_error cats j = Some c ->
      (forallb is_nan (values_of c cat sales) = true ->
       nth_error sums j = Some (CNum (Fin 0))) /\
      (forallb is_nan (values_of c cat margin) = true ->
       nth_error means j = Some (CNum NaN)).
Proof.
  intros H.
  destruct (category_metrics_rows v df agg H)
    as (cat & sales & profit & margin & cats & Hcat & Hs & _ & Hm & Hcats
        & _ & _ & Hsums & _ & Hmeans).
  exists cat, sales, margin, cats. do 2 eexists.
  do 3 (split; [eassumption |]). split; [exact Hcats |].
  split; [exact Hsums |]. split; [exact Hmeans |].
  intros j c Hj. split; intros Hall; rewrite nth_error_map, Hj; simpl;
    destruct (nansum_all_nan _ Hall) as [E0 E1]; rewrite ?E0, ?E1; reflexivity.
Qed.

Lemma all_missing_category_witness :
  category_metrics Hello (prepared Hello blank_profit)
  = Ok (metrics Hello blank_profit) /\
  exists cat sales margin cats sums means,
    lookup "Category" (prepared Hello blank_profit) = Some cat /\
    numbers (prepared Hello blank_profit) "Sales" = Ok sales /\
    numbers (prepared Hello blank_profit) "Profit Margin" = Ok margin /\
    lookup "Category" (metrics Hello blank_profit) = Some cats /\
    lookup "Sales" (metrics Hello blank_profit) = Some sums /\
    lookup "Profit Margin" (metrics Hello blank_profit) = Some means /\
    forall j c, nth_error cats j = Some c ->
      (forallb is_nan (values_of c cat sales) = true ->
       nth_error sums j = Some (CNum (Fin 0))) /\
      (forallb is_nan (values_of c cat margin) = true ->
       nth_error means j = Some (CNum NaN)).
Proof.
  assert (H : category_metrics Hello (prepared Hello blank_profit)
              = Ok (metrics Hello blank_profit)) by by_computation.
  exact (conj H (all_missing_category Hello _ _ H)).
Defined.

(** ** The labels of the monthly buckets *)

(** X17.  In the temporal view of hello.py every date label is the last day of
    the month of some row of the table, hence a date of that same month
    and, the row holding a day of that month, not before it. *)
Theorem monthly_labels_are_month_ends {P : Parsers} (src df agg : frame)
  (n : nat) :
  frame_rows n src -> prepare Hello src = Ok df ->
  temporal_data Hello df = Ok agg ->
  exists dates labels,
    lookup "Order Date" df = Some dates /\
    lookup "Order Date" agg = Some labels /\
    forall x, In (CDate x) labels ->
      exists d, In (CDate d) dates /\ x = month_end d /\ same_month d x /\
                ((day d <= days_in_month (year d) (month d))%Z ->
                 date_leb d x = true).
Proof.
  intros Hrows Hprep H.
  destruct (temporal_dates n Hello df agg (run_prep_rows _ _ _ _ Hrows Hprep) H)
    as (dates & cat & labels & Hd & _ & Hl & Hends & _).
  exists dates, labels. do 2 (split; [assumption |]).
  intros x Hx. destruct (Hends x Hx) as (c & Hc & Hb).
  destruct c as [s | y | d |]; simpl in Hb; try discriminate Hb.
  injection Hb as <-. exists d. split; [exact Hc |].
  split; [reflexivity |]. split; [split; reflexivity |].
  intros Hday. unfold date_leb, month_end. simpl.
  rewrite !Z.compare_refl. apply Z.leb_le. exact Hday.
Qed.

Lemma monthly_labels_are_month_ends_witness :
  frame_rows 3 scenario /\
  prepare (P := reader) Hello scenario = Ok (prepared Hello scenario) /\
  temporal_data Hello (prepared Hello scenario) = Ok (temporal Hello scenario) /\
  exists dates labels,
    lookup "Order Date" (prepared Hello scenario) = Some dates /\
    lookup "Order Date" (temporal Hello scenario) = Some labels /\
    forall x, In (CDate x) labels ->
      exists d, In (CDate d) dates /\ x = month_end d /\ same_month d x /\
                ((day d <= days_in_month (year d) (month d))%Z ->
                 date_leb d x = true).
Proof.
  assert (H1 : frame_rows 3 scenario) by (repeat constructor).
  assert (H2 : prepare (P := reader) Hello scenario
               = Ok (prepared Hello scenario)) by by_computation.
  assert (H3 : temporal_data Hello (prepared Hello scenario)
               = Ok (temporal Hello scenario)) by by_computation.
  exact (conj H1 (conj H2 (conj H3
           (monthly_labels_are_month_ends (P := reader) _ _ _ 3 H1 H2 H3)))).
Defined.

(** ** hello.py on a typed table *)

(** X18.  On a table whose Sales and Profit the loader typed as numbers, the
    preparation of superstore_analysis.py succeeds wherever that of
    hello.py does, and the two tables differ by the Absolute Profit column
    only. *)
Theorem analysis_follows_hello_on_numbers {P : Parsers} (src dfh : frame)
  (n : nat) (sales profit : list xnum) :
  frame_rows n src ->
  numbers src "Sales" = Ok sales -> numbers src "Profit" = Ok profit ->
  prepare Hello src = Ok dfh ->
  exists dfa,
    prepare Analysis src = Ok dfa /\
    forall name, name <> "Absolute Profit" -> lookup name dfh = lookup name dfa.
Proof.
  intros Hrows Hs Hp Hh.
  destruct (prepare_hello_inv _ _ Hh)
    as (od & od' & sa & sa' & pr & pr' & pm & ap & Hod & Hdt & _).
  apply numbers_inv in Hs. apply numbers_inv in Hp.
  destruct (col_div_numbers_ok profit sales) as [pm' Hpm'].
  assert (Ha : exists dfa, prepare Analysis src = Ok dfa).
  { rewrite prepare_analysis_steps. unfold getitem.
    rewrite Hod, Hp, Hs. simpl. rewrite Hdt. simpl. rewrite Hpm'. simpl.
    eexists. reflexivity. }
  destruct Ha as [dfa Ha]. exists dfa. split; [exact Ha |].
  destruct (hello_prepare_over_analysis src dfa n Hrows Ha)
    as (profit' & absolute & _ & _ & Hh').
  rewrite Hh in Hh'. injection Hh' as ->.
  intros name Hname. apply lookup_setitem_other. congruence.
Qed.

Lemma analysis_follows_hello_on_numbers_witness :
  frame_rows 3 scenario /\
  numbers scenario "Sales" = Ok [of_Z 100; of_Z 50; of_Z 200] /\
  numbers scenario "Profit" = Ok [of_Z 20; of_Z (-10); of_Z 40] /\
  prepare (P := reader) Hello scenario = Ok (prepared Hello scenario) /\
  exists dfa,
    prepare (P := reader) Analysis scenario = Ok dfa /\
    forall name, name <> "Absolute Profit" ->
                 lookup name (prepared Hello scenario) = lookup name dfa.
Proof.
  assert (H1 : frame_rows 3 scenario) by (repeat constructor).
  assert (H2 : numbers scenario "Sales" = Ok [of_Z 100; of_Z 50; of_Z 200])
    by reflexivity.
  assert (H3 : numbers scenario "Profit" = Ok [of_Z 20; of_Z (-10); of_Z 40])
    by reflexivity.
  assert (H4 : prepare (P := reader) Hello scenario
               = Ok (prepared Hello scenario)) by by_computation.
  exact (conj H1 (conj H2 (conj H3 (conj H4
           (analysis_follows_hello_on_numbers (P := reader) _ _ 3 _ _
              H1 H2 H3 H4))))).
Defined.
